(** * Pinot traces exporter: span normalisation and multi-target writes

    A shallow embedding of [exporter/pinottracesexporter/pinot_exporter.go]
    and the properties of its reference builder, attribute projector,
    event extractor, span normaliser, writer and batch driver. *)

From Stdlib Require Import ZArith NArith Lia.
From Stdlib Require Import Ascii String Strings.Byte DecimalString.
From stdpp Require Import base strings list vector gmap.

Local Open Scope string_scope.
Local Open Scope Z_scope.

#[local] Set Warnings "-register-all".

(** ** Go runtime pieces the exporter relies on *)

(** The builtin [append(s, x)] on a slice. *)
Definition append {A : Type} (s : list A) (x : A) : list A := (s ++ [x])%list.

(** [encoding/hex]: lowercase hexadecimal of a byte sequence. *)
Module hex.

Definition hextable : string := "0123456789abcdef".

Definition digit (n : N) : ascii :=
  match String.get (N.to_nat n) hextable with
  | Some c => c
  | None => "0"%char
  end.

Definition EncodeByte (b : byte) : string :=
  let n := Byte.to_N b in
  String (digit (N.shiftr n 4)) (String (digit (N.land n 15)) EmptyString).

Fixpoint EncodeToString (src : list byte) : string :=
  match src with
  | [] => EmptyString
  | b :: rest => EncodeByte b ++ EncodeToString rest
  end.

End hex.

(** [strconv]: decimal formatting and parsing of a 64-bit [int]. *)
Module strconv.

Definition minInt64 : Z := - 2 ^ 63.
Definition maxInt64 : Z := 2 ^ 63 - 1.

(** [strconv.FormatInt(i, 10)]. *)
Definition FormatInt (i : Z) : string :=
  NilZero.string_of_int (Z.to_int i).

Definition digitVal (c : ascii) : option Z :=
  let n := Z.of_N (N_of_ascii c) in
  if (48 <=? n) && (n <=? 57) then Some (n - 48) else None.

(** The digits of a non-empty run, most significant first; [None] on
    any other character (a syntax error). *)
Fixpoint parseDigits (acc : Z) (s : string) : option Z :=
  match s with
  | EmptyString => Some acc
  | String c rest =>
      match digitVal c with
      | Some d => parseDigits (acc * 10 + d) rest
      | None => None
      end
  end.

Definition parseUnsigned (s : string) : option Z :=
  match s with
  | EmptyString => None
  | _ => parseDigits 0 s
  end.

(** [strconv.Atoi]: [Some n] when [err == nil], [None] on a syntax or
    range error. An optional sign, then at least one decimal digit. *)
Definition Atoi (s : string) : option Z :=
  let signed :=
    match s with
    | String "-"%char rest => (fun n => - n) <$> parseUnsigned rest
    | String "+"%char rest => parseUnsigned rest
    | _ => parseUnsigned s
    end in
  match signed with
  | Some n => if (minInt64 <=? n) && (n <=? maxInt64) then Some n else None
  | None => None
  end.

End strconv.

(** [crypto/md5]: the MD5 digest (RFC 1321) of a byte sequence. *)
Module md5.

Definition mask32 (x : Z) : Z := x mod 2 ^ 32.

Definition rotl32 (x : Z) (c : Z) : Z :=
  mask32 (Z.lor (Z.shiftl x c) (Z.shiftr (mask32 x) (32 - c))).

Definition not32 (x : Z) : Z := Z.lxor (mask32 x) 0xffffffff.

Definition shifts : list Z :=
  [ 7; 12; 17; 22; 7; 12; 17; 22; 7; 12; 17; 22; 7; 12; 17; 22;
    5; 9; 14; 20; 5; 9; 14; 20; 5; 9; 14; 20; 5; 9; 14; 20;
    4; 11; 16; 23; 4; 11; 16; 23; 4; 11; 16; 23; 4; 11; 16; 23;
    6; 10; 15; 21; 6; 10; 15; 21; 6; 10; 15; 21; 6; 10; 15; 21 ].

Definition table : list Z :=
  [
    0xd76aa478; 0xe8c7b756; 0x242070db; 0xc1bdceee;
    0xf57c0faf; 0x4787c62a; 0xa8304613; 0xfd469501;
    0x698098d8; 0x8b44f7af; 0xffff5bb1; 0x895cd7be;
    0x6b901122; 0xfd987193; 0xa679438e; 0x49b40821;
    0xf61e2562; 0xc040b340; 0x265e5a51; 0xe9b6c7aa;
    0xd62f105d; 0x02441453; 0xd8a1e681; 0xe7d3fbc8;
    0x21e1cde6; 0xc33707d6; 0xf4d50d87; 0x455a14ed;
    0xa9e3e905; 0xfcefa3f8; 0x676f02d9; 0x8d2a4c8a;
    0xfffa3942; 0x8771f681; 0x6d9d6122; 0xfde5380c;
    0xa4beea44; 0x4bdecfa9; 0xf6bb4b60; 0xbebfbc70;
    0x289b7ec6; 0xeaa127fa; 0xd4ef3085; 0x04881d05;
    0xd9d4d039; 0xe6db99e5; 0x1fa27cf8; 0xc4ac5665;
    0xf4292244; 0x432aff97; 0xab9423a7; 0xfc93a039;
    0x655b59c3; 0x8f0ccc92; 0xffeff47d; 0x85845dd1;
    0x6fa87e4f; 0xfe2ce6e0; 0xa3014314; 0x4e0811a1;
    0xf7537e82; 0xbd3af235; 0x2ad7d2bb; 0xeb86d391 ].

Definition byteVal (b : byte) : Z := Z.of_N (Byte.to_N b).

Definition byteOf (x : Z) : byte :=
  match Byte.of_N (Z.to_N (x mod 256)) with
  | Some b => b
  | None => x00
  end.

(** A 32-bit word and a 64-bit length, least significant byte first. *)
Definition putUint32 (x : Z) : list byte :=
  [ byteOf x; byteOf (Z.shiftr x 8); byteOf (Z.shiftr x 16);
    byteOf (Z.shiftr x 24) ].

Definition putUint64 (x : Z) : list byte :=
  (putUint32 (mask32 x) ++ putUint32 (mask32 (Z.shiftr x 32)))%list.

Definition uint32 (bs : list byte) : Z :=
  match bs with
  | [b0; b1; b2; b3] =>
      byteVal b0 + Z.shiftl (byteVal b1) 8 + Z.shiftl (byteVal b2) 16
      + Z.shiftl (byteVal b3) 24
  | _ => 0
  end.

(** The message followed by [0x80], zeros up to 56 modulo 64, and the
    bit length on eight bytes. *)
Definition pad (msg : list byte) : list byte :=
  let n := length msg in
  let zeros := ((55 + 64 - n mod 64) mod 64)%nat in
  (msg ++ [x80] ++ replicate zeros x00
     ++ putUint64 ((Z.of_nat n * 8) mod 2 ^ 64))%list.

Fixpoint words (n : nat) (bs : list byte) : list Z :=
  match n with
  | O => []
  | S n' => uint32 (take 4 bs) :: words n' (drop 4 bs)
  end.

Record digest := mkDigest { s0 : Z; s1 : Z; s2 : Z; s3 : Z }.

Definition init : digest :=
  mkDigest 0x67452301 0xefcdab89 0x98badcfe 0x10325476.

Definition round (m : list Z) (d : digest) (i : nat) : digest :=
  let '(mkDigest a b c dd) := d in
  let f :=
    if (i <? 16)%nat then Z.lor (Z.land b c) (Z.land (not32 b) dd)
    else if (i <? 32)%nat then Z.lor (Z.land dd b) (Z.land (not32 dd) c)
    else if (i <? 48)%nat then Z.lxor b (Z.lxor c dd)
    else Z.lxor c (Z.lor b (not32 dd)) in
  let g :=
    if (i <? 16)%nat then i
    else if (i <? 32)%nat then ((5 * i + 1) mod 16)%nat
    else if (i <? 48)%nat then ((3 * i + 5) mod 16)%nat
    else ((7 * i) mod 16)%nat in
  let f' := mask32 (f + a + nth i table 0 + nth g m 0) in
  mkDigest dd (mask32 (b + rotl32 f' (nth i shifts 0))) b c.

Definition block (d : digest) (chunk : list byte) : digest :=
  let m := words 16 chunk in
  let '(mkDigest a b c dd) := fold_left (round m) (seq 0 64) d in
  mkDigest (mask32 (s0 d + a)) (mask32 (s1 d + b))
           (mask32 (s2 d + c)) (mask32 (s3 d + dd)).

Fixpoint blocks (n : nat) (d : digest) (bs : list byte) : digest :=
  match n with
  | O => d
  | S n' => blocks n' (block d (take 64 bs)) (drop 64 bs)
  end.

(** [md5.Sum]: the sixteen bytes of the digest. *)
Definition Sum (data : list byte) : list byte :=
  let p := pad data in
  let d := blocks (length p / 64) init p in
  (putUint32 (s0 d) ++ putUint32 (s1 d) ++ putUint32 (s2 d)
     ++ putUint32 (s3 d))%list.

End md5.

(** ** The collector's trace data model ([model/pdata]) *)
Module pdata.

(** [SpanID] wraps an [[8]byte] and [TraceID] a [[16]byte]; their
    [Bytes] methods return the array itself, [IsEmpty] tells whether all
    its bytes are zero, and [HexString] is the empty string for an empty
    identifier. *)
Definition SpanID := vec byte 8.
Definition TraceID := vec byte 16.

Definition isZero (b : byte) : bool := Byte.eqb b x00.

Definition SpanID_Bytes (id : SpanID) : vec byte 8 := id.
Definition SpanID_IsEmpty (id : SpanID) : bool :=
  forallb isZero (vec_to_list id).
Definition SpanID_HexString (id : SpanID) : string :=
  if SpanID_IsEmpty id then "" else hex.EncodeToString (vec_to_list id).

Definition TraceID_Bytes (id : TraceID) : vec byte 16 := id.
Definition TraceID_IsEmpty (id : TraceID) : bool :=
  forallb isZero (vec_to_list id).
Definition TraceID_HexString (id : TraceID) : string :=
  if TraceID_IsEmpty id then "" else hex.EncodeToString (vec_to_list id).

(** Go's builtin [len] on a fixed-size array. *)
Definition len {n : nat} (a : vec byte n) : Z :=
  Z.of_nat (length (vec_to_list a)).

Inductive AttributeValueType :=
| AttributeValueTypeEmpty
| AttributeValueTypeString
| AttributeValueTypeBool
| AttributeValueTypeInt
| AttributeValueTypeDouble
| AttributeValueTypeMap
| AttributeValueTypeArray
| AttributeValueTypeBytes.

Definition AttributeValueType_String (t : AttributeValueType) : string :=
  match t with
  | AttributeValueTypeEmpty => "EMPTY"
  | AttributeValueTypeString => "STRING"
  | AttributeValueTypeBool => "BOOL"
  | AttributeValueTypeInt => "INT"
  | AttributeValueTypeDouble => "DOUBLE"
  | AttributeValueTypeMap => "MAP"
  | AttributeValueTypeArray => "ARRAY"
  | AttributeValueTypeBytes => "BYTES"
  end.

(** A typed attribute value. A double is kept as its IEEE-754 bit
    pattern; the exporter never reads it. *)
Inductive AttributeValue :=
| ValueEmpty
| ValueString (s : string)
| ValueBool (b : bool)
| ValueInt (i : Z)
| ValueDouble (bits : Z)
| ValueMap (kvs : list (string * AttributeValue))
| ValueArray (vs : list AttributeValue)
| ValueBytes (bs : list byte).

Definition AttributeValue_Type (v : AttributeValue) : AttributeValueType :=
  match v with
  | ValueEmpty => AttributeValueTypeEmpty
  | ValueString _ => AttributeValueTypeString
  | ValueBool _ => AttributeValueTypeBool
  | ValueInt _ => AttributeValueTypeInt
  | ValueDouble _ => AttributeValueTypeDouble
  | ValueMap _ => AttributeValueTypeMap
  | ValueArray _ => AttributeValueTypeArray
  | ValueBytes _ => AttributeValueTypeBytes
  end.

(** [StringVal] is the empty string unless the value is a string. *)
Definition StringVal (v : AttributeValue) : string :=
  match v with ValueString s => s | _ => "" end.

(** [IntVal] is zero unless the value is an integer. *)
Definition IntVal (v : AttributeValue) : Z :=
  match v with ValueInt i => i | _ => 0 end.

(** An [AttributeMap] is a slice of key/value pairs; [Range] visits it
    in slice order and [Get] returns the first entry with the key. *)
Definition AttributeMap := list (string * AttributeValue).

Definition Range {S : Type} (am : AttributeMap)
    (f : string -> AttributeValue -> S -> S) (s : S) : S :=
  fold_left (fun acc kv => f kv.1 kv.2 acc) am s.

Fixpoint Get (am : AttributeMap) (key : string) : option AttributeValue :=
  match am with
  | [] => None
  | (k, v) :: rest => if String.eqb k key then Some v else Get rest key
  end.

Record SpanLink := mkSpanLink {
  link_TraceID : TraceID;
  link_SpanID : SpanID;
}.

Record SpanEvent := mkSpanEvent {
  event_Name : string;
  event_Timestamp : Z;
  event_Attributes : AttributeMap;
}.

Record Resource := mkResource {
  resource_Attributes : AttributeMap;
}.

(** [Kind] and the status code are [int32] enumerations; the timestamps
    are [uint64] nanoseconds. *)
Record Span := mkSpan {
  span_TraceID : TraceID;
  span_SpanID : SpanID;
  span_ParentSpanID : SpanID;
  span_Name : string;
  span_StartTimestamp : Z;
  span_EndTimestamp : Z;
  span_Kind : Z;
  span_StatusCode : Z;
  span_Attributes : AttributeMap;
  span_Events : list SpanEvent;
  span_Links : list SpanLink;
}.

Record InstrumentationLibrarySpans := mkILS {
  ils_Spans : list Span;
}.

Record ResourceSpans := mkResourceSpans {
  rs_Resource : Resource;
  rs_InstrumentationLibrarySpans : list InstrumentationLibrarySpans;
}.

Record Traces := mkTraces {
  ResourceSpans_of : list ResourceSpans;
}.

End pdata.

(** ** The exporter *)

Record OtelSpanRef := mkOtelSpanRef {
  ref_TraceId : string;
  ref_SpanId : string;
  ref_RefType : string;
}.

(** [makeJaegerProtoReferences]. The error result is always [nil], so
    only the slice is returned alongside [None]. *)
Definition makeJaegerProtoReferences
    (links : list pdata.SpanLink)
    (parentSpanID : pdata.SpanID)
    (traceID : pdata.TraceID) : list OtelSpanRef * option string :=
  let parentSpanIDSet :=
    negb (pdata.len (pdata.SpanID_Bytes parentSpanID) =? 0) in
  if negb parentSpanIDSet && (Z.of_nat (length links) =? 0) then
    ([], None)
  else
    let refs : list OtelSpanRef := [] in
    let refs :=
      if parentSpanIDSet then
        append refs {| ref_TraceId := pdata.TraceID_HexString traceID;
                       ref_SpanId := pdata.SpanID_HexString parentSpanID;
                       ref_RefType := "CHILD_OF" |}
      else refs in
    let refs :=
      fold_left
        (fun refs link =>
           append refs {| ref_TraceId :=
                            pdata.TraceID_HexString (pdata.link_TraceID link);
                          ref_SpanId :=
                            pdata.SpanID_HexString (pdata.link_SpanID link);
                          ref_RefType := "FOLLOWS_FROM" |})
        links refs in
    (refs, None).

(** The records of the exporter's schema. Their declarations live outside
    this file's sources; the fields are the ones the exporter reads and
    writes, with the types it uses them at. Integer fields are kept as [Z]
    within the range of their Go type. *)

Module Event.
Record t := mk {
  Name : string;
  TimeUnixNano : Z;
  AttributeMap : gmap string string;
  IsError : bool;
}.

(** The zero value [Event{}]. *)
Definition zero : t := mk "" 0 ∅ false.

Definition set_Name (v : string) (e : t) : t :=
  mk v (TimeUnixNano e) (AttributeMap e) (IsError e).
Definition set_TimeUnixNano (v : Z) (e : t) : t :=
  mk (Name e) v (AttributeMap e) (IsError e).
Definition set_AttributeMap (v : gmap string string) (e : t) : t :=
  mk (Name e) (TimeUnixNano e) v (IsError e).
Definition set_IsError (v : bool) (e : t) : t :=
  mk (Name e) (TimeUnixNano e) (AttributeMap e) v.
End Event.

Module TraceModel.
Record t := mk {
  TraceId : string;
  SpanId : string;
  Name : string;
  DurationNano : Z;
  StartTimeUnixNano : Z;
  ServiceName : string;
  Kind : Z;
  References : list OtelSpanRef;
  TagMap : gmap string string;
  HasError : bool;
  Events : list string;
}.

Definition set_Events (v : list string) (m : t) : t :=
  mk (TraceId m) (SpanId m) (Name m) (DurationNano m) (StartTimeUnixNano m)
     (ServiceName m) (Kind m) (References m) (TagMap m) (HasError m) v.
Definition set_HasError (v : bool) (m : t) : t :=
  mk (TraceId m) (SpanId m) (Name m) (DurationNano m) (StartTimeUnixNano m)
     (ServiceName m) (Kind m) (References m) (TagMap m) v (Events m).
End TraceModel.

Module Span.
Record t := mk {
  TraceId : string;
  SpanId : string;
  ParentSpanId : string;
  Name : string;
  StartTimeUnixNano : Z;
  DurationNano : Z;
  ServiceName : string;
  Kind : Z;
  StatusCode : Z;
  TagMap : gmap string string;
  HasError : bool;
  TraceModel : TraceModel.t;
  ExternalHttpMethod : string;
  ExternalHttpUrl : string;
  Component : string;
  DBSystem : string;
  DBName : string;
  DBOperation : string;
  PeerService : string;
  Events : list string;
  HttpMethod : string;
  HttpUrl : string;
  HttpCode : string;
  HttpRoute : string;
  HttpHost : string;
  MsgSystem : string;
  MsgOperation : string;
  ErrorEvent : Event.t;
  ErrorID : string;
  ErrorGroupID : string;
  ResponseStatusCode : string;
  GRPCCode : string;
  GRPCMethod : string;
  RPCMethod : string;
  RPCService : string;
  RPCSystem : string;
}.

(** Field assignments [span.F = v]. *)
Definition set_HasError (v : bool) (s : t) : t :=
  mk (TraceId s) (SpanId s) (ParentSpanId s) (Name s)
     (StartTimeUnixNano s) (DurationNano s) (ServiceName s) (Kind s)
     (StatusCode s) (TagMap s) v (TraceModel s) (ExternalHttpMethod s)
     (ExternalHttpUrl s) (Component s) (DBSystem s) (DBName s)
     (DBOperation s) (PeerService s) (Events s) (HttpMethod s)
     (HttpUrl s) (HttpCode s) (HttpRoute s) (HttpHost s) (MsgSystem s)
     (MsgOperation s) (ErrorEvent s) (ErrorID s) (ErrorGroupID s)
     (ResponseStatusCode s) (GRPCCode s) (GRPCMethod s) (RPCMethod s)
     (RPCService s) (RPCSystem s).
Definition set_TraceModel (v : TraceModel.t) (s : t) : t :=
  mk (TraceId s) (SpanId s) (ParentSpanId s) (Name s)
     (StartTimeUnixNano s) (DurationNano s) (ServiceName s) (Kind s)
     (StatusCode s) (TagMap s) (HasError s) v (ExternalHttpMethod s)
     (ExternalHttpUrl s) (Component s) (DBSystem s) (DBName s)
     (DBOperation s) (PeerService s) (Events s) (HttpMethod s)
     (HttpUrl s) (HttpCode s) (HttpRoute s) (HttpHost s) (MsgSystem s)
     (MsgOperation s) (ErrorEvent s) (ErrorID s) (ErrorGroupID s)
     (ResponseStatusCode s) (GRPCCode s) (GRPCMethod s) (RPCMethod s)
     (RPCService s) (RPCSystem s).
Definition set_ExternalHttpMethod (v : string) (s : t) : t :=
  mk (TraceId s) (SpanId s) (ParentSpanId s) (Name s)
     (StartTimeUnixNano s) (DurationNano s) (ServiceName s) (Kind s)
     (StatusCode s) (TagMap s) (HasError s) (TraceModel s) v
     (ExternalHttpUrl s) (Component s) (DBSystem s) (DBName s)
     (DBOperation s) (PeerService s) (Events s) (HttpMethod s)
     (HttpUrl s) (HttpCode s) (HttpRoute s) (HttpHost s) (MsgSystem s)
     (MsgOperation s) (ErrorEvent s) (ErrorID s) (ErrorGroupID s)
     (ResponseStatusCode s) (GRPCCode s) (GRPCMethod s) (RPCMethod s)
     (RPCService s) (RPCSystem s).
Definition set_ExternalHttpUrl (v : string) (s : t) : t :=
  mk (TraceId s) (SpanId s) (ParentSpanId s) (Name s)
     (StartTimeUnixNano s) (DurationNano s) (ServiceName s) (Kind s)
     (StatusCode s) (TagMap s) (HasError s) (TraceModel s)
     (ExternalHttpMethod s) v (Component s) (DBSystem s) (DBName s)
     (DBOperation s) (PeerService s) (Events s) (HttpMethod s)
     (HttpUrl s) (HttpCode s) (HttpRoute s) (HttpHost s) (MsgSystem s)
     (MsgOperation s) (ErrorEvent s) (ErrorID s) (ErrorGroupID s)
     (ResponseStatusCode s) (GRPCCode s) (GRPCMethod s) (RPCMethod s)
     (RPCService s) (RPCSystem s).
Definition set_Component (v : string) (s : t) : t :=
  mk (TraceId s) (SpanId s) (ParentSpanId s) (Name s)
     (StartTimeUnixNano s) (DurationNano s) (ServiceName s) (Kind s)
     (StatusCode s) (TagMap s) (HasError s) (TraceModel s)
     (ExternalHttpMethod s) (ExternalHttpUrl s) v (DBSystem s) (DBName s)
     (DBOperation s) (PeerService s) (Events s) (HttpMethod s)
     (HttpUrl s) (HttpCode s) (HttpRoute s) (HttpHost s) (MsgSystem s)
     (MsgOperation s) (ErrorEvent s) (ErrorID s) (ErrorGroupID s)
     (ResponseStatusCode s) (GRPCCode s) (GRPCMethod s) (RPCMethod s)
     (RPCService s) (RPCSystem s).
Definition set_DBSystem (v : string) (s : t) : t :=
  mk (TraceId s) (SpanId s) (ParentSpanId s) (Name s)
     (StartTimeUnixNano s) (DurationNano s) (ServiceName s) (Kind s)
     (StatusCode s) (TagMap s) (HasError s) (TraceModel s)
     (ExternalHttpMethod s) (ExternalHttpUrl s) (Component s) v
     (DBName s) (DBOperation s) (PeerService s) (Events s) (HttpMethod s)
     (HttpUrl s) (HttpCode s) (HttpRoute s) (HttpHost s) (MsgSystem s)
     (MsgOperation s) (ErrorEvent s) (ErrorID s) (ErrorGroupID s)
     (ResponseStatusCode s) (GRPCCode s) (GRPCMethod s) (RPCMethod s)
     (RPCService s) (RPCSystem s).
Definition set_DBName (v : string) (s : t) : t :=
  mk (TraceId s) (SpanId s) (ParentSpanId s) (Name s)
     (StartTimeUnixNano s) (DurationNano s) (ServiceName s) (Kind s)
     (StatusCode s) (TagMap s) (HasError s) (TraceModel s)
     (ExternalHttpMethod s) (ExternalHttpUrl s) (Component s)
     (DBSystem s) v (DBOperation s) (PeerService s) (Events s)
     (HttpMethod s) (HttpUrl s) (HttpCode s) (HttpRoute s) (HttpHost s)
     (MsgSystem s) (MsgOperation s) (ErrorEvent s) (ErrorID s)
     (ErrorGroupID s) (ResponseStatusCode s) (GRPCCode s) (GRPCMethod s)
     (RPCMethod s) (RPCService s) (RPCSystem s).
Definition set_DBOperation (v : string) (s : t) : t :=
  mk (TraceId s) (SpanId s) (ParentSpanId s) (Name s)
     (StartTimeUnixNano s) (DurationNano s) (ServiceName s) (Kind s)
     (StatusCode s) (TagMap s) (HasError s) (TraceModel s)
     (ExternalHttpMethod s) (ExternalHttpUrl s) (Component s)
     (DBSystem s) (DBName s) v (PeerService s) (Events s) (HttpMethod s)
     (HttpUrl s) (HttpCode s) (HttpRoute s) (HttpHost s) (MsgSystem s)
     (MsgOperation s) (ErrorEvent s) (ErrorID s) (ErrorGroupID s)
     (ResponseStatusCode s) (GRPCCode s) (GRPCMethod s) (RPCMethod s)
     (RPCService s) (RPCSystem s).
Definition set_PeerService (v : string) (s : t) : t :=
  mk (TraceId s) (SpanId s) (ParentSpanId s) (Name s)
     (StartTimeUnixNano s) (DurationNano s) (ServiceName s) (Kind s)
     (StatusCode s) (TagMap s) (HasError s) (TraceModel s)
     (ExternalHttpMethod s) (ExternalHttpUrl s) (Component s)
     (DBSystem s) (DBName s) (DBOperation s) v (Events s) (HttpMethod s)
     (HttpUrl s) (HttpCode s) (HttpRoute s) (HttpHost s) (MsgSystem s)
     (MsgOperation s) (ErrorEvent s) (ErrorID s) (ErrorGroupID s)
     (ResponseStatusCode s) (GRPCCode s) (GRPCMethod s) (RPCMethod s)
     (RPCService s) (RPCSystem s).
Definition set_Events (v : list string) (s : t) : t :=
  mk (TraceId s) (SpanId s) (ParentSpanId s) (Name s)
     (StartTimeUnixNano s) (DurationNano s) (ServiceName s) (Kind s)
     (StatusCode s) (TagMap s) (HasError s) (TraceModel s)
     (ExternalHttpMethod s) (ExternalHttpUrl s) (Component s)
     (DBSystem s) (DBName s) (DBOperation s) (PeerService s) v
     (HttpMethod s) (HttpUrl s) (HttpCode s) (HttpRoute s) (HttpHost s)
     (MsgSystem s) (MsgOperation s) (ErrorEvent s) (ErrorID s)
     (ErrorGroupID s) (ResponseStatusCode s) (GRPCCode s) (GRPCMethod s)
     (RPCMethod s) (RPCService s) (RPCSystem s).
Definition set_HttpMethod (v : string) (s : t) : t :=
  mk (TraceId s) (SpanId s) (ParentSpanId s) (Name s)
     (StartTimeUnixNano s) (DurationNano s) (ServiceName s) (Kind s)
     (StatusCode s) (TagMap s) (HasError s) (TraceModel s)
     (ExternalHttpMethod s) (ExternalHttpUrl s) (Component s)
     (DBSystem s) (DBName s) (DBOperation s) (PeerService s) (Events s) v
     (HttpUrl s) (HttpCode s) (HttpRoute s) (HttpHost s) (MsgSystem s)
     (MsgOperation s) (ErrorEvent s) (ErrorID s) (ErrorGroupID s)
     (ResponseStatusCode s) (GRPCCode s) (GRPCMethod s) (RPCMethod s)
     (RPCService s) (RPCSystem s).
Definition set_HttpUrl (v : string) (s : t) : t :=
  mk (TraceId s) (SpanId s) (ParentSpanId s) (Name s)
     (StartTimeUnixNano s) (DurationNano s) (ServiceName s) (Kind s)
     (StatusCode s) (TagMap s) (HasError s) (TraceModel s)
     (ExternalHttpMethod s) (ExternalHttpUrl s) (Component s)
     (DBSystem s) (DBName s) (DBOperation s) (PeerService s) (Events s)
     (HttpMethod s) v (HttpCode s) (HttpRoute s) (HttpHost s)
     (MsgSystem s) (MsgOperation s) (ErrorEvent s) (ErrorID s)
     (ErrorGroupID s) (ResponseStatusCode s) (GRPCCode s) (GRPCMethod s)
     (RPCMethod s) (RPCService s) (RPCSystem s).
Definition set_HttpCode (v : string) (s : t) : t :=
  mk (TraceId s) (SpanId s) (ParentSpanId s) (Name s)
     (StartTimeUnixNano s) (DurationNano s) (ServiceName s) (Kind s)
     (StatusCode s) (TagMap s) (HasError s) (TraceModel s)
     (ExternalHttpMethod s) (ExternalHttpUrl s) (Component s)
     (DBSystem s) (DBName s) (DBOperation s) (PeerService s) (Events s)
     (HttpMethod s) (HttpUrl s) v (HttpRoute s) (HttpHost s)
     (MsgSystem s) (MsgOperation s) (ErrorEvent s) (ErrorID s)
     (ErrorGroupID s) (ResponseStatusCode s) (GRPCCode s) (GRPCMethod s)
     (RPCMethod s) (RPCService s) (RPCSystem s).
Definition set_HttpRoute (v : string) (s : t) : t :=
  mk (TraceId s) (SpanId s) (ParentSpanId s) (Name s)
     (StartTimeUnixNano s) (DurationNano s) (ServiceName s) (Kind s)
     (StatusCode s) (TagMap s) (HasError s) (TraceModel s)
     (ExternalHttpMethod s) (ExternalHttpUrl s) (Component s)
     (DBSystem s) (DBName s) (DBOperation s) (PeerService s) (Events s)
     (HttpMethod s) (HttpUrl s) (HttpCode s) v (HttpHost s) (MsgSystem s)
     (MsgOperation s) (ErrorEvent s) (ErrorID s) (ErrorGroupID s)
     (ResponseStatusCode s) (GRPCCode s) (GRPCMethod s) (RPCMethod s)
     (RPCService s) (RPCSystem s).
Definition set_HttpHost (v : string) (s : t) : t :=
  mk (TraceId s) (SpanId s) (ParentSpanId s) (Name s)
     (StartTimeUnixNano s) (DurationNano s) (ServiceName s) (Kind s)
     (StatusCode s) (TagMap s) (HasError s) (TraceModel s)
     (ExternalHttpMethod s) (ExternalHttpUrl s) (Component s)
     (DBSystem s) (DBName s) (DBOperation s) (PeerService s) (Events s)
     (HttpMethod s) (HttpUrl s) (HttpCode s) (HttpRoute s) v
     (MsgSystem s) (MsgOperation s) (ErrorEvent s) (ErrorID s)
     (ErrorGroupID s) (ResponseStatusCode s) (GRPCCode s) (GRPCMethod s)
     (RPCMethod s) (RPCService s) (RPCSystem s).
Definition set_MsgSystem (v : string) (s : t) : t :=
  mk (TraceId s) (SpanId s) (ParentSpanId s) (Name s)
     (StartTimeUnixNano s) (DurationNano s) (ServiceName s) (Kind s)
     (StatusCode s) (TagMap s) (HasError s) (TraceModel s)
     (ExternalHttpMethod s) (ExternalHttpUrl s) (Component s)
     (DBSystem s) (DBName s) (DBOperation s) (PeerService s) (Events s)
     (HttpMethod s) (HttpUrl s) (HttpCode s) (HttpRoute s) (HttpHost s) v
     (MsgOperation s) (ErrorEvent s) (ErrorID s) (ErrorGroupID s)
     (ResponseStatusCode s) (GRPCCode s) (GRPCMethod s) (RPCMethod s)
     (RPCService s) (RPCSystem s).
Definition set_MsgOperation (v : string) (s : t) : t :=
  mk (TraceId s) (SpanId s) (ParentSpanId s) (Name s)
     (StartTimeUnixNano s) (DurationNano s) (ServiceName s) (Kind s)
     (StatusCode s) (TagMap s) (HasError s) (TraceModel s)
     (ExternalHttpMethod s) (ExternalHttpUrl s) (Component s)
     (DBSystem s) (DBName s) (DBOperation s) (PeerService s) (Events s)
     (HttpMethod s) (HttpUrl s) (HttpCode s) (HttpRoute s) (HttpHost s)
     (MsgSystem s) v (ErrorEvent s) (ErrorID s) (ErrorGroupID s)
     (ResponseStatusCode s) (GRPCCode s) (GRPCMethod s) (RPCMethod s)
     (RPCService s) (RPCSystem s).
Definition set_ErrorEvent (v : Event.t) (s : t) : t :=
  mk (TraceId s) (SpanId s) (ParentSpanId s) (Name s)
     (StartTimeUnixNano s) (DurationNano s) (ServiceName s) (Kind s)
     (StatusCode s) (TagMap s) (HasError s) (TraceModel s)
     (ExternalHttpMethod s) (ExternalHttpUrl s) (Component s)
     (DBSystem s) (DBName s) (DBOperation s) (PeerService s) (Events s)
     (HttpMethod s) (HttpUrl s) (HttpCode s) (HttpRoute s) (HttpHost s)
     (MsgSystem s) (MsgOperation s) v (ErrorID s) (ErrorGroupID s)
     (ResponseStatusCode s) (GRPCCode s) (GRPCMethod s) (RPCMethod s)
     (RPCService s) (RPCSystem s).
Definition set_ErrorID (v : string) (s : t) : t :=
  mk (TraceId s) (SpanId s) (ParentSpanId s) (Name s)
     (StartTimeUnixNano s) (DurationNano s) (ServiceName s) (Kind s)
     (StatusCode s) (TagMap s) (HasError s) (TraceModel s)
     (ExternalHttpMethod s) (ExternalHttpUrl s) (Component s)
     (DBSystem s) (DBName s) (DBOperation s) (PeerService s) (Events s)
     (HttpMethod s) (HttpUrl s) (HttpCode s) (HttpRoute s) (HttpHost s)
     (MsgSystem s) (MsgOperation s) (ErrorEvent s) v (ErrorGroupID s)
     (ResponseStatusCode s) (GRPCCode s) (GRPCMethod s) (RPCMethod s)
     (RPCService s) (RPCSystem s).
Definition set_ErrorGroupID (v : string) (s : t) : t :=
  mk (TraceId s) (SpanId s) (ParentSpanId s) (Name s)
     (StartTimeUnixNano s) (DurationNano s) (ServiceName s) (Kind s)
     (StatusCode s) (TagMap s) (HasError s) (TraceModel s)
     (ExternalHttpMethod s) (ExternalHttpUrl s) (Component s)
     (DBSystem s) (DBName s) (DBOperation s) (PeerService s) (Events s)
     (HttpMethod s) (HttpUrl s) (HttpCode s) (HttpRoute s) (HttpHost s)
     (MsgSystem s) (MsgOperation s) (ErrorEvent s) (ErrorID s) v
     (ResponseStatusCode s) (GRPCCode s) (GRPCMethod s) (RPCMethod s)
     (RPCService s) (RPCSystem s).
Definition set_ResponseStatusCode (v : string) (s : t) : t :=
  mk (TraceId s) (SpanId s) (ParentSpanId s) (Name s)
     (StartTimeUnixNano s) (DurationNano s) (ServiceName s) (Kind s)
     (StatusCode s) (TagMap s) (HasError s) (TraceModel s)
     (ExternalHttpMethod s) (ExternalHttpUrl s) (Component s)
     (DBSystem s) (DBName s) (DBOperation s) (PeerService s) (Events s)
     (HttpMethod s) (HttpUrl s) (HttpCode s) (HttpRoute s) (HttpHost s)
     (MsgSystem s) (MsgOperation s) (ErrorEvent s) (ErrorID s)
     (ErrorGroupID s) v (GRPCCode s) (GRPCMethod s) (RPCMethod s)
     (RPCService s) (RPCSystem s).
Definition set_GRPCCode (v : string) (s : t) : t :=
  mk (TraceId s) (SpanId s) (ParentSpanId s) (Name s)
     (StartTimeUnixNano s) (DurationNano s) (ServiceName s) (Kind s)
     (StatusCode s) (TagMap s) (HasError s) (TraceModel s)
     (ExternalHttpMethod s) (ExternalHttpUrl s) (Component s)
     (DBSystem s) (DBName s) (DBOperation s) (PeerService s) (Events s)
     (HttpMethod s) (HttpUrl s) (HttpCode s) (HttpRoute s) (HttpHost s)
     (MsgSystem s) (MsgOperation s) (ErrorEvent s) (ErrorID s)
     (ErrorGroupID s) (ResponseStatusCode s) v (GRPCMethod s)
     (RPCMethod s) (RPCService s) (RPCSystem s).
Definition set_GRPCMethod (v : string) (s : t) : t :=
  mk (TraceId s) (SpanId s) (ParentSpanId s) (Name s)
     (StartTimeUnixNano s) (DurationNano s) (ServiceName s) (Kind s)
     (StatusCode s) (TagMap s) (HasError s) (TraceModel s)
     (ExternalHttpMethod s) (ExternalHttpUrl s) (Component s)
     (DBSystem s) (DBName s) (DBOperation s) (PeerService s) (Events s)
     (HttpMethod s) (HttpUrl s) (HttpCode s) (HttpRoute s) (HttpHost s)
     (MsgSystem s) (MsgOperation s) (ErrorEvent s) (ErrorID s)
     (ErrorGroupID s) (ResponseStatusCode s) (GRPCCode s) v (RPCMethod s)
     (RPCService s) (RPCSystem s).
Definition set_RPCMethod (v : string) (s : t) : t :=
  mk (TraceId s) (SpanId s) (ParentSpanId s) (Name s)
     (StartTimeUnixNano s) (DurationNano s) (ServiceName s) (Kind s)
     (StatusCode s) (TagMap s) (HasError s) (TraceModel s)
     (ExternalHttpMethod s) (ExternalHttpUrl s) (Component s)
     (DBSystem s) (DBName s) (DBOperation s) (PeerService s) (Events s)
     (HttpMethod s) (HttpUrl s) (HttpCode s) (HttpRoute s) (HttpHost s)
     (MsgSystem s) (MsgOperation s) (ErrorEvent s) (ErrorID s)
     (ErrorGroupID s) (ResponseStatusCode s) (GRPCCode s) (GRPCMethod s)
     v (RPCService s) (RPCSystem s).
Definition set_RPCService (v : string) (s : t) : t :=
  mk (TraceId s) (SpanId s) (ParentSpanId s) (Name s)
     (StartTimeUnixNano s) (DurationNano s) (ServiceName s) (Kind s)
     (StatusCode s) (TagMap s) (HasError s) (TraceModel s)
     (ExternalHttpMethod s) (ExternalHttpUrl s) (Component s)
     (DBSystem s) (DBName s) (DBOperation s) (PeerService s) (Events s)
     (HttpMethod s) (HttpUrl s) (HttpCode s) (HttpRoute s) (HttpHost s)
     (MsgSystem s) (MsgOperation s) (ErrorEvent s) (ErrorID s)
     (ErrorGroupID s) (ResponseStatusCode s) (GRPCCode s) (GRPCMethod s)
     (RPCMethod s) v (RPCSystem s).
Definition set_RPCSystem (v : string) (s : t) : t :=
  mk (TraceId s) (SpanId s) (ParentSpanId s) (Name s)
     (StartTimeUnixNano s) (DurationNano s) (ServiceName s) (Kind s)
     (StatusCode s) (TagMap s) (HasError s) (TraceModel s)
     (ExternalHttpMethod s) (ExternalHttpUrl s) (Component s)
     (DBSystem s) (DBName s) (DBOperation s) (PeerService s) (Events s)
     (HttpMethod s) (HttpUrl s) (HttpCode s) (HttpRoute s) (HttpHost s)
     (MsgSystem s) (MsgOperation s) (ErrorEvent s) (ErrorID s)
     (ErrorGroupID s) (ResponseStatusCode s) (GRPCCode s) (GRPCMethod s)
     (RPCMethod s) (RPCService s) v.
End Span.

(** Go's [error] values, by their message; [None] is [nil]. *)
Definition error := string.

(** [m[k]] on a Go map: the zero value when the key is absent. *)
Definition mapIndex (m : gmap string string) (k : string) : string :=
  default "" (m !! k).

(** Conversions to the fixed-width integer types of the schema. *)
Definition uint64 (x : Z) : Z := x mod 2 ^ 64.
Definition int64 (x : Z) : Z := (x + 2 ^ 63) mod 2 ^ 64 - 2 ^ 63.
Definition int8 (x : Z) : Z := (x + 2 ^ 7) mod 2 ^ 8 - 2 ^ 7.
Definition int16 (x : Z) : Z := (x + 2 ^ 15) mod 2 ^ 16 - 2 ^ 15.

(** [strings]: the two functions the exporter calls. *)
Module strings.

(** [strings.Replace(s, old, new, -1)] for a non-empty [old]: every
    non-overlapping occurrence, left to right. [skip] counts the bytes
    of an occurrence still to be dropped. *)
Fixpoint replaceFrom (old new s : string) (skip : nat) : string :=
  match s with
  | EmptyString => EmptyString
  | String c rest =>
      match skip with
      | S k => replaceFrom old new rest k
      | O =>
          if String.prefix old s then
            new ++ replaceFrom old new rest (String.length old - 1)
          else String c (replaceFrom old new rest 0)
      end
  end.

Definition ReplaceAll (s old new : string) : string :=
  replaceFrom old new s 0.

Definition lowerByte (c : ascii) : ascii :=
  let n := N_of_ascii c in
  if ((65 <=? n) && (n <=? 90))%N then ascii_of_N (n + 32) else c.

(** [strings.ToLower] on the ASCII letters; other bytes are kept. *)
Fixpoint ToLower (s : string) : string :=
  match s with
  | EmptyString => EmptyString
  | String c rest => String (lowerByte c) (ToLower rest)
  end.

End strings.

(** [github.com/google/uuid]: version-4 identifiers. *)
Module uuid.

Definition UUID := vec byte 16.

Definition setBits (b : byte) (keep set : N) : byte :=
  md5.byteOf (Z.of_N (N.lor (N.land (Byte.to_N b) keep) set)).

(** [uuid.New] on sixteen bytes read from the random source: the
    version and variant bits are forced. *)
Definition fromRandom (r : vec byte 16) : UUID :=
  let r := vinsert 6%fin (setBits (r !!! 6%fin) 0x0f 0x40) r in
  vinsert 8%fin (setBits (r !!! 8%fin) 0x3f 0x80) r.

Definition slice (u : UUID) (lo hi : nat) : list byte :=
  take (hi - lo) (drop lo (vec_to_list u)).

(** [UUID.String]: the 8-4-4-4-12 form. *)
Definition String (u : UUID) : string :=
  hex.EncodeToString (slice u 0 4) ++ "-"
  ++ hex.EncodeToString (slice u 4 6) ++ "-"
  ++ hex.EncodeToString (slice u 6 8) ++ "-"
  ++ hex.EncodeToString (slice u 8 10) ++ "-"
  ++ hex.EncodeToString (slice u 10 16).

End uuid.

(** [github.com/segmentio/kafka-go]: writers and messages. *)
Module kafka.

Record Writer := mkWriter {
  Brokers : list string;
  Topic : string;
  WriteTimeout : Z;
  ReadTimeout : Z;
}.

Record Message := mkMessage {
  Key : string;
  Value : string;
  Time : Z;
}.

End kafka.

(** The values placed in a [map[string]interface{}] payload. *)
Inductive JSONValue :=
| JInt (i : Z)
| JString (s : string)
| JBool (b : bool)
| JStrings (l : list string)
| JStringMap (m : gmap string string).

(** What the exporter does to the outside: messages handed to a writer
    and entries sent to the logger, in order. *)
Inductive IOEvent :=
| KafkaWrite (w : kafka.Writer) (msg : kafka.Message) (result : option error)
| LogError (msg : string) (err : error).

(** The state threaded through the exporter: the I/O done so far and the
    number of reads made from the random source. *)
Record World := mkWorld {
  history : list IOEvent;
  randReads : nat;
}.

(** The three topics are fixed by [storage.init]. *)
Definition spansTopic : string := "signoz-spans-topic".
Definition indexTopic : string := "signoz-index-v2-topic".
Definition errorTopic : string := "signoz-error-index-v2-topic".

Definition M (A : Type) : Type := World -> A * World.

Definition ret {A : Type} (a : A) : M A := fun w => (a, w).

Definition bind {A B : Type} (m : M A) (k : A -> M B) : M B :=
  fun w => let '(a, w') := m w in k a w'.

#[global] Instance M_ret : MRet M := @ret.
#[global] Instance M_bind : MBind M := fun A B k m => bind m k.

Definition emit (e : IOEvent) : M unit :=
  fun w => (tt, mkWorld (append (history w) e) (randReads w)).

(** A [for] loop over a slice whose body only acts on the world. *)
Fixpoint forEach {A : Type} (l : list A) (body : A -> M unit) : M unit :=
  match l with
  | [] => ret tt
  | x :: rest => bind (body x) (fun _ => forEach rest body)
  end.

(** [zap.S().Error(msg, err)]. *)
Definition zap_Error (msg : string) (err : error) : M unit :=
  emit (LogError msg err).

Record storage := mkStorage {
  pinotControllerUrl : string;
  kafkaUrl : string;
  spanKafkaWriter : option kafka.Writer;
  indexKafkaWriter : option kafka.Writer;
  errorKafkaWriter : option kafka.Writer;
}.

Definition second : Z := 1000000000.

(** [storage.init]: the three writers, one per topic. *)
Definition init (s : storage) : storage :=
  let writer topic :=
    kafka.mkWriter [kafkaUrl s] topic (10 * second) (10 * second) in
  mkStorage (pinotControllerUrl s) (kafkaUrl s)
    (Some (writer spansTopic))
    (Some (writer indexTopic))
    (Some (writer errorTopic)).

(** [ServiceNameForResource]. *)
Definition ServiceNameForResource (resource : pdata.Resource) : string :=
  match pdata.Get (pdata.resource_Attributes resource) "service.name" with
  | None => "<nil-service-name>"
  | Some service => pdata.StringVal service
  end.

(** [v.Type().String() == "INT"]. *)
Definition isINT (v : pdata.AttributeValue) : bool :=
  String.eqb (pdata.AttributeValueType_String (pdata.AttributeValue_Type v))
             "INT".

(** The body of the two [Range] calls of [newStructuredSpan] that fill
    the tag map. *)
Definition tagAttribute (k : string) (v : pdata.AttributeValue)
    (tagMap : gmap string string) : gmap string string :=
  if isINT v then <[k := strconv.FormatInt (pdata.IntVal v)]> tagMap
  else if negb (String.eqb (pdata.StringVal v) "") then
    <[k := pdata.StringVal v]> tagMap
  else tagMap.

(** The body of the [Range] call of [populateEvents] that flattens an
    event's attributes. *)
Definition eventAttribute (k : string) (v : pdata.AttributeValue)
    (event : Event.t) : Event.t :=
  if isINT v then
    Event.set_AttributeMap
      (<[k := strconv.FormatInt (pdata.IntVal v)]> (Event.AttributeMap event))
      event
  else
    Event.set_AttributeMap
      (<[k := pdata.StringVal v]> (Event.AttributeMap event)) event.

(** An attribute is applied to the tag map when it is integer-typed or
    its string form is not empty; [tagValue] is the text it is stored
    as. *)
Definition applied (v : pdata.AttributeValue) : bool :=
  isINT v || negb (String.eqb (pdata.StringVal v) "").

Definition tagValue (v : pdata.AttributeValue) : string :=
  if isINT v then strconv.FormatInt (pdata.IntVal v) else pdata.StringVal v.

(** The head of the loop body of [populateEvents]: the event record with
    its name, its time and its flattened attributes, not yet marked as an
    error. *)
Definition eventRecord (ev : pdata.SpanEvent) : Event.t :=
  let event := Event.zero in
  let event := Event.set_Name (pdata.event_Name ev) event in
  let event :=
    Event.set_TimeUnixNano (uint64 (pdata.event_Timestamp ev)) event in
  let event := Event.set_AttributeMap ∅ event in
  let event := Event.set_IsError false event in
  pdata.Range (pdata.event_Attributes ev) eventAttribute event.

(** [event.Name == "exception"], on the input event. *)
Definition isException (ev : pdata.SpanEvent) : bool :=
  String.eqb (pdata.event_Name ev) "exception".

(** The error id made from sixteen random bytes: the UUID text without
    its hyphens. *)
Definition errorIDOf (r : vec byte 16) : string :=
  strings.ReplaceAll (uuid.String (uuid.fromRandom r)) "-" "".

(** The digest the exporter renders as the error-group id. *)
Definition groupIDOf (serviceName exceptionType exceptionMessage : string)
    : string :=
  hex.EncodeToString
    (md5.Sum
       (list_byte_of_string
          (serviceName ++ exceptionType ++ exceptionMessage))).

(** [populateTraceModel]. *)
Definition populateTraceModel (span : Span.t) : Span.t :=
  let span :=
    Span.set_TraceModel
      (TraceModel.set_Events (Span.Events span) (Span.TraceModel span)) span in
  Span.set_TraceModel
    (TraceModel.set_HasError (Span.HasError span) (Span.TraceModel span)) span.

(** [stringToBool]. *)
Definition stringToBool (s : string) : bool :=
  if String.eqb (strings.ToLower s) "true" then true else false.

(** The references that [makeJaegerProtoReferences] builds from the
    parent and from one link. *)
Definition childOf (traceID : pdata.TraceID) (parentSpanID : pdata.SpanID)
    : OtelSpanRef :=
  {| ref_TraceId := pdata.TraceID_HexString traceID;
     ref_SpanId := pdata.SpanID_HexString parentSpanID;
     ref_RefType := "CHILD_OF" |}.

Definition followsFrom (link : pdata.SpanLink) : OtelSpanRef :=
  {| ref_TraceId := pdata.TraceID_HexString (pdata.link_TraceID link);
     ref_SpanId := pdata.SpanID_HexString (pdata.link_SpanID link);
     ref_RefType := "FOLLOWS_FROM" |}.

(** The spans of a batch in the order the driver visits them, each with
    the service name and the resource it is normalised with. *)
Definition spansInOrder (td : pdata.Traces)
    : list (string * pdata.Resource * pdata.Span) :=
  flat_map (fun rs =>
    flat_map (fun ils =>
      map (fun span =>
             (ServiceNameForResource (pdata.rs_Resource rs),
              pdata.rs_Resource rs, span))
          (pdata.ils_Spans ils))
      (pdata.rs_InstrumentationLibrarySpans rs))
    (pdata.ResourceSpans_of td).

(** ** Sample inputs *)

Definition emptySpanID : pdata.SpanID := vreplicate 8 x00.

Definition sampleSpanID : pdata.SpanID :=
  [# x00; xf0; x67; xaa; x0b; xa9; x02; xb7 ].

Definition otherSpanID : pdata.SpanID :=
  [# x53; x99; x5c; x3f; x42; xcd; x8a; xd8 ].

Definition sampleTraceID : pdata.TraceID :=
  [# x4b; xf9; x2f; x35; x77; xb3; x4d; xa6;
     xa3; xce; x92; x9d; x0e; x0e; x47; x36 ].

Definition sampleLinks : list pdata.SpanLink :=
  [ pdata.mkSpanLink sampleTraceID otherSpanID;
    pdata.mkSpanLink sampleTraceID sampleSpanID ].

(** Stand-ins for the outside world, used to run the exporter on the
    samples: a URL is kept as its text and its hostname is what lies
    between the scheme separator and the next slash; serialisation keeps
    a name; the broker refuses every message for the topics listed in
    [down]. *)
Fixpoint afterScheme (s : string) : string :=
  match s with
  | EmptyString => EmptyString
  | String c rest =>
      if String.prefix "://" s then String.substring 3 (String.length s) s
      else afterScheme rest
  end.

Fixpoint untilSlash (s : string) : string :=
  match s with
  | EmptyString => EmptyString
  | String c rest =>
      if Ascii.eqb c "/"%char then EmptyString else String c (untilSlash rest)
  end.

Definition sampleParse (s : string) : option string :=
  if String.eqb (afterScheme s) "" then None else Some s.

Definition sampleHostname (u : string) : string :=
  untilSlash (afterScheme u).

Definition sampleMarshalEvent (e : Event.t) : string * option error :=
  (Event.Name e, None).

Definition sampleMarshalTraceModel (m : TraceModel.t)
    : string * option error :=
  (TraceModel.Name m, None).

Definition sampleMarshalData (data : gmap string JSONValue)
    : string * option error :=
  (match data !! "traceID" with Some (JString t) => t | _ => "" end, None).

Definition sampleBroker (down : list string) (writer : kafka.Writer)
    (ctx : unit) (past : list IOEvent) (msg : kafka.Message)
    : option error :=
  if existsb (String.eqb (kafka.Topic writer)) down
  then Some "broker unreachable" else None.

Definition sampleClock (past : list IOEvent) : Z :=
  1700000000 * second + Z.of_nat (length past).

Definition sampleRandom (n : nat) : vec byte 16 :=
  vreplicate 16 (md5.byteOf (Z.of_nat n + 1)).

Definition world0 : World := mkWorld [] 0.

(** A record with nothing filled in but its service name and kind. *)
Definition recordFor (serviceName : string) (kind : Z) : Span.t :=
  {| Span.TraceId := ""; Span.SpanId := ""; Span.ParentSpanId := "";
     Span.Name := ""; Span.StartTimeUnixNano := 0; Span.DurationNano := 0;
     Span.ServiceName := serviceName; Span.Kind := kind;
     Span.StatusCode := 0; Span.TagMap := ∅; Span.HasError := false;
     Span.TraceModel :=
       {| TraceModel.TraceId := ""; TraceModel.SpanId := "";
          TraceModel.Name := ""; TraceModel.DurationNano := 0;
          TraceModel.StartTimeUnixNano := 0;
          TraceModel.ServiceName := serviceName; TraceModel.Kind := kind;
          TraceModel.References := []; TraceModel.TagMap := ∅;
          TraceModel.HasError := false; TraceModel.Events := [] |};
     Span.ExternalHttpMethod := ""; Span.ExternalHttpUrl := "";
     Span.Component := ""; Span.DBSystem := ""; Span.DBName := "";
     Span.DBOperation := ""; Span.PeerService := ""; Span.Events := [];
     Span.HttpMethod := ""; Span.HttpUrl := ""; Span.HttpCode := "";
     Span.HttpRoute := ""; Span.HttpHost := ""; Span.MsgSystem := "";
     Span.MsgOperation := ""; Span.ErrorEvent := Event.zero;
     Span.ErrorID := ""; Span.ErrorGroupID := "";
     Span.ResponseStatusCode := ""; Span.GRPCCode := "";
     Span.GRPCMethod := ""; Span.RPCMethod := ""; Span.RPCService := "";
     Span.RPCSystem := "" |}.

Definition sampleStorage : storage :=
  init (mkStorage "http://pinot:9000" "kafka:9092" None None None).

Definition exceptionEvent (ty msg : string) (ts : Z) : pdata.SpanEvent :=
  pdata.mkSpanEvent "exception" ts
    [ ("exception.type", pdata.ValueString ty);
      ("exception.message", pdata.ValueString msg) ].

Definition sampleEvents : list pdata.SpanEvent :=
  [ exceptionEvent "Timeout" "upstream timed out" 10;
    pdata.mkSpanEvent "retry" 11 [ ("attempt", pdata.ValueInt 2) ];
    exceptionEvent "ValidationError" "bad card" 12;
    pdata.mkSpanEvent "done" 13 [] ].

Definition spansWriter : kafka.Writer :=
  kafka.mkWriter ["kafka:9092"] spansTopic (10 * second) (10 * second).

Definition indexWriter : kafka.Writer :=
  kafka.mkWriter ["kafka:9092"] indexTopic (10 * second) (10 * second).

Definition sampleSpan (attributes : pdata.AttributeMap) : pdata.Span :=
  {| pdata.span_TraceID := sampleTraceID;
     pdata.span_SpanID := sampleSpanID;
     pdata.span_ParentSpanID := emptySpanID;
     pdata.span_Name := "POST /pay";
     pdata.span_StartTimestamp := 1000;
     pdata.span_EndTimestamp := 1500;
     pdata.span_Kind := 3;
     pdata.span_StatusCode := 1;
     pdata.span_Attributes := attributes;
     pdata.span_Events := sampleEvents;
     pdata.span_Links := [] |}.

Definition sampleBatch : pdata.Traces :=
  pdata.mkTraces
    [ pdata.mkResourceSpans
        (pdata.mkResource [ ("service.name", pdata.ValueString "checkout") ])
        [ pdata.mkILS [ sampleSpan []; sampleSpan [] ];
          pdata.mkILS [ sampleSpan [] ] ] ].

Definition isLogError (e : IOEvent) : bool :=
  match e with LogError _ _ => true | KafkaWrite _ _ _ => false end.

Definition isWriteTo (topic : string) (e : IOEvent) : bool :=
  match e with
  | KafkaWrite writer _ _ => String.eqb (kafka.Topic writer) topic
  | LogError _ _ => false
  end.

Section Exporter.

(** [net/url]: [url_Parse s] is [Some u] when [url.Parse] returns a nil
    error. *)
Variable URL : Type.
Variable url_Parse : string -> option URL.
Variable URL_Hostname : URL -> string.

(** [encoding/json] on the three shapes the exporter serialises: the
    bytes and the error that [json.Marshal] returns. *)
Variable json_Marshal_Event : Event.t -> string * option error.
Variable json_Marshal_TraceModel : TraceModel.t -> string * option error.
Variable json_Marshal_data : gmap string JSONValue -> string * option error.

(** The broker, the clock and the random source: the outcome of a
    [WriteMessages] call and the reading of [time.Now] after a given
    history, and the sixteen bytes of the n-th random read. *)
Variable Context : Type.
Variable WriteMessages :
  kafka.Writer -> Context -> list IOEvent -> kafka.Message -> option error.
Variable time_Now : list IOEvent -> Z.
Variable rand_Read : nat -> vec byte 16.

(** [uuid.New]. *)
Definition uuid_New : M uuid.UUID :=
  fun w => (uuid.fromRandom (rand_Read (randReads w)),
            mkWorld (history w) (S (randReads w))).

(** [writer.WriteMessages(ctx, kafka.Message{Key, Value, Time: time.Now()})]. *)
Definition sendMessage (writer : kafka.Writer) (ctx : Context)
    (key value : string) : M (option error) :=
  fun w =>
    let msg := kafka.mkMessage key value (time_Now (history w)) in
    let r := WriteMessages writer ctx (history w) msg in
    (r, mkWorld (append (history w) (KafkaWrite writer msg r)) (randReads w)).

(** The body of the [Range] call of [populateOtherDimensions]. *)
Definition projectAttribute (attributes : pdata.AttributeMap)
    (k : string) (v : pdata.AttributeValue) (span : Span.t) : Span.t :=
  if String.eqb k "http.status_code" then
    let span :=
      if pdata.IntVal v >=? 400 then Span.set_HasError true span else span in
    let span :=
      Span.set_HttpCode (strconv.FormatInt (pdata.IntVal v)) span in
    Span.set_ResponseStatusCode (Span.HttpCode span) span
  else if String.eqb k "http.url" && (Span.Kind span =? 3) then
    let value := pdata.StringVal v in
    let value :=
      match url_Parse value with
      | Some valueUrl => URL_Hostname valueUrl
      | None => value
      end in
    Span.set_ExternalHttpUrl value span
  else if String.eqb k "http.method" && (Span.Kind span =? 3) then
    Span.set_ExternalHttpMethod (pdata.StringVal v) span
  else if String.eqb k "http.url" && negb (Span.Kind span =? 3) then
    Span.set_HttpUrl (pdata.StringVal v) span
  else if String.eqb k "http.method" && negb (Span.Kind span =? 3) then
    Span.set_HttpMethod (pdata.StringVal v) span
  else if String.eqb k "http.route" then
    Span.set_HttpRoute (pdata.StringVal v) span
  else if String.eqb k "http.host" then
    Span.set_HttpHost (pdata.StringVal v) span
  else if String.eqb k "messaging.system" then
    Span.set_MsgSystem (pdata.StringVal v) span
  else if String.eqb k "messaging.operation" then
    Span.set_MsgOperation (pdata.StringVal v) span
  else if String.eqb k "component" then
    Span.set_Component (pdata.StringVal v) span
  else if String.eqb k "db.system" then
    Span.set_DBSystem (pdata.StringVal v) span
  else if String.eqb k "db.name" then
    Span.set_DBName (pdata.StringVal v) span
  else if String.eqb k "db.operation" then
    Span.set_DBOperation (pdata.StringVal v) span
  else if String.eqb k "peer.service" then
    Span.set_PeerService (pdata.StringVal v) span
  else if String.eqb k "rpc.grpc.status_code" then
    let statusString := strconv.Atoi (pdata.StringVal v) in
    let statusInt := pdata.IntVal v in
    let statusInt :=
      match statusString with
      | Some n => if negb (n =? 0) then n else statusInt
      | None => statusInt
      end in
    let span :=
      if statusInt >=? 2 then Span.set_HasError true span else span in
    let span := Span.set_GRPCCode (strconv.FormatInt statusInt) span in
    Span.set_ResponseStatusCode (Span.GRPCCode span) span
  else if String.eqb k "rpc.method" then
    let span := Span.set_RPCMethod (pdata.StringVal v) span in
    match pdata.Get attributes "rpc.system" with
    | Some system =>
        if String.eqb (pdata.StringVal system) "grpc" then
          Span.set_GRPCMethod (pdata.StringVal v) span
        else span
    | None => span
    end
  else if String.eqb k "rpc.service" then
    Span.set_RPCService (pdata.StringVal v) span
  else if String.eqb k "rpc.system" then
    Span.set_RPCSystem (pdata.StringVal v) span
  else if String.eqb k "rpc.jsonrpc.error_code" then
    Span.set_ResponseStatusCode (pdata.StringVal v) span
  else span.

(** [populateOtherDimensions]. *)
Definition populateOtherDimensions (attributes : pdata.AttributeMap)
    (span : Span.t) : Span.t :=
  pdata.Range attributes (projectAttribute attributes) span.

(** The body of the loop of [populateEvents], for one event. *)
Definition populateEvent (ev : pdata.SpanEvent) (span : Span.t)
    : M Span.t :=
  let event := eventRecord ev in
  '(event, span) ←
    (if String.eqb (Event.Name event) "exception" then
       let event := Event.set_IsError true event in
       let span := Span.set_ErrorEvent event span in
       uuidWithHyphen ← uuid_New;
       let uuid := strings.ReplaceAll (uuid.String uuidWithHyphen) "-" "" in
       let span := Span.set_ErrorID uuid span in
       let hmd5 :=
         md5.Sum
           (list_byte_of_string
              (Span.ServiceName span
               ++ mapIndex (Event.AttributeMap (Span.ErrorEvent span))
                           "exception.type"
               ++ mapIndex (Event.AttributeMap (Span.ErrorEvent span))
                           "exception.message")) in
       let span := Span.set_ErrorGroupID (hex.EncodeToString hmd5) span in
       mret (event, span)
     else mret (event, span));
  let stringEvent := (json_Marshal_Event event).1 in
  mret (Span.set_Events (append (Span.Events span) stringEvent) span).

(** [populateEvents]: the events in order. *)
Fixpoint populateEvents (events : list pdata.SpanEvent) (span : Span.t)
    : M Span.t :=
  match events with
  | [] => mret span
  | ev :: rest => span ← populateEvent ev span; populateEvents rest span
  end.

(** [newStructuredSpan]. *)
Definition newStructuredSpan (otelSpan : pdata.Span) (ServiceName : string)
    (resource : pdata.Resource) : M Span.t :=
  let durationNano :=
    uint64 (pdata.span_EndTimestamp otelSpan
            - pdata.span_StartTimestamp otelSpan) in
  let attributes := pdata.span_Attributes otelSpan in
  let resourceAttributes := pdata.resource_Attributes resource in
  let tagMap : gmap string string := ∅ in
  let tagMap := pdata.Range attributes tagAttribute tagMap in
  let tagMap := pdata.Range resourceAttributes tagAttribute tagMap in
  let references :=
    (makeJaegerProtoReferences (pdata.span_Links otelSpan)
       (pdata.span_ParentSpanID otelSpan) (pdata.span_TraceID otelSpan)).1 in
  let span :=
    {| Span.TraceId := pdata.TraceID_HexString (pdata.span_TraceID otelSpan);
       Span.SpanId := pdata.SpanID_HexString (pdata.span_SpanID otelSpan);
       Span.ParentSpanId :=
         pdata.SpanID_HexString (pdata.span_ParentSpanID otelSpan);
       Span.Name := pdata.span_Name otelSpan;
       Span.StartTimeUnixNano := uint64 (pdata.span_StartTimestamp otelSpan);
       Span.DurationNano := durationNano;
       Span.ServiceName := ServiceName;
       Span.Kind := int8 (pdata.span_Kind otelSpan);
       Span.StatusCode := int16 (pdata.span_StatusCode otelSpan);
       Span.TagMap := tagMap;
       Span.HasError := false;
       Span.TraceModel :=
         {| TraceModel.TraceId :=
              pdata.TraceID_HexString (pdata.span_TraceID otelSpan);
            TraceModel.SpanId :=
              pdata.SpanID_HexString (pdata.span_SpanID otelSpan);
            TraceModel.Name := pdata.span_Name otelSpan;
            TraceModel.DurationNano := durationNano;
            TraceModel.StartTimeUnixNano :=
              uint64 (pdata.span_StartTimestamp otelSpan);
            TraceModel.ServiceName := ServiceName;
            TraceModel.Kind := int8 (pdata.span_Kind otelSpan);
            TraceModel.References := references;
            TraceModel.TagMap := tagMap;
            TraceModel.HasError := false;
            TraceModel.Events := [] |};
       Span.ExternalHttpMethod := ""; Span.ExternalHttpUrl := "";
       Span.Component := ""; Span.DBSystem := ""; Span.DBName := "";
       Span.DBOperation := ""; Span.PeerService := ""; Span.Events := [];
       Span.HttpMethod := ""; Span.HttpUrl := ""; Span.HttpCode := "";
       Span.HttpRoute := ""; Span.HttpHost := ""; Span.MsgSystem := "";
       Span.MsgOperation := ""; Span.ErrorEvent := Event.zero;
       Span.ErrorID := ""; Span.ErrorGroupID := "";
       Span.ResponseStatusCode := ""; Span.GRPCCode := "";
       Span.GRPCMethod := ""; Span.RPCMethod := ""; Span.RPCService := "";
       Span.RPCSystem := "" |} in
  let span :=
    if Span.StatusCode span =? 2 then Span.set_HasError true span
    else span in
  let span := populateOtherDimensions attributes span in
  span ← populateEvents (pdata.span_Events otelSpan) span;
  mret (populateTraceModel span).

Definition logMessage : string := "Error in writing spans to pinot: ".

(** The last steps shared by the three writes: serialise the payload,
    hand it to the writer, log and return the first failure. *)
Definition marshalAndSend (writer : kafka.Writer) (ctx : Context)
    (data : gmap string JSONValue) : M (option error) :=
  let '(dataJsonBytes, dataMarshallErr) := json_Marshal_data data in
  match dataMarshallErr with
  | Some e => zap_Error logMessage e;; mret (Some e)
  | None =>
      kafkaWriteError ←
        sendMessage writer ctx (strconv.FormatInt 1) dataJsonBytes;
      match kafkaWriteError with
      | Some e => zap_Error logMessage e;; mret (Some e)
      | None => mret None
      end
  end.

(** [storage.writeModel], on the non-nil [s.spanKafkaWriter]. *)
Definition writeModel (writer : kafka.Writer) (ctx : Context)
    (structuredSpan : Span.t) : M (option error) :=
  let '(span, err) :=
    json_Marshal_TraceModel (Span.TraceModel structuredSpan) in
  match err with
  | Some e => zap_Error logMessage e;; mret (Some e)
  | None =>
      let data : gmap string JSONValue :=
        list_to_map
          [ ("timestamp", JInt (int64 (Span.StartTimeUnixNano structuredSpan)));
            ("traceID", JString (Span.TraceId structuredSpan));
            ("model", JString span) ] in
      marshalAndSend writer ctx data
  end.

(** [storage.writeIndex], on the non-nil [s.indexKafkaWriter]. *)
Definition writeIndex (writer : kafka.Writer) (ctx : Context)
    (structuredSpan : Span.t) : M (option error) :=
  let data : gmap string JSONValue :=
    list_to_map
      [ ("timestamp", JInt (int64 (Span.StartTimeUnixNano structuredSpan)));
        ("traceID", JString (Span.TraceId structuredSpan));
        ("spanID", JString (Span.SpanId structuredSpan));
        ("parentSpanID", JString (Span.ParentSpanId structuredSpan));
        ("serviceName", JString (Span.ServiceName structuredSpan));
        ("name", JString (Span.Name structuredSpan));
        ("kind", JInt (Span.Kind structuredSpan));
        ("durationNanos", JInt (Span.DurationNano structuredSpan));
        ("statusCode", JInt (Span.StatusCode structuredSpan));
        ("externalHttpMethod", JString (Span.ExternalHttpMethod structuredSpan));
        ("externalHttpUrl", JString (Span.ExternalHttpUrl structuredSpan));
        ("component", JString (Span.Component structuredSpan));
        ("dbSystem", JString (Span.DBSystem structuredSpan));
        ("dbName", JString (Span.DBName structuredSpan));
        ("dbOperation", JString (Span.DBOperation structuredSpan));
        ("peerService", JString (Span.PeerService structuredSpan));
        ("events", JStrings (Span.Events structuredSpan));
        ("httpMethod", JString (Span.HttpMethod structuredSpan));
        ("httpUrl", JString (Span.HttpUrl structuredSpan));
        ("httpCode", JString (Span.HttpCode structuredSpan));
        ("httpRoute", JString (Span.HttpRoute structuredSpan));
        ("httpHost", JString (Span.HttpHost structuredSpan));
        ("msgSystem", JString (Span.MsgSystem structuredSpan));
        ("msgOperation", JString (Span.MsgOperation structuredSpan));
        ("hasError", JBool (Span.HasError structuredSpan));
        ("tagMap", JStringMap (Span.TagMap structuredSpan)) ] in
  marshalAndSend writer ctx data.

(** [storage.writeError], on the non-nil [s.errorKafkaWriter]. *)
Definition writeError (writer : kafka.Writer) (ctx : Context)
    (structuredSpan : Span.t) : M (option error) :=
  let errorEvent := Span.ErrorEvent structuredSpan in
  if String.eqb (Event.Name errorEvent) "" then mret None
  else
    let attr := mapIndex (Event.AttributeMap errorEvent) in
    let data : gmap string JSONValue :=
      list_to_map
        [ ("timestamp", JInt (int64 (Event.TimeUnixNano errorEvent)));
          ("errorID", JString (Span.ErrorID structuredSpan));
          ("groupID", JString (Span.ErrorGroupID structuredSpan));
          ("traceID", JString (Span.TraceId structuredSpan));
          ("spanID", JString (Span.SpanId structuredSpan));
          ("serviceName", JString (Span.ServiceName structuredSpan));
          ("exceptionType", JString (attr "exception.type"));
          ("exceptionMessage", JString (attr "exception.message"));
          ("exceptionStacktrace", JString (attr "exception.stacktrace"));
          ("exceptionEscaped", JBool (stringToBool (attr "exception.escaped"))) ] in
    marshalAndSend writer ctx data.

(** [storage.write]: the three writes in order, each behind its nil
    check, stopping at the first error. *)
Definition write (s : storage) (ctx : Context) (structuredSpan : Span.t)
    : M (option error) :=
  err ← match spanKafkaWriter s with
        | Some writer => writeModel writer ctx structuredSpan
        | None => mret None
        end;
  match err with
  | Some e => mret (Some e)
  | None =>
      err ← match indexKafkaWriter s with
            | Some writer => writeIndex writer ctx structuredSpan
            | None => mret None
            end;
      match err with
      | Some e => mret (Some e)
      | None =>
          err ← match errorKafkaWriter s with
                | Some writer => writeError writer ctx structuredSpan
                | None => mret None
                end;
          match err with
          | Some e => mret (Some e)
          | None => mret None
          end
      end
  end.

(** The body of the innermost loop of [pushTraceData], for one span. *)
Definition pushSpan (s : storage) (ctx : Context) (serviceName : string)
    (resource : pdata.Resource) (span : pdata.Span) : M unit :=
  structuredSpan ← newStructuredSpan span serviceName resource;
  err ← write s ctx structuredSpan;
  match err with
  | Some e => zap_Error logMessage e
  | None => mret tt
  end.

(** [storage.pushTraceData]. *)
Definition pushTraceData (s : storage) (ctx : Context) (td : pdata.Traces)
    : M (option error) :=
  forEach (pdata.ResourceSpans_of td) (fun rs =>
    let serviceName := ServiceNameForResource (pdata.rs_Resource rs) in
    forEach (pdata.rs_InstrumentationLibrarySpans rs) (fun ils =>
      forEach (pdata.ils_Spans ils) (fun span =>
        pushSpan s ctx serviceName (pdata.rs_Resource rs) span)));;
  mret None.

(** What a failed sub-write leaves behind: either only the log entry of
    a serialisation failure, or the refused message followed by its log
    entry. *)
Definition failureTrail (writer : kafka.Writer) (e : error)
    (ext : list IOEvent) : Prop :=
  ext = [LogError logMessage e]
  \/ exists msg,
      ext = [KafkaWrite writer msg (Some e); LogError logMessage e].

(** The world after the model write when it did not fail: untouched when
    the writer is absent. *)
Definition afterModel (s : storage) (ctx : Context) (span : Span.t)
    (w w1 : World) : Prop :=
  match spanKafkaWriter s with
  | Some writer => writeModel writer ctx span w = (None, w1)
  | None => w1 = w
  end.

(** ** Notions used to state further properties *)

(** The code an [rpc.grpc.status_code] value stands for. *)
Definition grpcStatus (v : pdata.AttributeValue) : Z :=
  match strconv.Atoi (pdata.StringVal v) with
  | Some n => if negb (n =? 0) then n else pdata.IntVal v
  | None => pdata.IntVal v
  end.

(** The attributes that make the projector set has-error. *)
Definition marksError (kv : string * pdata.AttributeValue) : bool :=
  (String.eqb kv.1 "http.status_code" && (pdata.IntVal kv.2 >=? 400))
  || (String.eqb kv.1 "rpc.grpc.status_code" && (grpcStatus kv.2 >=? 2)).

(** The keys the projector knows. *)
Definition knownKeys : list string :=
  [ "http.status_code"; "http.url"; "http.method"; "http.route";
    "http.host"; "messaging.system"; "messaging.operation"; "component";
    "db.system"; "db.name"; "db.operation"; "peer.service";
    "rpc.grpc.status_code"; "rpc.method"; "rpc.service"; "rpc.system";
    "rpc.jsonrpc.error_code" ].

(** The fields of a record that only [newStructuredSpan] itself sets. *)
Definition header (s : Span.t) :=
  (Span.TraceId s, Span.SpanId s, Span.ParentSpanId s, Span.Name s,
   Span.StartTimeUnixNano s, Span.DurationNano s, Span.ServiceName s,
   Span.Kind s, Span.StatusCode s, Span.TagMap s, Span.TraceModel s).

(** The serialised form of one input event, as appended to the record:
    an exception event is serialised with its error mark. *)
Definition serialised (ev : pdata.SpanEvent) : string :=
  (json_Marshal_Event
     (if isException ev then Event.set_IsError true (eventRecord ev)
      else eventRecord ev)).1.

(** The writer an I/O event went to, and the message it carried. *)
Definition writerOf (e : IOEvent) : option kafka.Writer :=
  match e with KafkaWrite writer _ _ => Some writer | LogError _ _ => None end.

Definition messageOf (e : IOEvent) : option kafka.Message :=
  match e with KafkaWrite _ msg _ => Some msg | LogError _ _ => None end.

(** A nil-able writer as the list of writers it contributes. *)
Definition configured (writer : option kafka.Writer) : list kafka.Writer :=
  match writer with Some wr => [wr] | None => [] end.

(** The text an attribute puts in the response-status-code field, if it
    is one of the three that write it. *)
Definition statusText (kv : string * pdata.AttributeValue) : option string :=
  if String.eqb kv.1 "http.status_code" then
    Some (strconv.FormatInt (pdata.IntVal kv.2))
  else if String.eqb kv.1 "rpc.grpc.status_code" then
    Some (strconv.FormatInt (grpcStatus kv.2))
  else if String.eqb kv.1 "rpc.jsonrpc.error_code" then
    Some (pdata.StringVal kv.2)
  else None.

(** Whether the first rpc.system attribute of a bag is the string
    "grpc". *)
Definition isGrpc (attributes : pdata.AttributeMap) : bool :=
  match pdata.Get attributes "rpc.system" with
  | Some system => String.eqb (pdata.StringVal system) "grpc"
  | None => false
  end.

(** The fields of a record that only the event extractor sets. *)
Definition eventFields (s : Span.t) :=
  (Span.Events s, Span.ErrorEvent s, Span.ErrorID s, Span.ErrorGroupID s).

(** A lowercase hexadecimal digit. *)
Definition isHexDigit (c : ascii) : bool :=
  let n := N_of_ascii c in
  (((48 <=? n) && (n <=? 57)) || ((97 <=? n) && (n <=? 102)))%N.

(** What one attempted message leaves in the history: the message with
    the broker's answer, followed by a log entry when it was refused. *)
Definition attempt (writer : kafka.Writer) (msg : kafka.Message)
    (r : option error) : list IOEvent :=
  KafkaWrite writer msg r
  :: match r with Some e => [LogError logMessage e] | None => [] end.

(** Serialisation that never fails, as is the case for the shapes the
    exporter serialises. *)
Definition marshalsAlways : Prop :=
  (forall m, (json_Marshal_TraceModel m).2 = None)
  /\ (forall d, (json_Marshal_data d).2 = None).

(** The writers a record is due to be sent to, in order: the configured
    ones among model and index, then the error writer if the record
    carries an error event. *)
Definition plan (s : storage) (span : Span.t) : list kafka.Writer :=
  (configured (spanKafkaWriter s) ++ configured (indexKafkaWriter s)
   ++ (if String.eqb (Event.Name (Span.ErrorEvent span)) "" then []
       else configured (errorKafkaWriter s)))%list.

(** A step of the writer that goes to the writers [p]: from any world it
    only appends to the history, the messages it hands over go to an
    initial part of [p], all of [p] when it returns nil, and a returned
    error has been both refused by a writer and logged. *)
Definition goesTo (m : M (option error)) (p : list kafka.Writer) : Prop :=
  forall w,
    exists ext r,
      m w = (r, mkWorld (history w ++ ext) (randReads w))
      /\ (exists rest,
            p = (omap writerOf ext ++ rest)%list
            /\ (r = None -> rest = [])
            /\ (forall e, r = Some e -> omap writerOf ext <> []))
      /\ Forall (fun msg => kafka.Key msg = "1") (omap messageOf ext)
      /\ (forall e, r = Some e -> LogError logMessage e ∈ ext)
      /\ (r = None -> Forall (fun e => isLogError e = false) ext).

(** Go's [if err := step; err != nil { return err }] followed by more. *)
Definition orReturn (step rest : M (option error)) : M (option error) :=
  fun w =>
    let '(err, w') := step w in
    match err with
    | Some e => (Some e, w')
    | None => rest w'
    end.

(** The number of messages handed to a topic in a history. *)
Definition writesTo (topic : string) (l : list IOEvent) : nat :=
  length (List.filter (isWriteTo topic) l).

Definition onTopic (topic : string) (writer : kafka.Writer) : bool :=
  String.eqb (kafka.Topic writer) topic.

(** The number of exception events of a span. *)
Definition exceptionsOf (span : pdata.Span) : nat :=
  length (filter isException (pdata.span_Events span)).

(** A span that ends 500 ns before it starts, and one with attributes
    the projector does not know. *)
Definition invertedSpan : pdata.Span :=
  {| pdata.span_TraceID := sampleTraceID;
     pdata.span_SpanID := sampleSpanID;
     pdata.span_ParentSpanID := otherSpanID;
     pdata.span_Name := "GET /cart";
     pdata.span_StartTimestamp := 1500;
     pdata.span_EndTimestamp := 1000;
     pdata.span_Kind := 2;
     pdata.span_StatusCode := 0;
     pdata.span_Attributes := [];
     pdata.span_Events := [];
     pdata.span_Links := sampleLinks |}.

Definition unknownAttributes : pdata.AttributeMap :=
  [ ("region", pdata.ValueString "eu"); ("user.id", pdata.ValueInt 7) ].

(** ** Properties *)

(** *** ReferenceBuilder *)

Lemma fold_left_append {A B : Type} (f : A -> B) (l : list A)
    (acc : list B) :
  fold_left (fun refs x => append refs (f x)) l acc = (acc ++ map f l)%list.
Proof.
  revert acc. induction l as [|x l IH]; intros acc; simpl.
  - by rewrite app_nil_r.
  - rewrite IH. unfold append. by rewrite <- app_assoc.
Qed.

(** The length of the eight-byte array is never zero, so the parent
    reference is always emitted. *)
Lemma makeJaegerProtoReferences_unfold links parentSpanID traceID :
  makeJaegerProtoReferences links parentSpanID traceID
  = (childOf traceID parentSpanID :: map followsFrom links, None).
Proof.
  unfold makeJaegerProtoReferences, pdata.len, pdata.SpanID_Bytes.
  rewrite length_vec_to_list. simpl.
  by rewrite (fold_left_append followsFrom).
Qed.

(** C1 (as the code behaves): a span with an all-zero parent span id and
    no links does not get an empty reference list; it gets one CHILD_OF
    reference whose span id is the empty string. *)
Theorem makeJaegerProtoReferences_root_span (traceID : pdata.TraceID) :
  makeJaegerProtoReferences [] emptySpanID traceID
  = ([ {| ref_TraceId := pdata.TraceID_HexString traceID;
          ref_SpanId := "";
          ref_RefType := "CHILD_OF" |} ], None).
Proof. by rewrite makeJaegerProtoReferences_unfold. Qed.

Lemma EncodeToString_length (bs : list byte) :
  String.length (hex.EncodeToString bs) = (2 * length bs)%nat.
Proof.
  induction bs as [|b bs IH]; [done|].
  change (S (S (String.length (hex.EncodeToString bs)))
          = (2 * S (length bs))%nat).
  rewrite IH. lia.
Qed.

(** C2: with a nonzero parent span id the list has one entry more than
    there are links; the first entry is the CHILD_OF reference carrying
    the span's trace id and the sixteen hex digits of the parent id, and
    entry [i + 1] is the FOLLOWS_FROM reference of link [i]. *)
Theorem makeJaegerProtoReferences_parent_first
    (links : list pdata.SpanLink) (parentSpanID : pdata.SpanID)
    (traceID : pdata.TraceID) :
  pdata.SpanID_IsEmpty parentSpanID = false ->
  let result := makeJaegerProtoReferences links parentSpanID traceID in
  result.2 = None
  /\ length result.1 = (1 + length links)%nat
  /\ result.1 !! 0%nat
     = Some {| ref_TraceId := pdata.TraceID_HexString traceID;
               ref_SpanId :=
                 hex.EncodeToString (vec_to_list parentSpanID);
               ref_RefType := "CHILD_OF" |}
  /\ String.length (hex.EncodeToString (vec_to_list parentSpanID)) = 16%nat
  /\ (forall i link,
        links !! i = Some link ->
        result.1 !! S i
        = Some {| ref_TraceId :=
                    pdata.TraceID_HexString (pdata.link_TraceID link);
                  ref_SpanId :=
                    pdata.SpanID_HexString (pdata.link_SpanID link);
                  ref_RefType := "FOLLOWS_FROM" |})
  /\ (forall i ref,
        result.1 !! S i = Some ref -> ref_RefType ref = "FOLLOWS_FROM").
Proof.
  intros Hparent result. subst result.
  rewrite makeJaegerProtoReferences_unfold. simpl.
  repeat split.
  - by rewrite length_map.
  - unfold childOf, pdata.SpanID_HexString. by rewrite Hparent.
  - by rewrite EncodeToString_length, length_vec_to_list.
  - intros i link Hi. rewrite list_lookup_fmap, Hi. done.
  - intros i ref Hi. rewrite list_lookup_fmap in Hi.
    destruct (links !! i) as [link|]; simpl in Hi; [|done].
    by inversion Hi.
Qed.

(** *** AttributeProjector *)

(** The code the projector derives from an [rpc.grpc.status_code] value. *)
Lemma projectAttribute_grpc attributes v span :
  projectAttribute attributes "rpc.grpc.status_code" v span
  = let statusInt :=
      match strconv.Atoi (pdata.StringVal v) with
      | Some n => if negb (n =? 0) then n else pdata.IntVal v
      | None => pdata.IntVal v
      end in
    let span :=
      if statusInt >=? 2 then Span.set_HasError true span else span in
    Span.set_ResponseStatusCode (strconv.FormatInt statusInt)
      (Span.set_GRPCCode (strconv.FormatInt statusInt) span).
Proof. reflexivity. Qed.

(** One step of the projector on an [rpc.grpc.status_code] value. *)
Lemma projectAttribute_grpc_step
    (attributes : pdata.AttributeMap) (v : pdata.AttributeValue)
    (span : Span.t) :
  let span' := projectAttribute attributes "rpc.grpc.status_code" v span in
  exists code : Z,
    (forall n, strconv.Atoi (pdata.StringVal v) = Some n -> n <> 0 ->
               code = n)
    /\ (strconv.Atoi (pdata.StringVal v) = None
        \/ strconv.Atoi (pdata.StringVal v) = Some 0 ->
        code = pdata.IntVal v)
    /\ Span.GRPCCode span' = strconv.FormatInt code
    /\ Span.ResponseStatusCode span' = strconv.FormatInt code
    /\ (2 <= code -> Span.HasError span' = true)
    /\ (code < 2 -> Span.HasError span' = Span.HasError span).
Proof.
  intros span'. subst span'. rewrite projectAttribute_grpc.
  set (code := match strconv.Atoi (pdata.StringVal v) with
               | Some n => if negb (n =? 0) then n else pdata.IntVal v
               | None => pdata.IntVal v
               end).
  exists code. cbv zeta. repeat split.
  - intros n Hn Hnz. subst code. rewrite Hn.
    destruct (Z.eqb_spec n 0); [contradiction|reflexivity].
  - intros [Hn|Hn]; subst code; rewrite Hn; reflexivity.
  - intros Hge. destruct (Z.geb_spec code 2); [reflexivity|lia].
  - intros Hlt. destruct (Z.geb_spec code 2); [lia|reflexivity].
Qed.

(** One step of the projector on an [http.url] and on an [http.method]
    value. *)
Lemma projectAttribute_http_step
    (attributes : pdata.AttributeMap) (v : pdata.AttributeValue)
    (span : Span.t) :
  let url' := projectAttribute attributes "http.url" v span in
  let method' := projectAttribute attributes "http.method" v span in
  (Span.Kind span = 3 ->
     Span.ExternalHttpUrl url'
     = match url_Parse (pdata.StringVal v) with
       | Some valueUrl => URL_Hostname valueUrl
       | None => pdata.StringVal v
       end
     /\ Span.HttpUrl url' = Span.HttpUrl span
     /\ Span.ExternalHttpMethod method' = pdata.StringVal v
     /\ Span.HttpMethod method' = Span.HttpMethod span)
  /\ (Span.Kind span <> 3 ->
     Span.HttpUrl url' = pdata.StringVal v
     /\ Span.ExternalHttpUrl url' = Span.ExternalHttpUrl span
     /\ Span.HttpMethod method' = pdata.StringVal v
     /\ Span.ExternalHttpMethod method' = Span.ExternalHttpMethod span).
Proof.
  intros url' method'. subst url' method'. unfold projectAttribute.
  split; intros Hkind.
  - rewrite Hkind. repeat split.
  - destruct (Z.eqb_spec (Span.Kind span) 3) as [|_]; [contradiction|].
    repeat split.
Qed.

(** The projector never changes the kind or the service name of the
    record it fills. *)
Lemma projectAttribute_Kind attributes k v span :
  Span.Kind (projectAttribute attributes k v span) = Span.Kind span.
Proof.
  unfold projectAttribute.
  repeat (case_match; try reflexivity).
Qed.

Lemma Range_projectAttribute_Kind attributes l span :
  Span.Kind (pdata.Range l (projectAttribute attributes) span)
  = Span.Kind span.
Proof.
  unfold pdata.Range. revert span.
  induction l as [|[k v] l IH]; intros span; simpl; [done|].
  by rewrite IH, projectAttribute_Kind.
Qed.

(** The attributes are projected one after the other, in slice order. *)
Lemma populateOtherDimensions_at pre k v post span :
  let attributes := (pre ++ (k, v) :: post)%list in
  populateOtherDimensions attributes span
  = pdata.Range post (projectAttribute attributes)
      (projectAttribute attributes k v
         (pdata.Range pre (projectAttribute attributes) span)).
Proof.
  intros attributes. unfold populateOtherDimensions, pdata.Range.
  subst attributes. by rewrite fold_left_app.
Qed.

(** C4: when the projector reaches an attribute with key
    rpc.grpc.status_code there is a code, equal to the parsed string form
    when that parses to a nonzero integer and to the numeric form
    otherwise, such that the GRPC-code and the response-status-code fields
    both receive its decimal text, has-error is set when the code is at
    least 2 and is left as it was when the code is below 2. *)
Theorem populateOtherDimensions_grpc_status_code
    (pre post : pdata.AttributeMap) (v : pdata.AttributeValue)
    (span : Span.t) :
  let attributes := (pre ++ ("rpc.grpc.status_code", v) :: post)%list in
  let before := pdata.Range pre (projectAttribute attributes) span in
  let after :=
    projectAttribute attributes "rpc.grpc.status_code" v before in
  populateOtherDimensions attributes span
  = pdata.Range post (projectAttribute attributes) after
  /\ exists code : Z,
      (forall n, strconv.Atoi (pdata.StringVal v) = Some n -> n <> 0 ->
                 code = n)
      /\ (strconv.Atoi (pdata.StringVal v) = None
          \/ strconv.Atoi (pdata.StringVal v) = Some 0 ->
          code = pdata.IntVal v)
      /\ Span.GRPCCode after = strconv.FormatInt code
      /\ Span.ResponseStatusCode after = strconv.FormatInt code
      /\ (2 <= code -> Span.HasError after = true)
      /\ (code < 2 -> Span.HasError after = Span.HasError before).
Proof.
  intros attributes before after. split.
  - exact (populateOtherDimensions_at pre _ v post span).
  - exact (projectAttribute_grpc_step attributes v before).
Qed.

(** C5: when the projector reaches an http.url attribute of a client span
    (kind 3) the external-HTTP-url field receives the hostname of the
    parsed URL, or the literal value when parsing fails; on a span of any
    other kind the plain HTTP-url field receives the literal value. An
    http.method attribute goes to the external-HTTP-method field of a
    client span and to the plain HTTP-method field otherwise. In each case
    the other field of the pair is left as it was. *)
Theorem populateOtherDimensions_http_url_method
    (pre post : pdata.AttributeMap) (v : pdata.AttributeValue)
    (span : Span.t) :
  let urlAttributes := (pre ++ ("http.url", v) :: post)%list in
  let beforeUrl := pdata.Range pre (projectAttribute urlAttributes) span in
  let afterUrl := projectAttribute urlAttributes "http.url" v beforeUrl in
  let methodAttributes := (pre ++ ("http.method", v) :: post)%list in
  let beforeMethod :=
    pdata.Range pre (projectAttribute methodAttributes) span in
  let afterMethod :=
    projectAttribute methodAttributes "http.method" v beforeMethod in
  populateOtherDimensions urlAttributes span
  = pdata.Range post (projectAttribute urlAttributes) afterUrl
  /\ populateOtherDimensions methodAttributes span
     = pdata.Range post (projectAttribute methodAttributes) afterMethod
  /\ (Span.Kind span = 3 ->
       Span.ExternalHttpUrl afterUrl
       = match url_Parse (pdata.StringVal v) with
         | Some valueUrl => URL_Hostname valueUrl
         | None => pdata.StringVal v
         end
       /\ Span.HttpUrl afterUrl = Span.HttpUrl beforeUrl
       /\ Span.ExternalHttpMethod afterMethod = pdata.StringVal v
       /\ Span.HttpMethod afterMethod = Span.HttpMethod beforeMethod)
  /\ (Span.Kind span <> 3 ->
       Span.HttpUrl afterUrl = pdata.StringVal v
       /\ Span.ExternalHttpUrl afterUrl = Span.ExternalHttpUrl beforeUrl
       /\ Span.HttpMethod afterMethod = pdata.StringVal v
       /\ Span.ExternalHttpMethod afterMethod
          = Span.ExternalHttpMethod beforeMethod).
Proof.
  intros urlAttributes beforeUrl afterUrl
         methodAttributes beforeMethod afterMethod.
  split; [exact (populateOtherDimensions_at pre _ v post span)|].
  split; [exact (populateOtherDimensions_at pre _ v post span)|].
  assert (Span.Kind beforeUrl = Span.Kind span) as Hu
    by apply Range_projectAttribute_Kind.
  assert (Span.Kind beforeMethod = Span.Kind span) as Hm
    by apply Range_projectAttribute_Kind.
  split; intros Hkind.
  - destruct (projectAttribute_http_step urlAttributes v beforeUrl)
      as [Hurl _].
    destruct (projectAttribute_http_step methodAttributes v beforeMethod)
      as [Hmethod _].
    rewrite Hu in Hurl. rewrite Hm in Hmethod.
    destruct (Hurl Hkind) as (H1 & H2 & _).
    destruct (Hmethod Hkind) as (_ & _ & H3 & H4).
    exact (conj H1 (conj H2 (conj H3 H4))).
  - destruct (projectAttribute_http_step urlAttributes v beforeUrl)
      as [_ Hurl].
    destruct (projectAttribute_http_step methodAttributes v beforeMethod)
      as [_ Hmethod].
    rewrite Hu in Hurl. rewrite Hm in Hmethod.
    destruct (Hurl Hkind) as (H1 & H2 & _).
    destruct (Hmethod Hkind) as (_ & _ & H3 & H4).
    exact (conj H1 (conj H2 (conj H3 H4))).
Qed.

(** *** EventExtractor *)

Lemma eventAttribute_Name k v event :
  Event.Name (eventAttribute k v event) = Event.Name event.
Proof. unfold eventAttribute. by destruct (isINT v). Qed.

Lemma eventRecord_Name ev :
  Event.Name (eventRecord ev) = pdata.event_Name ev.
Proof.
  assert (forall l e, Event.Name (fold_left
            (fun acc kv => eventAttribute kv.1 kv.2 acc) l e) = Event.Name e)
    as Hfold.
  { induction l as [|[k v] l IH]; intros e; simpl; [done|].
    by rewrite IH, eventAttribute_Name. }
  unfold eventRecord, pdata.Range. by rewrite Hfold.
Qed.

(** The loop body on an exception event: the event is marked, stored as
    the record's error event, a fresh error id is drawn and the group id
    is computed; one random read is consumed. *)
Lemma populateEvent_exception ev span w :
  isException ev = true ->
  populateEvent ev span w
  = (let event := Event.set_IsError true (eventRecord ev) in
     Span.set_Events
       (append (Span.Events span) (json_Marshal_Event event).1)
       (Span.set_ErrorGroupID
          (groupIDOf (Span.ServiceName span)
             (mapIndex (Event.AttributeMap (eventRecord ev)) "exception.type")
             (mapIndex (Event.AttributeMap (eventRecord ev))
                       "exception.message"))
          (Span.set_ErrorID (errorIDOf (rand_Read (randReads w)))
             (Span.set_ErrorEvent event span))),
     mkWorld (history w) (S (randReads w))).
Proof.
  unfold isException. intros Hname.
  unfold populateEvent. rewrite eventRecord_Name, Hname. reflexivity.
Qed.

(** The loop body on any other event: only the serialised event list
    grows. *)
Lemma populateEvent_other ev span w :
  isException ev = false ->
  populateEvent ev span w
  = (Span.set_Events
       (append (Span.Events span) (json_Marshal_Event (eventRecord ev)).1)
       span, w).
Proof.
  unfold isException. intros Hname.
  unfold populateEvent. rewrite eventRecord_Name, Hname. reflexivity.
Qed.

Lemma populateEvents_app l1 l2 span w :
  populateEvents (l1 ++ l2) span w
  = let '(span1, w1) := populateEvents l1 span w in
    populateEvents l2 span1 w1.
Proof.
  revert span w. induction l1 as [|ev l1 IH]; intros span w; [done|].
  change (populateEvents ((ev :: l1) ++ l2) span w)
    with (let '(a, w') := populateEvent ev span w in
          populateEvents (l1 ++ l2) a w').
  change (populateEvents (ev :: l1) span w)
    with (let '(a, w') := populateEvent ev span w in
          populateEvents l1 a w').
  destruct (populateEvent ev span w) as [a w']. apply IH.
Qed.

(** Events that are not exceptions leave the error fields, the service
    name and the world as they were. *)
Lemma populateEvents_no_exception l span w :
  forallb (fun ev => negb (isException ev)) l = true ->
  let '(span', w') := populateEvents l span w in
  Span.ErrorEvent span' = Span.ErrorEvent span
  /\ Span.ErrorID span' = Span.ErrorID span
  /\ Span.ErrorGroupID span' = Span.ErrorGroupID span
  /\ w' = w.
Proof.
  revert span w. induction l as [|ev l IH]; intros span w Hl; [done|].
  simpl in Hl. apply andb_prop in Hl as [Hev Hl].
  apply negb_true_iff in Hev.
  change (populateEvents (ev :: l) span w)
    with (let '(a, w') := populateEvent ev span w in populateEvents l a w').
  rewrite (populateEvent_other _ _ _ Hev).
  specialize (IH (Span.set_Events
                    (append (Span.Events span)
                       (json_Marshal_Event (eventRecord ev)).1) span) w Hl).
  destruct (populateEvents l _ w) as [span' w']. exact IH.
Qed.

Lemma populateEvent_world ev span w :
  let '(span', w') := populateEvent ev span w in
  Span.ServiceName span' = Span.ServiceName span
  /\ history w' = history w
  /\ randReads w'
     = (randReads w + (if isException ev then 1 else 0))%nat.
Proof.
  destruct (isException ev) eqn:Hev.
  - rewrite (populateEvent_exception _ _ _ Hev). simpl.
    repeat split. lia.
  - rewrite (populateEvent_other _ _ _ Hev). simpl.
    repeat split. lia.
Qed.

(** The service name is never touched, nothing is written or logged, and
    one random read is made per exception event. *)
Lemma populateEvents_world l span w :
  let '(span', w') := populateEvents l span w in
  Span.ServiceName span' = Span.ServiceName span
  /\ history w' = history w
  /\ randReads w' = (randReads w + length (filter isException l))%nat.
Proof.
  revert span w. induction l as [|ev l IH]; intros span w.
  - simpl. repeat split. lia.
  - change (populateEvents (ev :: l) span w)
      with (let '(a, w') := populateEvent ev span w in populateEvents l a w').
    pose proof (populateEvent_world ev span w) as Hstep.
    destruct (populateEvent ev span w) as [a w1].
    destruct Hstep as (Hs & Hh & Hr).
    specialize (IH a w1). destruct (populateEvents l a w1) as [span' w'].
    destruct IH as (Hs' & Hh' & Hr').
    rewrite Hs', Hs, Hh', Hh, Hr', Hr. repeat split.
    rewrite filter_cons. unfold Is_true.
    destruct (isException ev); simpl; lia.
Qed.

(** What the record holds after the loop, in terms of the last exception
    event of the list. *)
Lemma populateEvents_last_exception pre e post span w :
  isException e = true ->
  forallb (fun ev => negb (isException ev)) post = true ->
  let span' := (populateEvents (pre ++ e :: post) span w).1 in
  Span.ErrorEvent span' = Event.set_IsError true (eventRecord e)
  /\ Span.ErrorID span'
     = errorIDOf (rand_Read (randReads w + length (filter isException pre)))
  /\ Span.ErrorGroupID span'
     = groupIDOf (Span.ServiceName span)
         (mapIndex (Event.AttributeMap (eventRecord e)) "exception.type")
         (mapIndex (Event.AttributeMap (eventRecord e)) "exception.message").
Proof.
  intros He Hpost. cbv zeta. rewrite populateEvents_app.
  pose proof (populateEvents_world pre span w) as Hpre.
  destruct (populateEvents pre span w) as [span1 w1].
  destruct Hpre as (Hs & _ & Hr).
  change (populateEvents (e :: post) span1 w1)
    with (let '(a, w') := populateEvent e span1 w1 in
          populateEvents post a w').
  rewrite (populateEvent_exception _ _ _ He). cbv zeta.
  match goal with
  | |- context [populateEvents post ?a ?w'] =>
      pose proof (populateEvents_no_exception post a w' Hpost) as Hrest;
      destruct (populateEvents post a w') as [span2 w2]
  end.
  destruct Hrest as (H1 & H2 & H3 & _).
  change ((span2, w2).1) with span2.
  rewrite H1, H2, H3, <- Hs, <- Hr. repeat split.
Qed.

(** C9: when the event list holds several exception events, the record
    keeps a single error event, and its error event, error id and
    error-group id are those derived from the last exception event in
    input order: the event itself marked as an error, the identifier
    drawn when that event was reached, and the digest of the service name
    with that event's exception type and message. *)
Theorem populateEvents_last_exception_wins
    (pre post : list pdata.SpanEvent) (e : pdata.SpanEvent)
    (span : Span.t) (w : World) :
  isException e = true ->
  forallb (fun ev => negb (isException ev)) post = true ->
  let span' := (populateEvents (pre ++ e :: post) span w).1 in
  Span.ErrorEvent span' = Event.set_IsError true (eventRecord e)
  /\ Span.ErrorID span'
     = errorIDOf (rand_Read (randReads w + length (filter isException pre)))
  /\ Span.ErrorGroupID span'
     = groupIDOf (Span.ServiceName span)
         (mapIndex (Event.AttributeMap (eventRecord e)) "exception.type")
         (mapIndex (Event.AttributeMap (eventRecord e)) "exception.message").
Proof. exact (populateEvents_last_exception pre e post span w). Qed.

(** *** SpanNormalizer: the merged tag map *)

Lemma tagAttribute_skipped k v (m : gmap string string) :
  applied v = false -> tagAttribute k v m = m.
Proof.
  unfold applied, tagAttribute. intros H.
  apply orb_false_iff in H as [-> ->]. reflexivity.
Qed.

Lemma tagAttribute_applied k v (m : gmap string string) :
  applied v = true -> tagAttribute k v m = <[k := tagValue v]> m.
Proof.
  unfold applied, tagAttribute, tagValue. intros H.
  destruct (isINT v); [reflexivity|]. simpl in H. by rewrite H.
Qed.

Lemma tagAttribute_other k k' v (m : gmap string string) :
  k <> k' -> tagAttribute k v m !! k' = m !! k'.
Proof.
  intros Hne. destruct (applied v) eqn:Hv.
  - rewrite (tagAttribute_applied _ _ _ Hv). by rewrite lookup_insert_ne.
  - by rewrite (tagAttribute_skipped _ _ _ Hv).
Qed.

(** A bag none of whose attributes for [k] is applied leaves the entry of
    [k] as it was. *)
Lemma Range_tagAttribute_untouched (l : pdata.AttributeMap) k
    (m : gmap string string) :
  (forall v, (k, v) ∈ l -> applied v = false) ->
  pdata.Range l tagAttribute m !! k = m !! k.
Proof.
  unfold pdata.Range. revert m.
  induction l as [|[k' v'] l IH]; intros m Hl; simpl; [done|].
  rewrite IH.
  - destruct (decide (k' = k)) as [->|Hne].
    + rewrite tagAttribute_skipped; [done|]. apply Hl. by left.
    + by apply tagAttribute_other.
  - intros v Hv. apply Hl. by right.
Qed.

(** The last applied attribute for [k] in a bag supplies the entry. *)
Lemma Range_tagAttribute_last (pre post : pdata.AttributeMap) k v
    (m : gmap string string) :
  applied v = true ->
  (forall v', (k, v') ∈ post -> applied v' = false) ->
  pdata.Range (pre ++ (k, v) :: post)%list tagAttribute m !! k
  = Some (tagValue v).
Proof.
  intros Hv Hpost. unfold pdata.Range. rewrite fold_left_app. simpl.
  rewrite (tagAttribute_applied _ _ _ Hv).
  change (pdata.Range post tagAttribute
            (<[k := tagValue v]>
               (fold_left (fun acc kv => tagAttribute kv.1 kv.2 acc) pre m))
          !! k = Some (tagValue v)).
  rewrite (Range_tagAttribute_untouched _ _ _ Hpost).
  apply lookup_insert_eq.
Qed.

Lemma projectAttribute_TagMap attributes k v span :
  Span.TagMap (projectAttribute attributes k v span) = Span.TagMap span.
Proof.
  unfold projectAttribute.
  repeat (case_match; try reflexivity).
Qed.

Lemma populateOtherDimensions_TagMap attributes span :
  Span.TagMap (populateOtherDimensions attributes span) = Span.TagMap span.
Proof.
  unfold populateOtherDimensions, pdata.Range.
  generalize (projectAttribute attributes)
             (projectAttribute_TagMap attributes).
  intros f Hf. revert span.
  induction attributes as [|[k v] l IH]; intros span; [done|].
  simpl. by rewrite IH, Hf.
Qed.

Lemma populateEvents_TagMap l span w :
  Span.TagMap (populateEvents l span w).1 = Span.TagMap span.
Proof.
  revert span w. induction l as [|ev l IH]; intros span w; [done|].
  change (populateEvents (ev :: l) span w)
    with (let '(a, w') := populateEvent ev span w in populateEvents l a w').
  destruct (isException ev) eqn:Hev.
  - rewrite (populateEvent_exception _ _ _ Hev). cbv zeta. by rewrite IH.
  - rewrite (populateEvent_other _ _ _ Hev). by rewrite IH.
Qed.

(** The tag map of the normalised record: the span's attributes applied
    to the empty map, then the resource's attributes over them. *)
Lemma newStructuredSpan_TagMap otelSpan serviceName resource w :
  Span.TagMap (newStructuredSpan otelSpan serviceName resource w).1
  = pdata.Range (pdata.resource_Attributes resource) tagAttribute
      (pdata.Range (pdata.span_Attributes otelSpan) tagAttribute ∅).
Proof.
  unfold newStructuredSpan.
  match goal with
  | |- context [populateEvents ?l ?a] =>
      pose proof (populateEvents_TagMap l a w) as Hev;
      unfold mbind, M_bind, bind;
      destruct (populateEvents l a w) as [span' w']
  end.
  simpl in Hev |- *. rewrite Hev.
  rewrite populateOtherDimensions_TagMap.
  by destruct (int16 (pdata.span_StatusCode otelSpan) =? 2).
Qed.

Lemma applied_false_iff v :
  applied v = false
  <-> pdata.AttributeValue_Type v <> pdata.AttributeValueTypeInt
      /\ pdata.StringVal v = "".
Proof.
  unfold applied, isINT. rewrite orb_false_iff, negb_false_iff.
  rewrite String.eqb_eq. split; intros [H1 H2]; split; try done.
  - intros Heq. rewrite Heq in H1. discriminate.
  - by destruct v.
Qed.

(** C6 (as the code behaves): the tag map is the span's attributes applied
    to the empty map and then the resource's attributes applied over
    them, where an attribute is applied only if it is integer-typed or
    has a non-empty string form. The last applied resource-level
    attribute for a key supplies the entry of that key, whatever the span
    bag holds for it. *)
Theorem tag_map_resource_precedence
    (otelSpan : pdata.Span) (serviceName : string)
    (resource : pdata.Resource) (w : World)
    (pre post : pdata.AttributeMap) (k : string)
    (v : pdata.AttributeValue) :
  pdata.resource_Attributes resource = (pre ++ (k, v) :: post)%list ->
  applied v = true ->
  (forall v', (k, v') ∈ post -> applied v' = false) ->
  let tagMap :=
    Span.TagMap (newStructuredSpan otelSpan serviceName resource w).1 in
  tagMap
  = pdata.Range (pdata.resource_Attributes resource) tagAttribute
      (pdata.Range (pdata.span_Attributes otelSpan) tagAttribute ∅)
  /\ tagMap !! k = Some (tagValue v).
Proof.
  intros Hres Hv Hpost tagMap. subst tagMap.
  rewrite newStructuredSpan_TagMap. split; [done|].
  rewrite Hres. by apply Range_tagAttribute_last.
Qed.

(** Dropping a skipped attribute from a bag does not change the map the
    bag produces. *)
Lemma Range_tagAttribute_drop (pre post : pdata.AttributeMap) k v
    (m : gmap string string) :
  applied v = false ->
  pdata.Range (pre ++ (k, v) :: post)%list tagAttribute m
  = pdata.Range (pre ++ post)%list tagAttribute m.
Proof.
  intros Hv. unfold pdata.Range. rewrite !fold_left_app. simpl.
  by rewrite (tagAttribute_skipped _ _ _ Hv).
Qed.

(** C10 (as the code behaves): an attribute that is not integer-typed and
    whose string form is empty is skipped, in either bag: the tag map is
    the one obtained without it. Hence the tag map has no entry for a key
    all of whose attributes are such, and a key all of whose
    resource-level attributes are such keeps whatever the span's
    attributes gave it. *)
Theorem tag_map_skips_empty_values
    (otelSpan : pdata.Span) (serviceName : string)
    (resource : pdata.Resource) (w : World) (k : string) :
  let tagMapOf otelSpan resource :=
    Span.TagMap (newStructuredSpan otelSpan serviceName resource w).1 in
  let tagMap := tagMapOf otelSpan resource in
  let skipped v :=
    pdata.AttributeValue_Type v <> pdata.AttributeValueTypeInt
    /\ pdata.StringVal v = "" in
  (forall v (m : gmap string string), skipped v -> tagAttribute k v m = m)
  /\ (forall otelSpan' pre v post,
        skipped v ->
        pdata.span_Attributes otelSpan = (pre ++ (k, v) :: post)%list ->
        pdata.span_Attributes otelSpan' = (pre ++ post)%list ->
        tagMap = tagMapOf otelSpan' resource)
  /\ (forall resource' pre v post,
        skipped v ->
        pdata.resource_Attributes resource = (pre ++ (k, v) :: post)%list ->
        pdata.resource_Attributes resource' = (pre ++ post)%list ->
        tagMap = tagMapOf otelSpan resource')
  /\ ((forall v, (k, v) ∈ pdata.span_Attributes otelSpan -> skipped v) ->
      (forall v, (k, v) ∈ pdata.resource_Attributes resource -> skipped v) ->
      tagMap !! k = None)
  /\ ((forall v, (k, v) ∈ pdata.resource_Attributes resource -> skipped v) ->
      tagMap !! k
      = pdata.Range (pdata.span_Attributes otelSpan) tagAttribute ∅ !! k).
Proof.
  intros tagMapOf tagMap skipped. subst tagMap tagMapOf. cbv beta.
  rewrite newStructuredSpan_TagMap.
  split; [|split; [|split; [|split]]].
  - intros v m Hv. apply tagAttribute_skipped. by apply applied_false_iff.
  - intros otelSpan' pre v post Hv Hattrs Hattrs'.
    rewrite newStructuredSpan_TagMap, Hattrs, Hattrs'.
    rewrite Range_tagAttribute_drop; [done|]. by apply applied_false_iff.
  - intros resource' pre v post Hv Hattrs Hattrs'.
    rewrite newStructuredSpan_TagMap, Hattrs, Hattrs'.
    rewrite Range_tagAttribute_drop; [done|]. by apply applied_false_iff.
  - intros Hspan Hres.
    rewrite Range_tagAttribute_untouched, Range_tagAttribute_untouched.
    + apply lookup_empty.
    + intros v Hv. apply applied_false_iff. by apply Hspan.
    + intros v Hv. apply applied_false_iff. by apply Hres.
  - intros Hres. apply Range_tagAttribute_untouched.
    intros v Hv. apply applied_false_iff. by apply Hres.
Qed.

(** *** MultiTargetWriter *)

Lemma marshalAndSend_failure writer ctx data w e w' :
  marshalAndSend writer ctx data w = (Some e, w') ->
  exists ext,
    w' = mkWorld (history w ++ ext)%list (randReads w)
    /\ failureTrail writer e ext.
Proof.
  unfold marshalAndSend, sendMessage, zap_Error, emit.
  unfold mbind, M_bind, bind, mret, M_ret, ret, append.
  destruct (json_Marshal_data data) as [bytes [e0|]]; simpl.
  - intros [= <- <-]. exists [LogError logMessage e0]. split; [done|].
    by left.
  - destruct (WriteMessages writer ctx (history w) _) as [e1|] eqn:Hw;
      simpl; [|done].
    intros [= <- <-]. eexists. split.
    + by rewrite <- app_assoc.
    + right. by eexists.
Qed.

Lemma writeModel_failure writer ctx span w e w' :
  writeModel writer ctx span w = (Some e, w') ->
  exists ext,
    w' = mkWorld (history w ++ ext)%list (randReads w)
    /\ failureTrail writer e ext.
Proof.
  unfold writeModel.
  destruct (json_Marshal_TraceModel (Span.TraceModel span))
    as [bytes [e0|]].
  - unfold zap_Error, emit, mbind, M_bind, bind, mret, M_ret, ret, append.
    simpl. intros [= <- <-]. exists [LogError logMessage e0].
    split; [done|]. by left.
  - apply marshalAndSend_failure.
Qed.

Lemma writeIndex_failure writer ctx span w e w' :
  writeIndex writer ctx span w = (Some e, w') ->
  exists ext,
    w' = mkWorld (history w ++ ext)%list (randReads w)
    /\ failureTrail writer e ext.
Proof. unfold writeIndex. apply marshalAndSend_failure. Qed.

(** C7: when the trace-model write returns an error, [write] returns that
    error and stops there: the world it leaves is the one the model
    write left, which holds nothing beyond that write's own trail. When
    the model write went through (or was skipped) and the index write
    returns an error, [write] returns that error and the world is the
    one the index write left; the error write is not reached. *)
Theorem write_fail_fast
    (s : storage) (ctx : Context) (span : Span.t) (w : World) :
  (forall writer e w',
     spanKafkaWriter s = Some writer ->
     writeModel writer ctx span w = (Some e, w') ->
     write s ctx span w = (Some e, w')
     /\ exists ext,
         history w' = (history w ++ ext)%list
         /\ failureTrail writer e ext)
  /\ (forall writer e w1 w',
       afterModel s ctx span w w1 ->
       indexKafkaWriter s = Some writer ->
       writeIndex writer ctx span w1 = (Some e, w') ->
       write s ctx span w = (Some e, w')
       /\ exists ext,
           history w' = (history w1 ++ ext)%list
           /\ failureTrail writer e ext).
Proof.
  split.
  - intros writer e w' Hs Hmodel. split.
    + unfold write, mbind, M_bind, bind. rewrite Hs, Hmodel. reflexivity.
    + destruct (writeModel_failure _ _ _ _ _ _ Hmodel) as (ext & -> & Hext).
      by exists ext.
  - intros writer e w1 w' Hafter Hs Hindex. split.
    + unfold write, mbind, M_bind, bind. unfold afterModel in Hafter.
      destruct (spanKafkaWriter s) as [mw|].
      * rewrite Hafter, Hs, Hindex. reflexivity.
      * subst w1. unfold mret, M_ret, ret. rewrite Hs, Hindex. reflexivity.
    + destruct (writeIndex_failure _ _ _ _ _ _ Hindex) as (ext & -> & Hext).
      by exists ext.
Qed.

(** *** BatchDriver *)

Lemma forEach_fold {A : Type} (l : list A) (body : A -> M unit) w :
  forEach l body w = (tt, fold_left (fun w x => (body x w).2) l w).
Proof.
  revert w. induction l as [|x l IH]; intros w; [done|].
  simpl. unfold bind. destruct (body x w) as [[] w1]. apply IH.
Qed.

Lemma fold_left_flat_map {A B C : Type} (f : C -> B -> C) (g : A -> list B)
    (l : list A) (c : C) :
  fold_left f (flat_map g l) c
  = fold_left (fun c x => fold_left f (g x) c) l c.
Proof.
  revert c. induction l as [|x l IH]; intros c; [done|].
  simpl. by rewrite fold_left_app, IH.
Qed.

Lemma fold_left_fmap {A B C : Type} (f : C -> B -> C) (g : A -> B)
    (l : list A) (c : C) :
  fold_left f (map g l) c = fold_left (fun c x => f c (g x)) l c.
Proof.
  revert c. induction l as [|x l IH]; intros c; [done|]. simpl. apply IH.
Qed.

Lemma fold_left_ext_in {A C : Type} (f g : C -> A -> C) (l : list A) c :
  (forall c x, f c x = g c x) -> fold_left f l c = fold_left g l c.
Proof.
  intros H. revert c. induction l as [|x l IH]; intros c; [done|].
  simpl. by rewrite H, IH.
Qed.

(** The world after one span: the record is built, written, and a write
    error is logged and dropped. *)
Lemma pushSpan_world s ctx serviceName resource span w :
  (pushSpan s ctx serviceName resource span w).2
  = let '(structuredSpan, w1) :=
      newStructuredSpan span serviceName resource w in
    let '(err, w2) := write s ctx structuredSpan w1 in
    match err with
    | Some e =>
        mkWorld (history w2 ++ [LogError logMessage e])%list (randReads w2)
    | None => w2
    end.
Proof.
  unfold pushSpan, mbind, M_bind, bind.
  destruct (newStructuredSpan span serviceName resource w) as [sp w1].
  destruct (write s ctx sp w1) as [[e|] w2]; reflexivity.
Qed.

(** C8: the batch driver returns nil whatever the per-span writes return.
    Every span of the batch is processed, in order and each from the
    world its predecessor left, so a failed write never ends the
    iteration; a span whose write fails adds the log entry of its error
    and nothing is propagated. *)
Theorem pushTraceData_best_effort
    (s : storage) (ctx : Context) (td : pdata.Traces) (w : World) :
  (pushTraceData s ctx td w).1 = None
  /\ (pushTraceData s ctx td w).2
     = fold_left
         (fun w item =>
            (pushSpan s ctx item.1.1 item.1.2 item.2 w).2)
         (spansInOrder td) w
  /\ (forall serviceName resource span w0,
       (pushSpan s ctx serviceName resource span w0).2
       = let '(structuredSpan, w1) :=
           newStructuredSpan span serviceName resource w0 in
         let '(err, w2) := write s ctx structuredSpan w1 in
         match err with
         | Some e =>
             mkWorld (history w2 ++ [LogError logMessage e])%list
                     (randReads w2)
         | None => w2
         end).
Proof.
  split; [|split].
  - unfold pushTraceData, mbind, M_bind, bind.
    by destruct (forEach _ _ w).
  - unfold pushTraceData, mbind, M_bind, bind.
    rewrite forEach_fold. simpl.
    unfold spansInOrder. rewrite fold_left_flat_map.
    apply fold_left_ext_in. intros c rs.
    rewrite forEach_fold. simpl. rewrite fold_left_flat_map.
    apply fold_left_ext_in. intros c' ils.
    rewrite forEach_fold. simpl.
    by rewrite fold_left_fmap.
  - intros. apply pushSpan_world.
Qed.

(** ** Further properties of the exporter *)

(** *** Service name *)

Lemma Get_absent (am : pdata.AttributeMap) key :
  (forall v, (key, v) ∉ am) -> pdata.Get am key = None.
Proof.
  induction am as [|[k v] am IH]; intros Habs; simpl; [done|].
  destruct (String.eqb_spec k key) as [->|Hne].
  - exfalso. apply (Habs v). apply list_elem_of_here.
  - apply IH. intros v' Hin. apply (Habs v'). by apply list_elem_of_further.
Qed.

Lemma Get_first (pre post : pdata.AttributeMap) key v :
  (forall v', (key, v') ∉ pre) ->
  pdata.Get (pre ++ (key, v) :: post)%list key = Some v.
Proof.
  induction pre as [|[k' v'] pre IH]; intros Habs; simpl.
  - by rewrite String.eqb_refl.
  - destruct (String.eqb_spec k' key) as [->|Hne].
    + exfalso. apply (Habs v'). apply list_elem_of_here.
    + apply IH. intros v'' Hin. apply (Habs v'').
      by apply list_elem_of_further.
Qed.

(** X1: a resource without a service.name attribute is given the marker
    "<nil-service-name>"; otherwise the name is the string form of the
    first service.name attribute, which is the empty string when that
    attribute is not a string. *)
Theorem ServiceNameForResource_cases (resource : pdata.Resource) :
  ((forall v, ("service.name", v) ∉ pdata.resource_Attributes resource) ->
   ServiceNameForResource resource = "<nil-service-name>")
  /\ (forall pre v post,
        pdata.resource_Attributes resource
        = (pre ++ ("service.name", v) :: post)%list ->
        (forall v', ("service.name", v') ∉ pre) ->
        ServiceNameForResource resource = pdata.StringVal v
        /\ (pdata.AttributeValue_Type v <> pdata.AttributeValueTypeString ->
            ServiceNameForResource resource = "")).
Proof.
  unfold ServiceNameForResource. split.
  - intros Habs. by rewrite Get_absent.
  - intros pre v post -> Hpre. rewrite Get_first by done.
    split; [done|]. intros Hty. by destruct v.
Qed.

(** *** The projector, attribute by attribute *)

Ltac project_cases k :=
  unfold projectAttribute;
  repeat match goal with
         | |- context [String.eqb k ?c] =>
             destruct (String.eqb_spec k c) as [->|?]
         end.

Lemma projectAttribute_header attributes k v span :
  header (projectAttribute attributes k v span) = header span.
Proof.
  unfold projectAttribute, header.
  repeat (case_match; try reflexivity).
Qed.

Lemma projectAttribute_HasError attributes k v span :
  Span.HasError (projectAttribute attributes k v span)
  = Span.HasError span || marksError (k, v).
Proof.
  unfold marksError, grpcStatus. cbn [fst snd].
  project_cases k; cbn [andb orb];
    repeat (case_match; cbn [andb orb Span.HasError Span.set_HasError
                             Span.set_HttpCode Span.set_ResponseStatusCode
                             Span.set_GRPCCode Span.set_RPCMethod
                             Span.set_GRPCMethod];
            try reflexivity);
    try (by rewrite orb_false_r); try (by rewrite orb_true_r);
    try (by destruct (Span.HasError span)).
Qed.

Lemma projectAttribute_ResponseStatusCode attributes k v span :
  Span.ResponseStatusCode (projectAttribute attributes k v span)
  = default (Span.ResponseStatusCode span) (statusText (k, v)).
Proof.
  unfold statusText, grpcStatus. cbn [fst snd].
  project_cases k; cbn; try reflexivity;
    repeat (case_match; try reflexivity).
Qed.

Lemma projectAttribute_ignored attributes k v span :
  k ∉ knownKeys -> projectAttribute attributes k v span = span.
Proof.
  intros Hk. unfold projectAttribute.
  repeat match goal with
         | |- context [String.eqb k ?c] =>
             destruct (String.eqb_spec k c) as [->|?];
             [exfalso; apply Hk; unfold knownKeys;
              repeat first [apply list_elem_of_here
                           |apply list_elem_of_further]|]
         end.
  reflexivity.
Qed.

Lemma projectAttribute_eventFields attributes k v span :
  eventFields (projectAttribute attributes k v span) = eventFields span.
Proof.
  unfold projectAttribute, eventFields.
  repeat (case_match; try reflexivity).
Qed.

Lemma projectAttribute_RPCMethod attributes k v span :
  Span.RPCMethod (projectAttribute attributes k v span)
  = if String.eqb k "rpc.method" then pdata.StringVal v
    else Span.RPCMethod span.
Proof.
  project_cases k; cbn; try reflexivity;
    repeat (case_match; try reflexivity).
Qed.

Lemma projectAttribute_GRPCMethod attributes k v span :
  Span.GRPCMethod (projectAttribute attributes k v span)
  = if String.eqb k "rpc.method" && isGrpc attributes then pdata.StringVal v
    else Span.GRPCMethod span.
Proof.
  unfold isGrpc.
  project_cases k; cbn; try reflexivity;
    repeat (case_match; try reflexivity); try discriminate.
Qed.

(** *** The projector, over a whole bag *)

(** A property of records kept by every step is kept by the loop. *)
Lemma Range_projectAttribute_invariant {A : Type} (f : Span.t -> A)
    attributes l span :
  (forall k v s, f (projectAttribute attributes k v s) = f s) ->
  f (pdata.Range l (projectAttribute attributes) span) = f span.
Proof.
  intros Hstep. unfold pdata.Range. revert span.
  induction l as [|[k v] l IH]; intros span; [done|].
  simpl. by rewrite IH, Hstep.
Qed.

Lemma Range_projectAttribute_HasError attributes l span :
  Span.HasError (pdata.Range l (projectAttribute attributes) span)
  = Span.HasError span || existsb marksError l.
Proof.
  unfold pdata.Range. revert span.
  induction l as [|[k v] l IH]; intros span; simpl.
  - by rewrite orb_false_r.
  - by rewrite IH, projectAttribute_HasError, orb_assoc.
Qed.

Lemma Range_projectAttribute_silent {A : Type} (f : Span.t -> A)
    (touches : string * pdata.AttributeValue -> bool) attributes l span :
  (forall k v s, touches (k, v) = false ->
                 f (projectAttribute attributes k v s) = f s) ->
  (forall kv, kv ∈ l -> touches kv = false) ->
  f (pdata.Range l (projectAttribute attributes) span) = f span.
Proof.
  intros Hstep. unfold pdata.Range. revert span.
  induction l as [|[k v] l IH]; intros span Hl; [done|].
  simpl. rewrite IH.
  - apply Hstep. apply Hl. apply list_elem_of_here.
  - intros kv Hkv. apply Hl. by apply list_elem_of_further.
Qed.

(** X2: an attribute whose key the projector does not know changes
    nothing; a bag holding only such attributes leaves the record as it
    was. *)
Theorem populateOtherDimensions_ignores_unknown
    (attributes : pdata.AttributeMap) (span : Span.t) :
  (forall kv, kv ∈ attributes -> kv.1 ∉ knownKeys) ->
  populateOtherDimensions attributes span = span.
Proof.
  intros Hunknown. unfold populateOtherDimensions.
  apply (Range_projectAttribute_silent (fun s => s)
           (fun kv => bool_decide (kv.1 ∈ knownKeys))).
  - intros k v s Hk. apply projectAttribute_ignored.
    by apply bool_decide_eq_false in Hk.
  - intros kv Hkv. apply bool_decide_eq_false. by apply Hunknown.
Qed.

(** X3: when the projector reaches an http.status_code attribute the
    HTTP-code and response-status-code fields receive the decimal text of
    its integer value and has-error is set exactly when that value is at
    least 400. A value that is not integer-typed, such as the string
    "500", counts as zero: both fields receive "0" and has-error is left
    as it was. *)
Theorem populateOtherDimensions_http_status_code
    (pre post : pdata.AttributeMap) (v : pdata.AttributeValue)
    (span : Span.t) :
  let attributes := (pre ++ ("http.status_code", v) :: post)%list in
  let before := pdata.Range pre (projectAttribute attributes) span in
  let after := projectAttribute attributes "http.status_code" v before in
  populateOtherDimensions attributes span
  = pdata.Range post (projectAttribute attributes) after
  /\ Span.HttpCode after = strconv.FormatInt (pdata.IntVal v)
  /\ Span.ResponseStatusCode after = strconv.FormatInt (pdata.IntVal v)
  /\ Span.HasError after
     = Span.HasError before || (400 <=? pdata.IntVal v)
  /\ (pdata.AttributeValue_Type v <> pdata.AttributeValueTypeInt ->
      Span.HttpCode after = "0"
      /\ Span.ResponseStatusCode after = "0"
      /\ Span.HasError after = Span.HasError before).
Proof.
  intros attributes before after.
  split; [exact (populateOtherDimensions_at pre _ v post span)|].
  assert (Span.HasError after
          = Span.HasError before || (400 <=? pdata.IntVal v)) as Herr.
  { subst after. rewrite projectAttribute_HasError.
    unfold marksError. cbn [fst snd andb orb].
    rewrite orb_false_r. f_equal. apply Z.geb_leb. }
  split; [reflexivity|]. split; [reflexivity|]. split; [exact Herr|].
  intros Hty.
  assert (pdata.IntVal v = 0) as Hzero by (by destruct v).
  rewrite Herr, Hzero.
  split; [subst after; cbn; by rewrite Hzero|].
  split; [subst after; cbn; by rewrite Hzero|].
  by rewrite orb_false_r.
Qed.

(** Has-error after the projector is has-error before it or the
    presence of an http.status_code of at least 400 or of an
    rpc.grpc.status_code of at least 2; the projector never clears it. *)
Lemma populateOtherDimensions_HasError
    (attributes : pdata.AttributeMap) (span : Span.t) :
  Span.HasError (populateOtherDimensions attributes span)
  = Span.HasError span || existsb marksError attributes.
Proof. apply Range_projectAttribute_HasError. Qed.

(** X4: the response-status-code field ends as the text of the last
    attribute, in bag order, among http.status_code,
    rpc.grpc.status_code and rpc.jsonrpc.error_code; without any of them
    it is left as it was. *)
Theorem populateOtherDimensions_ResponseStatusCode
    (attributes : pdata.AttributeMap) (span : Span.t) :
  (forall pre kv post t,
     attributes = (pre ++ kv :: post)%list ->
     statusText kv = Some t ->
     (forall kv', kv' ∈ post -> statusText kv' = None) ->
     Span.ResponseStatusCode (populateOtherDimensions attributes span) = t)
  /\ ((forall kv, kv ∈ attributes -> statusText kv = None) ->
      Span.ResponseStatusCode (populateOtherDimensions attributes span)
      = Span.ResponseStatusCode span).
Proof.
  assert (forall l s,
            (forall kv, kv ∈ l -> statusText kv = None) ->
            Span.ResponseStatusCode
              (pdata.Range l (projectAttribute attributes) s)
            = Span.ResponseStatusCode s) as Hsilent.
  { intros l s Hl.
    apply (Range_projectAttribute_silent Span.ResponseStatusCode
             (fun kv => bool_decide (is_Some (statusText kv)))).
    - intros k v s' Hk. rewrite projectAttribute_ResponseStatusCode.
      apply bool_decide_eq_false in Hk.
      destruct (statusText (k, v)); [|done]. exfalso. apply Hk. by eexists.
    - intros kv Hkv. apply bool_decide_eq_false. rewrite (Hl kv Hkv).
      by intros [? ?]. }
  split.
  - intros pre [k v] post t Hattrs Htext Hpost.
    subst attributes.
    rewrite (populateOtherDimensions_at pre k v post span).
    rewrite (Hsilent _ _ Hpost), projectAttribute_ResponseStatusCode.
    by rewrite Htext.
  - intros Hnone. by apply Hsilent.
Qed.

(** X5: the RPC-method field ends as the string form of the last
    rpc.method attribute. The GRPC-method field receives the same text
    exactly when the first rpc.system attribute of the bag is the string
    "grpc", wherever in the bag it stands; otherwise it is never
    written. *)
Theorem populateOtherDimensions_rpc_method
    (pre post : pdata.AttributeMap) (v : pdata.AttributeValue)
    (span : Span.t) :
  (forall kv, kv ∈ post -> kv.1 <> "rpc.method") ->
  let attributes := (pre ++ ("rpc.method", v) :: post)%list in
  let span' := populateOtherDimensions attributes span in
  Span.RPCMethod span' = pdata.StringVal v
  /\ Span.GRPCMethod span'
     = if isGrpc attributes then pdata.StringVal v
       else Span.GRPCMethod span.
Proof.
  intros Hpost attributes span'. subst span'.
  pose proof (populateOtherDimensions_at pre "rpc.method" v post span)
    as Hat.
  cbv zeta in Hat. fold attributes in Hat. rewrite Hat. clear Hat.
  split.
  - rewrite (Range_projectAttribute_silent Span.RPCMethod
               (fun kv => String.eqb kv.1 "rpc.method")).
    + by rewrite projectAttribute_RPCMethod.
    + intros k v' s Hk. rewrite projectAttribute_RPCMethod.
      cbn [fst] in Hk. by rewrite Hk.
    + intros kv Hkv. apply String.eqb_neq. by apply Hpost.
  - destruct (isGrpc attributes) eqn:Hgrpc.
    + rewrite (Range_projectAttribute_silent Span.GRPCMethod
                 (fun kv => String.eqb kv.1 "rpc.method")).
      * rewrite projectAttribute_GRPCMethod. by rewrite Hgrpc.
      * intros k v' s Hk. rewrite projectAttribute_GRPCMethod.
        cbn [fst] in Hk. by rewrite Hk.
      * intros kv Hkv. apply String.eqb_neq. by apply Hpost.
    + rewrite (Range_projectAttribute_invariant Span.GRPCMethod).
      * rewrite projectAttribute_GRPCMethod, Hgrpc, andb_false_r.
        apply (Range_projectAttribute_invariant Span.GRPCMethod).
        intros k v' s. rewrite projectAttribute_GRPCMethod.
        by rewrite Hgrpc, andb_false_r.
      * intros k v' s. rewrite projectAttribute_GRPCMethod.
        by rewrite Hgrpc, andb_false_r.
Qed.

(** *** The event extractor, over a whole list *)

(** What the four assignments of the loop body leave alone, the loop
    leaves alone. *)
Lemma populateEvents_keeps {A : Type} (f : Span.t -> A) l span w :
  (forall s x, f (Span.set_Events x s) = f s) ->
  (forall s x, f (Span.set_ErrorEvent x s) = f s) ->
  (forall s x, f (Span.set_ErrorID x s) = f s) ->
  (forall s x, f (Span.set_ErrorGroupID x s) = f s) ->
  f (populateEvents l span w).1 = f span.
Proof.
  intros H1 H2 H3 H4. revert span w.
  induction l as [|ev l IH]; intros span w; [done|].
  change (populateEvents (ev :: l) span w)
    with (let '(a, w') := populateEvent ev span w in populateEvents l a w').
  destruct (isException ev) eqn:Hev.
  - rewrite (populateEvent_exception _ _ _ Hev). cbv zeta.
    by rewrite IH, H1, H4, H3, H2.
  - rewrite (populateEvent_other _ _ _ Hev). by rewrite IH, H1.
Qed.

Lemma populateEvent_Events ev span w :
  Span.Events (populateEvent ev span w).1
  = (Span.Events span ++ [serialised ev])%list.
Proof.
  unfold serialised. destruct (isException ev) eqn:Hev.
  - by rewrite (populateEvent_exception _ _ _ Hev).
  - by rewrite (populateEvent_other _ _ _ Hev).
Qed.

Lemma populateEvents_Events l span w :
  Span.Events (populateEvents l span w).1
  = (Span.Events span ++ map serialised l)%list.
Proof.
  revert span w. induction l as [|ev l IH]; intros span w.
  - simpl. by rewrite app_nil_r.
  - change (populateEvents (ev :: l) span w)
      with (let '(a, w') := populateEvent ev span w in populateEvents l a w').
    pose proof (populateEvent_Events ev span w) as Hstep.
    destruct (populateEvent ev span w) as [a w1].
    rewrite IH. cbn [fst] in Hstep. rewrite Hstep, <- app_assoc. done.
Qed.

Lemma populateEvents_ErrorEvent_Name l span w :
  Event.Name (Span.ErrorEvent (populateEvents l span w).1)
  = if existsb isException l then "exception"
    else Event.Name (Span.ErrorEvent span).
Proof.
  revert span w. induction l as [|ev l IH]; intros span w; [done|].
  change (populateEvents (ev :: l) span w)
    with (let '(a, w') := populateEvent ev span w in populateEvents l a w').
  simpl. destruct (isException ev) eqn:Hev.
  - rewrite (populateEvent_exception _ _ _ Hev). cbv zeta. rewrite IH.
    destruct (existsb isException l); [done|].
    cbn. rewrite eventRecord_Name. unfold isException in Hev.
    by apply String.eqb_eq in Hev.
  - rewrite (populateEvent_other _ _ _ Hev). by rewrite IH.
Qed.

(** *** The normaliser as a composition *)

(** [newStructuredSpan] builds a base record from the span alone, lets
    the projector and then the event extractor fill it, and refreshes the
    trace model. *)
Lemma newStructuredSpan_run otelSpan serviceName resource w :
  exists base,
    newStructuredSpan otelSpan serviceName resource w
    = (let '(s, w') :=
         populateEvents (pdata.span_Events otelSpan)
           (populateOtherDimensions (pdata.span_Attributes otelSpan) base)
           w in
       (populateTraceModel s, w'))
    /\ header base
       = (let tagMap :=
            pdata.Range (pdata.resource_Attributes resource) tagAttribute
              (pdata.Range (pdata.span_Attributes otelSpan) tagAttribute ∅) in
          let duration :=
            uint64 (pdata.span_EndTimestamp otelSpan
                    - pdata.span_StartTimestamp otelSpan) in
          (pdata.TraceID_HexString (pdata.span_TraceID otelSpan),
           pdata.SpanID_HexString (pdata.span_SpanID otelSpan),
           pdata.SpanID_HexString (pdata.span_ParentSpanID otelSpan),
           pdata.span_Name otelSpan,
           uint64 (pdata.span_StartTimestamp otelSpan),
           duration, serviceName,
           int8 (pdata.span_Kind otelSpan),
           int16 (pdata.span_StatusCode otelSpan),
           tagMap,
           TraceModel.mk
             (pdata.TraceID_HexString (pdata.span_TraceID otelSpan))
             (pdata.SpanID_HexString (pdata.span_SpanID otelSpan))
             (pdata.span_Name otelSpan)
             duration
             (uint64 (pdata.span_StartTimestamp otelSpan))
             serviceName
             (int8 (pdata.span_Kind otelSpan))
             (childOf (pdata.span_TraceID otelSpan)
                      (pdata.span_ParentSpanID otelSpan)
              :: map followsFrom (pdata.span_Links otelSpan))
             tagMap false []))
    /\ Span.HasError base = (int16 (pdata.span_StatusCode otelSpan) =? 2)
    /\ eventFields base = ([], Event.zero, "", "").
Proof.
  unfold newStructuredSpan. rewrite makeJaegerProtoReferences_unfold.
  eexists. split.
  - unfold mbind, M_bind, bind, mret, M_ret, ret. reflexivity.
  - cbn [Span.StatusCode].
    destruct (int16 (pdata.span_StatusCode otelSpan) =? 2);
      repeat split.
Qed.

Lemma populateTraceModel_header span :
  header (populateTraceModel span)
  = (Span.TraceId span, Span.SpanId span, Span.ParentSpanId span,
     Span.Name span, Span.StartTimeUnixNano span, Span.DurationNano span,
     Span.ServiceName span, Span.Kind span, Span.StatusCode span,
     Span.TagMap span,
     TraceModel.set_HasError (Span.HasError span)
       (TraceModel.set_Events (Span.Events span) (Span.TraceModel span))).
Proof. reflexivity. Qed.

(** Every field of the normalised record that does not come from the
    projector, in terms of the input span. *)
Lemma newStructuredSpan_fields otelSpan serviceName resource w :
  let r := (newStructuredSpan otelSpan serviceName resource w).1 in
  let tagMap :=
    pdata.Range (pdata.resource_Attributes resource) tagAttribute
      (pdata.Range (pdata.span_Attributes otelSpan) tagAttribute ∅) in
  let duration :=
    uint64 (pdata.span_EndTimestamp otelSpan
            - pdata.span_StartTimestamp otelSpan) in
  header r
  = (pdata.TraceID_HexString (pdata.span_TraceID otelSpan),
     pdata.SpanID_HexString (pdata.span_SpanID otelSpan),
     pdata.SpanID_HexString (pdata.span_ParentSpanID otelSpan),
     pdata.span_Name otelSpan,
     uint64 (pdata.span_StartTimestamp otelSpan),
     duration, serviceName,
     int8 (pdata.span_Kind otelSpan),
     int16 (pdata.span_StatusCode otelSpan),
     tagMap,
     TraceModel.mk
       (pdata.TraceID_HexString (pdata.span_TraceID otelSpan))
       (pdata.SpanID_HexString (pdata.span_SpanID otelSpan))
       (pdata.span_Name otelSpan)
       duration
       (uint64 (pdata.span_StartTimestamp otelSpan))
       serviceName
       (int8 (pdata.span_Kind otelSpan))
       (childOf (pdata.span_TraceID otelSpan)
                (pdata.span_ParentSpanID otelSpan)
        :: map followsFrom (pdata.span_Links otelSpan))
       tagMap (Span.HasError r) (Span.Events r))
  /\ Span.HasError r
     = (int16 (pdata.span_StatusCode otelSpan) =? 2)
       || existsb marksError (pdata.span_Attributes otelSpan)
  /\ Span.Events r = map serialised (pdata.span_Events otelSpan)
  /\ Event.Name (Span.ErrorEvent r)
     = if existsb isException (pdata.span_Events otelSpan)
       then "exception" else "".
Proof.
  cbv zeta.
  destruct (newStructuredSpan_run otelSpan serviceName resource w)
    as (base & -> & Hhead & Herr & Hev).
  cbv zeta in Hhead.
  set (p := populateOtherDimensions (pdata.span_Attributes otelSpan) base).
  assert (header p = header base) as Hp
    by apply (Range_projectAttribute_invariant header),
             projectAttribute_header.
  assert (eventFields p = eventFields base) as Hpe
    by apply (Range_projectAttribute_invariant eventFields),
             projectAttribute_eventFields.
  assert (Span.HasError p
          = Span.HasError base
            || existsb marksError (pdata.span_Attributes otelSpan)) as Hperr
    by apply Range_projectAttribute_HasError.
  pose proof (populateEvents_keeps header (pdata.span_Events otelSpan) p w
                (fun _ _ => eq_refl) (fun _ _ => eq_refl)
                (fun _ _ => eq_refl) (fun _ _ => eq_refl)) as Hs.
  pose proof (populateEvents_keeps Span.HasError
                (pdata.span_Events otelSpan) p w
                (fun _ _ => eq_refl) (fun _ _ => eq_refl)
                (fun _ _ => eq_refl) (fun _ _ => eq_refl)) as Hserr.
  pose proof (populateEvents_Events (pdata.span_Events otelSpan) p w)
    as Hsev.
  pose proof (populateEvents_ErrorEvent_Name (pdata.span_Events otelSpan)
                p w) as Hsname.
  destruct (populateEvents (pdata.span_Events otelSpan) p w) as [s w'].
  cbn [fst] in *.
  rewrite Hev in Hpe. unfold eventFields in Hpe.
  injection Hpe as Hpe1 Hpe2 _ _.
  rewrite Hpe1 in Hsev. rewrite Hpe2 in Hsname.
  rewrite Hp, Hhead in Hs. unfold header in Hs.
  injection Hs as H1 H2 H3 H4 H5 H6 H7 H8 H9 H10 H11.
  rewrite populateTraceModel_header.
  rewrite H1, H2, H3, H4, H5, H6, H7, H8, H9, H10, H11.
  change (Span.HasError (populateTraceModel s)) with (Span.HasError s).
  change (Span.Events (populateTraceModel s)) with (Span.Events s).
  change (Span.ErrorEvent (populateTraceModel s)) with (Span.ErrorEvent s).
  rewrite Hserr, Hperr, Herr, Hsev, Hsname.
  repeat split.
Qed.

(** X6: the trace model embedded in the normalised record agrees with the
    record on every field they share (identifiers, name, times, service,
    kind, tag map, has-error, serialised events), and its reference list
    is the parent reference, carrying the record's own trace id and
    parent span id, followed by one reference per link. *)
Theorem newStructuredSpan_TraceModel
    (otelSpan : pdata.Span) (serviceName : string)
    (resource : pdata.Resource) (w : World) :
  let r := (newStructuredSpan otelSpan serviceName resource w).1 in
  Span.TraceModel r
  = TraceModel.mk (Span.TraceId r) (Span.SpanId r) (Span.Name r)
      (Span.DurationNano r) (Span.StartTimeUnixNano r)
      (Span.ServiceName r) (Span.Kind r)
      ({| ref_TraceId := Span.TraceId r;
          ref_SpanId := Span.ParentSpanId r;
          ref_RefType := "CHILD_OF" |}
       :: map followsFrom (pdata.span_Links otelSpan))
      (Span.TagMap r) (Span.HasError r) (Span.Events r).
Proof.
  intros r.
  destruct (newStructuredSpan_fields otelSpan serviceName resource w)
    as (Hhead & _).
  fold r in Hhead. cbv zeta in Hhead. unfold header in Hhead.
  injection Hhead as -> -> -> -> -> -> -> -> _ -> ->. reflexivity.
Qed.

(** X7: has-error of the normalised record is true exactly when the
    status code is 2, or some attribute is an http.status_code of at
    least 400 or an rpc.grpc.status_code of at least 2. The events of the
    span, exception events included, have no part in it. *)
Theorem newStructuredSpan_HasError
    (otelSpan : pdata.Span) (serviceName : string)
    (resource : pdata.Resource) (w : World) :
  Span.HasError (newStructuredSpan otelSpan serviceName resource w).1
  = (int16 (pdata.span_StatusCode otelSpan) =? 2)
    || existsb marksError (pdata.span_Attributes otelSpan).
Proof.
  exact (proj1 (proj2
           (newStructuredSpan_fields otelSpan serviceName resource w))).
Qed.

(** X8: for timestamps within the unsigned 64-bit range the duration is
    the end time minus the start time when the span does not end before
    it starts, and that difference plus 2^64 when it does: an inverted
    span gets a huge duration, not an error. *)
Theorem newStructuredSpan_DurationNano
    (otelSpan : pdata.Span) (serviceName : string)
    (resource : pdata.Resource) (w : World) :
  0 <= pdata.span_StartTimestamp otelSpan < 2 ^ 64 ->
  0 <= pdata.span_EndTimestamp otelSpan < 2 ^ 64 ->
  let r := (newStructuredSpan otelSpan serviceName resource w).1 in
  let elapsed :=
    pdata.span_EndTimestamp otelSpan - pdata.span_StartTimestamp otelSpan in
  Span.DurationNano r = (if 0 <=? elapsed then elapsed else elapsed + 2 ^ 64)
  /\ 0 <= Span.DurationNano r < 2 ^ 64.
Proof.
  intros Hstart Hend r elapsed.
  destruct (newStructuredSpan_fields otelSpan serviceName resource w)
    as (Hhead & _).
  fold r in Hhead. cbv zeta in Hhead. unfold header in Hhead.
  injection Hhead as _ _ _ _ _ -> _ _ _ _ _.
  fold elapsed. unfold uint64.
  destruct (Z.leb_spec 0 elapsed).
  - rewrite Z.mod_small by (subst elapsed; lia). subst elapsed. lia.
  - rewrite <- (Z.mod_add elapsed 1 (2 ^ 64)) by lia.
    rewrite Z.mod_small by (subst elapsed; lia). subst elapsed. lia.
Qed.

(** X9: the record carries one serialised entry per event of the span,
    in input order, each the serialisation of that event's record with
    the error mark set on exception events; and its error event is named
    exactly when the span has an exception event. *)
Theorem newStructuredSpan_Events
    (otelSpan : pdata.Span) (serviceName : string)
    (resource : pdata.Resource) (w : World) :
  let r := (newStructuredSpan otelSpan serviceName resource w).1 in
  Span.Events r = map serialised (pdata.span_Events otelSpan)
  /\ length (Span.Events r) = length (pdata.span_Events otelSpan)
  /\ Event.Name (Span.ErrorEvent r)
     = if existsb isException (pdata.span_Events otelSpan)
       then "exception" else "".
Proof.
  intros r.
  destruct (newStructuredSpan_fields otelSpan serviceName resource w)
    as (_ & _ & Hev & Hname).
  fold r in Hev, Hname. rewrite Hev, length_map. done.
Qed.

(** What normalising a span does to the world. *)
Lemma newStructuredSpan_effects otelSpan serviceName resource w :
  (newStructuredSpan otelSpan serviceName resource w).2
  = mkWorld (history w)
      (randReads w
       + length (filter isException (pdata.span_Events otelSpan))).
Proof.
  destruct (newStructuredSpan_run otelSpan serviceName resource w)
    as (base & -> & _).
  match goal with
  | |- context [populateEvents ?l ?p w] =>
      pose proof (populateEvents_world l p w) as Hw;
      destruct (populateEvents l p w) as [s [h n]]
  end.
  destruct Hw as (_ & Hh & Hn). simpl in *. by rewrite Hh, Hn.
Qed.

(** X10: normalising a span writes and logs nothing; it reads the random
    source once per exception event of the span and not otherwise. *)
Theorem newStructuredSpan_world
    (otelSpan : pdata.Span) (serviceName : string)
    (resource : pdata.Resource) (w : World) :
  (newStructuredSpan otelSpan serviceName resource w).2
  = mkWorld (history w)
      (randReads w
       + length (filter isException (pdata.span_Events otelSpan))).
Proof.
  exact (newStructuredSpan_effects otelSpan serviceName resource w).
Qed.

(** *** Identifiers *)

Lemma EncodeByte_hex b :
  forallb isHexDigit (list_ascii_of_string (hex.EncodeByte b)) = true.
Proof. destruct b; reflexivity. Qed.

Lemma EncodeToString_app bs1 bs2 :
  hex.EncodeToString (bs1 ++ bs2)
  = hex.EncodeToString bs1 ++ hex.EncodeToString bs2.
Proof.
  induction bs1 as [|b bs1 IH]; [done|].
  change (hex.EncodeToString ((b :: bs1) ++ bs2))
    with (hex.EncodeByte b ++ hex.EncodeToString (bs1 ++ bs2)).
  rewrite IH. reflexivity.
Qed.

Lemma list_ascii_of_string_app s t :
  list_ascii_of_string (s ++ t)
  = (list_ascii_of_string s ++ list_ascii_of_string t)%list.
Proof. induction s as [|c s IH]; [done|]. simpl. by rewrite IH. Qed.

Lemma EncodeToString_hex bs :
  forallb isHexDigit (list_ascii_of_string (hex.EncodeToString bs)) = true.
Proof.
  induction bs as [|b bs IH]; [done|].
  change (hex.EncodeToString (b :: bs))
    with (hex.EncodeByte b ++ hex.EncodeToString bs).
  by rewrite list_ascii_of_string_app, forallb_app, EncodeByte_hex, IH.
Qed.


Lemma hex_not_hyphen c : isHexDigit c = true -> c <> "-"%char.
Proof. intros H ->. discriminate. Qed.

Lemma replace_hyphen_hex s t :
  forallb isHexDigit (list_ascii_of_string s) = true ->
  strings.replaceFrom "-" "" (s ++ t) 0 = s ++ strings.replaceFrom "-" "" t 0.
Proof.
  induction s as [|c s IH]; intros Hs; [done|].
  simpl in Hs. apply andb_prop in Hs as [Hc Hs].
  change (strings.replaceFrom "-" "" (String c (s ++ t)) 0
          = String c (s ++ strings.replaceFrom "-" "" t 0)).
  cbn [strings.replaceFrom String.prefix].
  destruct (ascii_dec "-" c) as [Heq|_].
  - exfalso. by apply (hex_not_hyphen c).
  - by rewrite IH.
Qed.

Lemma replace_hyphen_id s :
  forallb isHexDigit (list_ascii_of_string s) = true ->
  strings.replaceFrom "-" "" s 0 = s.
Proof.
  induction s as [|c s IH]; intros Hs; [done|].
  simpl in Hs. apply andb_prop in Hs as [Hc Hs].
  cbn [strings.replaceFrom String.prefix].
  destruct (ascii_dec "-" c) as [Heq|_].
  - exfalso. by apply (hex_not_hyphen c).
  - by rewrite IH.
Qed.

Lemma replace_hyphen_skip t :
  strings.replaceFrom "-" "" ("-" ++ t) 0 = strings.replaceFrom "-" "" t 0.
Proof.
  change ("-" ++ t) with (String "-" t).
  cbn [strings.replaceFrom String.prefix].
  destruct (ascii_dec "-" "-") as [_|Hne]; [|done].
  by destruct t.
Qed.

Lemma uuid_slices (u : uuid.UUID) :
  (uuid.slice u 0 4 ++ uuid.slice u 4 6 ++ uuid.slice u 6 8
     ++ uuid.slice u 8 10 ++ uuid.slice u 10 16)%list
  = vec_to_list u.
Proof.
  unfold uuid.slice. cbn [Nat.sub]. rewrite drop_0.
  assert (forall (l : list byte) a b c,
            (c = a + b)%nat ->
            (take a l ++ take b (drop a l) = take c l)%list) as Hjoin.
  { intros l a b c ->. apply take_take_drop. }
  rewrite !app_assoc.
  rewrite (Hjoin _ 4 2 6)%nat by done.
  rewrite (Hjoin _ 6 2 8)%nat by done.
  rewrite (Hjoin _ 8 2 10)%nat by done.
  rewrite (Hjoin _ 10 6 16)%nat by done.
  apply take_ge. by rewrite length_vec_to_list.
Qed.

(** The text of a UUID without its hyphens is the hexadecimal of its
    sixteen bytes. *)
Lemma errorIDOf_hex r :
  errorIDOf r = hex.EncodeToString (vec_to_list (uuid.fromRandom r)).
Proof.
  unfold errorIDOf, strings.ReplaceAll, uuid.String.
  rewrite <- (uuid_slices (uuid.fromRandom r)).
  rewrite !EncodeToString_app.
  repeat (rewrite replace_hyphen_hex by apply EncodeToString_hex;
          try rewrite replace_hyphen_skip).
  by rewrite replace_hyphen_id by apply EncodeToString_hex.
Qed.

(** X12: the error id stored with the last exception event is the
    version-4 UUID made from the random bytes drawn for that event,
    written as the hexadecimal of its sixteen bytes: 32 lowercase hex
    digits and no separator. *)
Theorem populateEvents_ErrorID
    (pre post : list pdata.SpanEvent) (e : pdata.SpanEvent)
    (span : Span.t) (w : World) :
  isException e = true ->
  forallb (fun ev => negb (isException ev)) post = true ->
  let errorID := Span.ErrorID (populateEvents (pre ++ e :: post) span w).1 in
  errorID
  = hex.EncodeToString
      (vec_to_list
         (uuid.fromRandom
            (rand_Read (randReads w + length (filter isException pre)))))
  /\ String.length errorID = 32%nat
  /\ forallb isHexDigit (list_ascii_of_string errorID) = true.
Proof.
  intros He Hpost errorID. subst errorID.
  destruct (populateEvents_last_exception pre e post span w He Hpost)
    as (_ & -> & _).
  rewrite errorIDOf_hex. split; [done|]. split.
  - by rewrite EncodeToString_length, length_vec_to_list.
  - apply EncodeToString_hex.
Qed.

(** *** Flattened attributes *)

Lemma eventAttribute_AttributeMap k v event :
  Event.AttributeMap (eventAttribute k v event)
  = <[k := tagValue v]> (Event.AttributeMap event).
Proof. unfold eventAttribute, tagValue. by destruct (isINT v). Qed.

Lemma Range_eventAttribute_lookup (l : pdata.AttributeMap) event k :
  ((forall v, (k, v) ∉ l) ->
   Event.AttributeMap (pdata.Range l eventAttribute event) !! k
   = Event.AttributeMap event !! k)
  /\ (forall pre v post,
        l = (pre ++ (k, v) :: post)%list ->
        (forall v', (k, v') ∉ post) ->
        Event.AttributeMap (pdata.Range l eventAttribute event) !! k
        = Some (tagValue v)).
Proof.
  assert (forall l event,
            (forall v, (k, v) ∉ l) ->
            Event.AttributeMap (pdata.Range l eventAttribute event) !! k
            = Event.AttributeMap event !! k) as Habsent.
  { clear l event. unfold pdata.Range.
    induction l as [|[k' v'] l IH]; intros event Hl; [done|].
    simpl. rewrite IH.
    - rewrite eventAttribute_AttributeMap. apply lookup_insert_ne.
      intros ->. apply (Hl v'). apply list_elem_of_here.
    - intros v Hv. apply (Hl v). by apply list_elem_of_further. }
  split; [apply Habsent|].
  intros pre v post -> Hpost. unfold pdata.Range.
  rewrite fold_left_app. simpl.
  change (Event.AttributeMap
            (pdata.Range post eventAttribute
               (eventAttribute k v
                  (fold_left (fun acc kv => eventAttribute kv.1 kv.2 acc)
                     pre event))) !! k = Some (tagValue v)).
  rewrite (Habsent _ _ Hpost), eventAttribute_AttributeMap.
  apply lookup_insert_eq.
Qed.

(** X13: the attribute map of an event record has an entry for every key
    of the event's attributes, the last attribute with a key supplying
    its text: the decimal of an integer, the string of a string and the
    empty string for any other type. Unlike the tag map, empty values
    are kept. A key the event does not carry has no entry. *)
Theorem eventRecord_AttributeMap (ev : pdata.SpanEvent) (k : string) :
  ((forall v, (k, v) ∉ pdata.event_Attributes ev) ->
   Event.AttributeMap (eventRecord ev) !! k = None)
  /\ (forall pre v post,
        pdata.event_Attributes ev = (pre ++ (k, v) :: post)%list ->
        (forall v', (k, v') ∉ post) ->
        Event.AttributeMap (eventRecord ev) !! k = Some (tagValue v)
        /\ (pdata.AttributeValue_Type v <> pdata.AttributeValueTypeInt ->
            pdata.AttributeValue_Type v <> pdata.AttributeValueTypeString ->
            Event.AttributeMap (eventRecord ev) !! k = Some "")).
Proof.
  unfold eventRecord.
  match goal with
  | |- context [pdata.Range _ eventAttribute ?e0] =>
      destruct (Range_eventAttribute_lookup (pdata.event_Attributes ev) e0 k)
        as [Habsent Hlast]
  end.
  split.
  - intros Hk. rewrite (Habsent Hk). apply lookup_empty.
  - intros pre v post Hattrs Hpost.
    rewrite (Hlast pre v post Hattrs Hpost). split; [done|].
    intros Hint Hstr. by destruct v.
Qed.

Lemma FormatInt_nonempty i : strconv.FormatInt i <> "".
Proof.
  unfold strconv.FormatInt.
  destruct (Z.to_int i) as [d|d]; simpl; [|discriminate].
  destruct d; discriminate.
Qed.

Lemma tagValue_nonempty v : applied v = true -> tagValue v <> "".
Proof.
  unfold applied, tagValue. destruct (isINT v); simpl.
  - intros _. apply FormatInt_nonempty.
  - intros H. apply negb_true_iff in H. by apply String.eqb_neq.
Qed.

Lemma Range_tagAttribute_entries (all l : pdata.AttributeMap)
    (m : gmap string string) :
  (forall kv, kv ∈ l -> kv ∈ all) ->
  (forall k t, m !! k = Some t ->
     exists v, (k, v) ∈ all /\ applied v = true /\ t = tagValue v) ->
  forall k t,
    pdata.Range l tagAttribute m !! k = Some t ->
    exists v, (k, v) ∈ all /\ applied v = true /\ t = tagValue v.
Proof.
  unfold pdata.Range. revert m.
  induction l as [|[k' v'] l IH]; intros m Hl Hm k t; [apply Hm|].
  simpl. apply IH.
  - intros kv Hkv. apply Hl. by apply list_elem_of_further.
  - intros k0 t0. destruct (applied v') eqn:Hv'.
    + rewrite (tagAttribute_applied _ _ _ Hv').
      destruct (decide (k' = k0)) as [->|Hne].
      * rewrite lookup_insert_eq. intros [= <-]. exists v'.
        split; [apply Hl, list_elem_of_here|done].
      * rewrite lookup_insert_ne by done. apply Hm.
    + rewrite (tagAttribute_skipped _ _ _ Hv'). apply Hm.
Qed.

(** X14: every entry of the merged tag map comes from an attribute of
    the span or of the resource with that key which is integer-typed or
    has a non-empty string form, and holds that attribute's text; so no
    entry of the tag map is ever the empty string. *)
Theorem newStructuredSpan_TagMap_entries
    (otelSpan : pdata.Span) (serviceName : string)
    (resource : pdata.Resource) (w : World) (k t : string) :
  Span.TagMap (newStructuredSpan otelSpan serviceName resource w).1 !! k
  = Some t ->
  t <> ""
  /\ exists v,
      ((k, v) ∈ pdata.span_Attributes otelSpan
       \/ (k, v) ∈ pdata.resource_Attributes resource)
      /\ applied v = true /\ t = tagValue v.
Proof.
  rewrite newStructuredSpan_TagMap. intros Hk.
  destruct (Range_tagAttribute_entries
              (pdata.span_Attributes otelSpan
               ++ pdata.resource_Attributes resource)%list
              (pdata.resource_Attributes resource)
              (pdata.Range (pdata.span_Attributes otelSpan) tagAttribute ∅))
    with (k := k) (t := t) as (v & Hin & Hv & ->).
  - intros kv Hkv. apply elem_of_app. by right.
  - apply Range_tagAttribute_entries.
    + intros kv Hkv. apply elem_of_app. by left.
    + intros k0 t0. by rewrite lookup_empty.
  - exact Hk.
  - split; [by apply tagValue_nonempty|].
    exists v. apply elem_of_app in Hin. done.
Qed.

(** *** The writer when serialisation succeeds *)

Lemma marshalAndSend_sent writer ctx data w :
  (json_Marshal_data data).2 = None ->
  exists msg r,
    kafka.Key msg = "1"
    /\ marshalAndSend writer ctx data w
       = (r, mkWorld (history w ++ attempt writer msg r) (randReads w)).
Proof.
  intros Hd. unfold marshalAndSend, sendMessage, zap_Error, emit.
  unfold mbind, M_bind, bind, mret, M_ret, ret, append, attempt.
  destruct (json_Marshal_data data) as [bytes err]. simpl in Hd. subst err.
  eexists _, (WriteMessages writer ctx (history w) _).
  split; [|destruct (WriteMessages writer ctx (history w) _) eqn:Hr;
           simpl; rewrite Hr; simpl; [by rewrite <- app_assoc|done]].
  reflexivity.
Qed.

Lemma writeModel_sent writer ctx span w :
  marshalsAlways ->
  exists msg r,
    kafka.Key msg = "1"
    /\ writeModel writer ctx span w
       = (r, mkWorld (history w ++ attempt writer msg r) (randReads w)).
Proof.
  intros [Htm Hd]. unfold writeModel.
  specialize (Htm (Span.TraceModel span)).
  destruct (json_Marshal_TraceModel (Span.TraceModel span)) as [bytes err].
  simpl in Htm. subst err. by apply marshalAndSend_sent.
Qed.

Lemma writeIndex_sent writer ctx span w :
  marshalsAlways ->
  exists msg r,
    kafka.Key msg = "1"
    /\ writeIndex writer ctx span w
       = (r, mkWorld (history w ++ attempt writer msg r) (randReads w)).
Proof. intros [_ Hd]. unfold writeIndex. by apply marshalAndSend_sent. Qed.

Lemma writeError_sent writer ctx span w :
  marshalsAlways ->
  String.eqb (Event.Name (Span.ErrorEvent span)) "" = false ->
  exists msg r,
    kafka.Key msg = "1"
    /\ writeError writer ctx span w
       = (r, mkWorld (history w ++ attempt writer msg r) (randReads w)).
Proof.
  intros [_ Hd] Hname. unfold writeError. rewrite Hname.
  by apply marshalAndSend_sent.
Qed.

Lemma writeError_skipped writer ctx span w :
  String.eqb (Event.Name (Span.ErrorEvent span)) "" = true ->
  writeError writer ctx span w = (None, w).
Proof. intros Hname. unfold writeError. by rewrite Hname. Qed.

Lemma world_eta w : mkWorld (history w) (randReads w) = w.
Proof. by destruct w. Qed.

Lemma goesTo_skip : goesTo (fun w => (None, w)) [].
Proof.
  intros w. exists [], None. rewrite app_nil_r, world_eta.
  split; [done|]. split; [by exists []|]. by repeat split.
Qed.

Lemma goesTo_attempt (m : M (option error)) writer :
  (forall w, exists msg r,
      kafka.Key msg = "1"
      /\ m w = (r, mkWorld (history w ++ attempt writer msg r)
                     (randReads w))) ->
  goesTo m [writer].
Proof.
  intros Hm w. destruct (Hm w) as (msg & r & Hkey & ->).
  exists (attempt writer msg r), r. split; [done|].
  unfold attempt. destruct r as [e|]; simpl.
  - split; [exists []; by repeat split|].
    split; [by repeat constructor|].
    split; [|done]. intros e' [= <-].
    apply list_elem_of_further, list_elem_of_here.
  - split; [exists []; by repeat split|].
    split; [by repeat constructor|].
    split; [done|]. intros _. by repeat constructor.
Qed.

Lemma goesTo_orReturn step rest p q :
  goesTo step p -> goesTo rest q -> goesTo (orReturn step rest) (p ++ q).
Proof.
  intros Hstep Hrest w. unfold orReturn.
  destruct (Hstep w)
    as (ext1 & r1 & -> & (rest1 & -> & Hn1 & Hs1) & Hk1 & Hl1 & Hnl1).
  destruct r1 as [e|].
  - exists ext1, (Some e). split; [done|].
    split; [|by repeat split].
    exists (rest1 ++ q)%list. rewrite app_assoc. by repeat split.
  - rewrite (Hn1 eq_refl), app_nil_r.
    destruct (Hrest (mkWorld (history w ++ ext1) (randReads w)))
      as (ext2 & r2 & -> & (rest2 & -> & Hn2 & Hs2) & Hk2 & Hl2 & Hnl2).
    cbn [history randReads].
    exists (ext1 ++ ext2)%list, r2. rewrite <- app_assoc.
    split; [done|]. rewrite !omap_app. split; [|split; [|split]].
    + exists rest2. rewrite <- app_assoc. split; [done|]. split; [done|].
      intros e He Hnil. apply app_eq_nil in Hnil as [_ Hnil].
      by apply (Hs2 e He).
    + apply Forall_app. done.
    + intros e He. apply elem_of_app. right. by apply Hl2.
    + intros Hr. apply Forall_app. split; [by apply Hnl1|by apply Hnl2].
Qed.

Lemma goesTo_ext (m m' : M (option error)) p :
  (forall w, m w = m' w) -> goesTo m' p -> goesTo m p.
Proof.
  intros Heq Hm w. rewrite Heq. apply Hm.
Qed.

Lemma write_orReturn s ctx span w :
  write s ctx span w
  = orReturn
      (match spanKafkaWriter s with
       | Some writer => writeModel writer ctx span
       | None => fun w => (None, w)
       end)
      (orReturn
         (match indexKafkaWriter s with
          | Some writer => writeIndex writer ctx span
          | None => fun w => (None, w)
          end)
         (match errorKafkaWriter s with
          | Some writer => writeError writer ctx span
          | None => fun w => (None, w)
          end)) w.
Proof.
  unfold write, orReturn, mbind, M_bind, bind, mret, M_ret, ret.
  destruct (match spanKafkaWriter s with
            | Some writer => writeModel writer ctx span
            | None => _
            end w) as [[e1|] w1]; [done|].
  destruct (match indexKafkaWriter s with
            | Some writer => writeIndex writer ctx span
            | None => _
            end w1) as [[e2|] w2]; [done|].
  destruct (match errorKafkaWriter s with
            | Some writer => writeError writer ctx span
            | None => _
            end w2) as [[e3|] w3]; done.
Qed.

(** The shape of a write when serialisation succeeds. *)
Lemma write_goesTo s ctx span :
  marshalsAlways -> goesTo (write s ctx span) (plan s span).
Proof.
  intros Hm. apply (goesTo_ext _ _ _ (write_orReturn s ctx span)).
  unfold plan. apply goesTo_orReturn; [|apply goesTo_orReturn].
  - destruct (spanKafkaWriter s) as [writer|]; [|apply goesTo_skip].
    apply goesTo_attempt. intros w. by apply writeModel_sent.
  - destruct (indexKafkaWriter s) as [writer|]; [|apply goesTo_skip].
    apply goesTo_attempt. intros w. by apply writeIndex_sent.
  - destruct (String.eqb (Event.Name (Span.ErrorEvent span)) "") eqn:Hname.
    + destruct (errorKafkaWriter s) as [writer|]; [|apply goesTo_skip].
      apply (goesTo_ext _ (fun w => (None, w))); [|apply goesTo_skip].
      intros w. by apply writeError_skipped.
    + destruct (errorKafkaWriter s) as [writer|]; [|apply goesTo_skip].
      apply goesTo_attempt. intros w. by apply writeError_sent.
Qed.


(** *** The batch driver on an initialised exporter *)

Lemma writesTo_app topic l1 l2 :
  writesTo topic (l1 ++ l2) = (writesTo topic l1 + writesTo topic l2)%nat.
Proof. unfold writesTo. by rewrite List.filter_app, length_app. Qed.

Lemma writesTo_writers topic ext :
  writesTo topic ext
  = length (List.filter (onTopic topic) (omap writerOf ext)).
Proof.
  unfold writesTo. induction ext as [|[writer msg r|msg e] ext IH]; [done| |].
  - cbn. unfold onTopic at 1. destruct (String.eqb _ _); cbn; by rewrite IH.
  - cbn. apply IH.
Qed.

(** On the initialised exporter the plan of a record is the spans and
    index writers, then the error writer when there is an error event;
    any non-empty initial part of it holds exactly one writer on the
    spans topic, and none on the error topic unless there is an error
    event. *)
Lemma plan_init_counts s0 span ws rest :
  plan (init s0) span = (ws ++ rest)%list ->
  ws <> [] ->
  length (List.filter (onTopic spansTopic) ws) = 1%nat
  /\ (String.eqb (Event.Name (Span.ErrorEvent span)) "" = true ->
      length (List.filter (onTopic errorTopic) ws) = 0%nat).
Proof.
  unfold plan, init. cbn [spanKafkaWriter indexKafkaWriter errorKafkaWriter
                          configured].
  intros Hplan Hws.
  destruct (String.eqb (Event.Name (Span.ErrorEvent span)) "");
    destruct ws as [|a [|b [|c [|d ws]]]]; try done;
    simpl in Hplan; simplify_eq; split; try done; by intros _.
Qed.

Lemma pushTraceData_fold s ctx td w :
  (pushTraceData s ctx td w).2
  = fold_left
      (fun w item => (pushSpan s ctx item.1.1 item.1.2 item.2 w).2)
      (spansInOrder td) w.
Proof.
  unfold pushTraceData, mbind, M_bind, bind.
  rewrite forEach_fold. simpl.
  unfold spansInOrder. rewrite fold_left_flat_map.
  apply fold_left_ext_in. intros c rs.
  rewrite forEach_fold. simpl. rewrite fold_left_flat_map.
  apply fold_left_ext_in. intros c' ils.
  rewrite forEach_fold. simpl.
  by rewrite fold_left_fmap.
Qed.

(** One span on the initialised exporter. *)
Lemma pushSpan_init s0 ctx serviceName resource span w :
  marshalsAlways ->
  exists ext,
    (pushSpan (init s0) ctx serviceName resource span w).2
    = mkWorld (history w ++ ext) (randReads w + exceptionsOf span)
    /\ writesTo spansTopic ext = 1%nat
    /\ (existsb isException (pdata.span_Events span) = false ->
        writesTo errorTopic ext = 0%nat).
Proof.
  intros Hm. rewrite pushSpan_world.
  pose proof (newStructuredSpan_effects span serviceName resource w) as Hw1.
  destruct (newStructuredSpan_fields span serviceName resource w)
    as (_ & _ & _ & Hname). cbv zeta in Hname.
  destruct (newStructuredSpan span serviceName resource w) as [r w1].
  cbn [fst snd] in Hw1, Hname.
  change (length (filter isException (pdata.span_Events span)))
    with (exceptionsOf span) in Hw1.
  subst w1.
  destruct (write_goesTo (init s0) ctx r Hm
              (mkWorld (history w) (randReads w + exceptionsOf span)))
    as (ext & err & -> & (rest & Hplan & Hnil & Hsome) & _).
  cbn [history randReads].
  assert (omap writerOf ext <> []) as Hne.
  { destruct err as [e|]; [by apply (Hsome e)|].
    rewrite (Hnil eq_refl), app_nil_r in Hplan. rewrite <- Hplan.
    unfold plan, init. by cbn. }
  destruct (plan_init_counts s0 r _ _ Hplan Hne) as [Hspans Herror].
  assert (existsb isException (pdata.span_Events span) = false ->
          writesTo errorTopic ext = 0%nat) as Herror'.
  { intros Hnone. rewrite writesTo_writers. apply Herror.
    by rewrite Hname, Hnone. }
  destruct err as [e|].
  - exists (ext ++ [LogError logMessage e])%list.
    rewrite <- app_assoc. split; [done|].
    rewrite !writesTo_app. cbn. rewrite !Nat.add_0_r.
    split; [by rewrite writesTo_writers|done].
  - exists ext. split; [done|]. split; [by rewrite writesTo_writers|done].
Qed.

(** X16: on the initialised exporter, when serialisation does not fail,
    a batch hands exactly one message per span to the spans topic,
    whatever the broker answers to any of them; it hands nothing to the
    error topic when no span has an exception event; and it reads the
    random source once per exception event of the batch. *)
Theorem pushTraceData_messages
    (s0 : storage) (ctx : Context) (td : pdata.Traces) (w : World) :
  marshalsAlways ->
  let w' := (pushTraceData (init s0) ctx td w).2 in
  writesTo spansTopic (history w')
  = (writesTo spansTopic (history w) + length (spansInOrder td))%nat
  /\ (Forall (fun item =>
                existsb isException (pdata.span_Events item.2) = false)
             (spansInOrder td) ->
      writesTo errorTopic (history w') = writesTo errorTopic (history w))
  /\ randReads w'
     = (randReads w
        + sum_list (map (fun item => exceptionsOf item.2)
                        (spansInOrder td)))%nat.
Proof.
  intros Hm w'. subst w'. rewrite pushTraceData_fold.
  generalize (spansInOrder td). intros items. revert w.
  induction items as [|[[serviceName resource] span] items IH]; intros w.
  - simpl. repeat split; lia.
  - cbn [fold_left fst snd].
    destruct (pushSpan_init s0 ctx serviceName resource span w Hm)
      as (ext & -> & Hspans & Herror).
    destruct (IH (mkWorld (history w ++ ext)
                    (randReads w + exceptionsOf span)))
      as (IH1 & IH2 & IH3).
    cbn [history randReads] in IH1, IH2, IH3.
    rewrite IH1, IH3, !writesTo_app, Hspans. cbn [length map sum_list
      sum_list_with snd].
    unfold id. split; [lia|]. split; [|lia].
    intros Hall. apply Forall_cons in Hall as [Hhere Hall].
    rewrite (IH2 Hall), writesTo_app, (Herror Hhere). lia.
Qed.

(** *** The error-group id *)

Lemma md5_Sum_length data : length (md5.Sum data) = 16%nat.
Proof. unfold md5.Sum, md5.putUint32. cbv zeta. reflexivity. Qed.

(** X17: the error-group id stored with the last exception event is 32
    lowercase hexadecimal digits, and it depends on the service name and
    on the exception type and message only through their concatenation:
    two extractions whose three texts differ but concatenate to the same
    text get the same group id. *)
Theorem populateEvents_ErrorGroupID
    (pre post : list pdata.SpanEvent) (e : pdata.SpanEvent)
    (span : Span.t) (w : World) :
  isException e = true ->
  forallb (fun ev => negb (isException ev)) post = true ->
  let groupID :=
    Span.ErrorGroupID (populateEvents (pre ++ e :: post) span w).1 in
  String.length groupID = 32%nat
  /\ forallb isHexDigit (list_ascii_of_string groupID) = true
  /\ (forall pre' post' e' span' w',
        isException e' = true ->
        forallb (fun ev => negb (isException ev)) post' = true ->
        Span.ServiceName span
        ++ mapIndex (Event.AttributeMap (eventRecord e)) "exception.type"
        ++ mapIndex (Event.AttributeMap (eventRecord e)) "exception.message"
        = Span.ServiceName span'
          ++ mapIndex (Event.AttributeMap (eventRecord e')) "exception.type"
          ++ mapIndex (Event.AttributeMap (eventRecord e'))
                      "exception.message" ->
        Span.ErrorGroupID (populateEvents (pre' ++ e' :: post') span' w').1
        = groupID).
Proof.
  intros He Hpost groupID. subst groupID.
  destruct (populateEvents_last_exception pre e post span w He Hpost)
    as (_ & _ & ->).
  unfold groupIDOf. split; [|split].
  - by rewrite EncodeToString_length, md5_Sum_length.
  - apply EncodeToString_hex.
  - intros pre' post' e' span' w' He' Hpost' Hcat.
    destruct (populateEvents_last_exception pre' e' post' span' w' He' Hpost')
      as (_ & _ & ->).
    unfold groupIDOf. by rewrite Hcat.
Qed.

End Exporter.

(** C3: the error-group id depends only on the service name and on the
    exception type and message of the last exception event. Two runs of
    the extraction, over any two event lists, records, serialisers, random
    sources and worlds, yield the same group id as soon as these three
    values agree. *)
Theorem error_group_id_deterministic
    (marshal1 marshal2 : Event.t -> string * option error)
    (rand1 rand2 : nat -> vec byte 16)
    (pre1 post1 pre2 post2 : list pdata.SpanEvent)
    (e1 e2 : pdata.SpanEvent) (span1 span2 : Span.t) (w1 w2 : World) :
  isException e1 = true ->
  forallb (fun ev => negb (isException ev)) post1 = true ->
  isException e2 = true ->
  forallb (fun ev => negb (isException ev)) post2 = true ->
  Span.ServiceName span1 = Span.ServiceName span2 ->
  mapIndex (Event.AttributeMap (eventRecord e1)) "exception.type"
  = mapIndex (Event.AttributeMap (eventRecord e2)) "exception.type" ->
  mapIndex (Event.AttributeMap (eventRecord e1)) "exception.message"
  = mapIndex (Event.AttributeMap (eventRecord e2)) "exception.message" ->
  Span.ErrorGroupID
    (populateEvents marshal1 rand1 (pre1 ++ e1 :: post1) span1 w1).1
  = Span.ErrorGroupID
      (populateEvents marshal2 rand2 (pre2 ++ e2 :: post2) span2 w2).1.
Proof.
  intros He1 Hp1 He2 Hp2 Hsvc Hty Hmsg.
  destruct (populateEvents_last_exception marshal1 rand1 pre1 e1 post1
              span1 w1 He1 Hp1) as (_ & _ & ->).
  destruct (populateEvents_last_exception marshal2 rand2 pre2 e2 post2
              span2 w2 He2 Hp2) as (_ & _ & ->).
  by rewrite Hsvc, Hty, Hmsg.
Qed.

(** ** Closed instances *)

(** An instance of the reference builder with a nonzero parent and two
    links. *)
Lemma makeJaegerProtoReferences_parent_first_witness :
  pdata.SpanID_IsEmpty sampleSpanID = false
  /\ length (makeJaegerProtoReferences sampleLinks sampleSpanID sampleTraceID).1
     = 3%nat.
Proof.
  split; [reflexivity|].
  exact (proj1 (proj2
    (makeJaegerProtoReferences_parent_first sampleLinks sampleSpanID
       sampleTraceID eq_refl))).
Defined.

(** Two extractions that share only the service name and the type and
    message of their last exception event: different event lists,
    different random sources, different worlds, one group id. *)
Lemma error_group_id_deterministic_witness :
  Span.ErrorGroupID
    (populateEvents sampleMarshalEvent sampleRandom sampleEvents
       (recordFor "checkout" 3) world0).1
  = Span.ErrorGroupID
      (populateEvents sampleMarshalEvent (fun _ => vreplicate 16 x2a)
         [ pdata.mkSpanEvent "exception" 99
             [ ("exception.message", pdata.ValueString "bad card");
               ("exception.escaped", pdata.ValueString "true");
               ("exception.type", pdata.ValueString "ValidationError") ] ]
         (recordFor "checkout" 2) (mkWorld [] 7)).1.
Proof.
  apply (error_group_id_deterministic sampleMarshalEvent sampleMarshalEvent
           sampleRandom (fun _ => vreplicate 16 x2a)
           [ exceptionEvent "Timeout" "upstream timed out" 10;
             pdata.mkSpanEvent "retry" 11 [ ("attempt", pdata.ValueInt 2) ] ]
           [ pdata.mkSpanEvent "done" 13 [] ]
           [] []
           (exceptionEvent "ValidationError" "bad card" 12)
           (pdata.mkSpanEvent "exception" 99
              [ ("exception.message", pdata.ValueString "bad card");
                ("exception.escaped", pdata.ValueString "true");
                ("exception.type", pdata.ValueString "ValidationError") ])
           (recordFor "checkout" 3) (recordFor "checkout" 2)
           world0 (mkWorld [] 7));
    vm_compute; reflexivity.
Defined.

(** The group id of the sample is the MD5 digest of
    "checkoutValidationErrorbad card". *)
Example sample_group_id :
  Span.ErrorGroupID
    (populateEvents sampleMarshalEvent sampleRandom sampleEvents
       (recordFor "checkout" 3) world0).1
  = "4b7e8a4f0ab0f32718e9b9af1385bdd3".
Proof. vm_compute. reflexivity. Qed.

(** The sample list holds two exception events; the record ends with the
    second one, the second identifier drawn and the second digest. *)
Lemma populateEvents_last_exception_wins_witness :
  let span' :=
    (populateEvents sampleMarshalEvent sampleRandom sampleEvents
       (recordFor "checkout" 3) world0).1 in
  Event.TimeUnixNano (Span.ErrorEvent span') = 12
  /\ Event.IsError (Span.ErrorEvent span') = true
  /\ Span.ErrorID span' = errorIDOf (sampleRandom 1)
  /\ Span.ErrorGroupID span'
     = groupIDOf "checkout" "ValidationError" "bad card".
Proof.
  destruct (populateEvents_last_exception_wins sampleMarshalEvent
              sampleRandom
              [ exceptionEvent "Timeout" "upstream timed out" 10;
                pdata.mkSpanEvent "retry" 11
                  [ ("attempt", pdata.ValueInt 2) ] ]
              [ pdata.mkSpanEvent "done" 13 [] ]
              (exceptionEvent "ValidationError" "bad card" 12)
              (recordFor "checkout" 3) world0 eq_refl eq_refl)
    as (Hevent & Hid & Hgroup).
  cbv zeta. split; [|split; [|split]].
  - exact (f_equal Event.TimeUnixNano Hevent).
  - exact (f_equal Event.IsError Hevent).
  - exact Hid.
  - exact Hgroup.
Defined.

(** The string form "2" sets has-error and is stored as "2"; the string
    form "0" falls back to the numeric form, zero, and leaves has-error
    unset. *)
Lemma populateOtherDimensions_grpc_status_code_witness :
  let two :=
    populateOtherDimensions string sampleParse sampleHostname
      [ ("rpc.grpc.status_code", pdata.ValueString "2") ]
      (recordFor "checkout" 2) in
  let zero :=
    populateOtherDimensions string sampleParse sampleHostname
      [ ("rpc.grpc.status_code", pdata.ValueString "0") ]
      (recordFor "checkout" 2) in
  (Span.GRPCCode two = "2" /\ Span.HasError two = true)
  /\ (Span.GRPCCode zero = "0" /\ Span.HasError zero = false).
Proof.
  cbv zeta. split.
  - destruct (populateOtherDimensions_grpc_status_code string sampleParse
                sampleHostname [] [] (pdata.ValueString "2")
                (recordFor "checkout" 2))
      as (_ & code & Hparsed & _ & Hgrpc & _ & Herr & _).
    assert (code = 2) as -> by (apply Hparsed; [reflexivity|lia]).
    split; [exact Hgrpc|apply Herr; lia].
  - destruct (populateOtherDimensions_grpc_status_code string sampleParse
                sampleHostname [] [] (pdata.ValueString "0")
                (recordFor "checkout" 2))
      as (_ & code & _ & Hnumeric & Hgrpc & _ & _ & Hkeep).
    assert (code = 0) as -> by (apply Hnumeric; right; reflexivity).
    split; [exact Hgrpc|apply Hkeep; lia].
Defined.

(** On a client span the URL is reduced to its hostname and filed as
    external; on a server span it is kept whole in the plain field. *)
Lemma populateOtherDimensions_http_url_method_witness :
  let url := pdata.ValueString "https://api.example.com/v1" in
  Span.ExternalHttpUrl
    (projectAttribute string sampleParse sampleHostname
       [ ("http.url", url) ] "http.url" url (recordFor "A" 3))
  = "api.example.com"
  /\ Span.HttpUrl
       (projectAttribute string sampleParse sampleHostname
          [ ("http.url", url) ] "http.url" url (recordFor "A" 2))
     = "https://api.example.com/v1".
Proof.
  cbv zeta. split.
  - destruct (populateOtherDimensions_http_url_method string sampleParse
                sampleHostname [] []
                (pdata.ValueString "https://api.example.com/v1")
                (recordFor "A" 3)) as (_ & _ & Hclient & _).
    destruct (Hclient eq_refl) as (Hurl & _). exact Hurl.
  - destruct (populateOtherDimensions_http_url_method string sampleParse
                sampleHostname [] []
                (pdata.ValueString "https://api.example.com/v1")
                (recordFor "A" 2)) as (_ & _ & _ & Hother).
    assert ((2 : Z) <> 3) as Hkind by lia.
    destruct (Hother Hkind) as (Hurl & _). exact Hurl.
Defined.

Ltac by_cases_on_members Hv :=
  repeat (apply elem_of_cons in Hv as [Hv|Hv];
          [simplify_eq;
           first [reflexivity | split; [discriminate|reflexivity] | idtac]|]);
  try (by apply elem_of_nil in Hv).

(** C6, against the claim as stated: the key "region" is in both bags,
    the resource gives it an empty string (and "debug" a boolean), and
    the final tag map holds the span-level values. *)
Lemma tag_map_resource_precedence_counterexample :
  let otelSpan :=
    sampleSpan [ ("region", pdata.ValueString "eu");
                 ("debug", pdata.ValueString "on") ] in
  let resource :=
    pdata.mkResource [ ("region", pdata.ValueString "");
                       ("debug", pdata.ValueBool true) ] in
  let tagMap :=
    Span.TagMap
      (newStructuredSpan string sampleParse sampleHostname
         sampleMarshalEvent sampleRandom otelSpan "checkout" resource
         world0).1 in
  ("region", pdata.ValueString "eu") ∈ pdata.span_Attributes otelSpan
  /\ ("region", pdata.ValueString "") ∈ pdata.resource_Attributes resource
  /\ tagMap !! "region" = Some "eu"
  /\ tagMap !! "region" <> Some ""
  /\ tagMap !! "debug" = Some "on".
Proof.
  cbv zeta. repeat split.
  - apply list_elem_of_here.
  - apply list_elem_of_here.
  - vm_compute. discriminate.
Qed.

(** A resource bag with an applied value followed by a skipped one for
    the same key: the applied value wins over the span's. *)
Lemma tag_map_resource_precedence_witness :
  Span.TagMap
    (newStructuredSpan string sampleParse sampleHostname
       sampleMarshalEvent sampleRandom
       (sampleSpan [ ("region", pdata.ValueString "eu") ]) "checkout"
       (pdata.mkResource [ ("zone", pdata.ValueInt 4);
                           ("region", pdata.ValueString "us");
                           ("region", pdata.ValueBool true) ])
       world0).1 !! "region"
  = Some "us".
Proof.
  refine (proj2 (tag_map_resource_precedence string sampleParse
                   sampleHostname sampleMarshalEvent sampleRandom
                   (sampleSpan [ ("region", pdata.ValueString "eu") ])
                   "checkout"
                   (pdata.mkResource [ ("zone", pdata.ValueInt 4);
                                       ("region", pdata.ValueString "us");
                                       ("region", pdata.ValueBool true) ])
                   world0
                   [ ("zone", pdata.ValueInt 4) ]
                   [ ("region", pdata.ValueBool true) ]
                   "region" (pdata.ValueString "us") eq_refl eq_refl _)).
  intros v' Hv. by_cases_on_members Hv.
Defined.

(** C10, against the claim as stated: the span attribute "region" is an
    empty string, yet the merged tag map has an entry for "region", the
    one the resource supplies. *)
Lemma tag_map_skips_empty_values_counterexample :
  let otelSpan := sampleSpan [ ("region", pdata.ValueString "") ] in
  let resource := pdata.mkResource [ ("region", pdata.ValueString "eu") ] in
  let tagMap :=
    Span.TagMap
      (newStructuredSpan string sampleParse sampleHostname
         sampleMarshalEvent sampleRandom otelSpan "checkout" resource
         world0).1 in
  ("region", pdata.ValueString "") ∈ pdata.span_Attributes otelSpan
  /\ pdata.AttributeValue_Type (pdata.ValueString "")
     <> pdata.AttributeValueTypeInt
  /\ pdata.StringVal (pdata.ValueString "") = ""
  /\ tagMap !! "region" = Some "eu"
  /\ tagMap !! "region" <> None.
Proof.
  cbv zeta. repeat split.
  - apply list_elem_of_here.
  - discriminate.
  - vm_compute. discriminate.
Qed.

(** A key whose attributes are all skipped has no entry, and a skipped
    resource-level value leaves the span-level entry in place. *)
Lemma tag_map_skips_empty_values_witness :
  let otelSpan :=
    sampleSpan [ ("region", pdata.ValueString "eu");
                 ("debug", pdata.ValueBool true) ] in
  let resource :=
    pdata.mkResource [ ("region", pdata.ValueDouble 0);
                       ("debug", pdata.ValueString "") ] in
  let tagMap :=
    Span.TagMap
      (newStructuredSpan string sampleParse sampleHostname
         sampleMarshalEvent sampleRandom otelSpan "checkout" resource
         world0).1 in
  tagMap !! "debug" = None /\ tagMap !! "region" = Some "eu".
Proof.
  cbv zeta. split.
  - refine (proj1 (proj2 (proj2 (proj2
              (tag_map_skips_empty_values string sampleParse
                 sampleHostname sampleMarshalEvent sampleRandom
                 _ "checkout" _ world0 "debug")))) _ _);
      intros v Hv; simpl in Hv; by_cases_on_members Hv.
  - refine (eq_trans
              (proj2 (proj2 (proj2 (proj2
                 (tag_map_skips_empty_values string sampleParse
                    sampleHostname sampleMarshalEvent sampleRandom
                    _ "checkout" _ world0 "region")))) _) _).
    + intros v Hv. simpl in Hv. by_cases_on_members Hv.
    + vm_compute. reflexivity.
Defined.

(** With the spans topic refused, [write] returns the broker's error
    after a single message; with only the index topic refused, the model
    message goes through and nothing reaches the error topic. *)
Lemma write_fail_fast_witness :
  let run down :=
    write sampleMarshalTraceModel sampleMarshalData unit (sampleBroker down)
      sampleClock sampleStorage tt (recordFor "checkout" 3) world0 in
  ((run [spansTopic]).1 = Some "broker unreachable"
   /\ map (isWriteTo spansTopic) (history (run [spansTopic]).2)
      = [true; false])
  /\ ((run [indexTopic]).1 = Some "broker unreachable"
      /\ filter (isWriteTo errorTopic) (history (run [indexTopic]).2) = []).
Proof.
  cbv zeta. split.
  - destruct (proj1 (write_fail_fast sampleMarshalTraceModel
                       sampleMarshalData unit (sampleBroker [spansTopic])
                       sampleClock sampleStorage tt (recordFor "checkout" 3)
                       world0)
                spansWriter "broker unreachable"
                (writeModel sampleMarshalTraceModel sampleMarshalData unit
                   (sampleBroker [spansTopic]) sampleClock spansWriter tt
                   (recordFor "checkout" 3) world0).2
                eq_refl eq_refl) as [-> _].
    split; reflexivity.
  - destruct (proj2 (write_fail_fast sampleMarshalTraceModel
                       sampleMarshalData unit (sampleBroker [indexTopic])
                       sampleClock sampleStorage tt (recordFor "checkout" 3)
                       world0)
                indexWriter "broker unreachable"
                (writeModel sampleMarshalTraceModel sampleMarshalData unit
                   (sampleBroker [indexTopic]) sampleClock spansWriter tt
                   (recordFor "checkout" 3) world0).2
                (writeIndex sampleMarshalData unit
                   (sampleBroker [indexTopic]) sampleClock indexWriter tt
                   (recordFor "checkout" 3)
                   (writeModel sampleMarshalTraceModel sampleMarshalData unit
                      (sampleBroker [indexTopic]) sampleClock spansWriter tt
                      (recordFor "checkout" 3) world0).2).2
                eq_refl eq_refl eq_refl) as [-> _].
    split; reflexivity.
Defined.

(** A batch of three spans whose index writes are all refused: the
    driver returns nil, three model messages were sent and each failure
    was logged by the writer and by the driver. *)
Lemma pushTraceData_best_effort_witness :
  let result :=
    pushTraceData string sampleParse sampleHostname sampleMarshalEvent
      sampleMarshalTraceModel sampleMarshalData unit
      (sampleBroker [indexTopic]) sampleClock sampleRandom sampleStorage tt
      sampleBatch world0 in
  result.1 = None
  /\ length (filter (isWriteTo spansTopic) (history result.2)) = 3%nat
  /\ length (filter (isWriteTo indexTopic) (history result.2)) = 3%nat
  /\ length (filter isLogError (history result.2)) = 6%nat.
Proof.
  cbv zeta. split.
  - exact (proj1 (pushTraceData_best_effort string sampleParse
                    sampleHostname sampleMarshalEvent
                    sampleMarshalTraceModel sampleMarshalData unit
                    (sampleBroker [indexTopic]) sampleClock sampleRandom
                    sampleStorage tt sampleBatch world0)).
  - vm_compute. repeat split.
Defined.

(** ** Closed instances of the further properties *)

(** An integer service name is read as the empty string, and a second
    service.name attribute is not consulted. *)
Lemma ServiceNameForResource_cases_witness :
  ServiceNameForResource (pdata.mkResource [ ("region", pdata.ValueString "eu") ])
  = "<nil-service-name>"
  /\ ServiceNameForResource
       (pdata.mkResource [ ("region", pdata.ValueString "eu");
                           ("service.name", pdata.ValueInt 7);
                           ("service.name", pdata.ValueString "checkout") ])
     = "".
Proof.
  split.
  - apply (proj1 (ServiceNameForResource_cases _)).
    intros v Hv. simpl in Hv. by_cases_on_members Hv.
  - refine (proj2 (proj2 (ServiceNameForResource_cases
                            (pdata.mkResource
                               [ ("region", pdata.ValueString "eu");
                                 ("service.name", pdata.ValueInt 7);
                                 ("service.name",
                                  pdata.ValueString "checkout") ]))
                     [ ("region", pdata.ValueString "eu") ]
                     (pdata.ValueInt 7)
                     [ ("service.name", pdata.ValueString "checkout") ]
                     eq_refl _) _); [|discriminate].
    intros v Hv. by_cases_on_members Hv.
Defined.

Lemma populateOtherDimensions_ignores_unknown_witness :
  populateOtherDimensions string sampleParse sampleHostname
    unknownAttributes (recordFor "A" 3)
  = recordFor "A" 3.
Proof.
  apply (populateOtherDimensions_ignores_unknown string sampleParse
           sampleHostname unknownAttributes (recordFor "A" 3)).
  intros kv Hkv. unfold unknownAttributes in Hkv.
  by_cases_on_members Hkv;
    cbn [fst]; unfold knownKeys; intros Hin;
    repeat (apply elem_of_cons in Hin as [Hin|Hin]; [discriminate|]);
    by apply elem_of_nil in Hin.
Defined.

(** A status code sent as the string "500" is stored as "0" and does not
    mark the record as an error. *)
Lemma populateOtherDimensions_http_status_code_witness :
  let after :=
    projectAttribute string sampleParse sampleHostname
      [ ("http.status_code", pdata.ValueString "500") ]
      "http.status_code" (pdata.ValueString "500") (recordFor "A" 2) in
  Span.HttpCode after = "0" /\ Span.HasError after = false.
Proof.
  cbv zeta.
  destruct (populateOtherDimensions_http_status_code string sampleParse
              sampleHostname [] [] (pdata.ValueString "500")
              (recordFor "A" 2)) as (_ & _ & _ & _ & Hstring).
  assert (pdata.AttributeValue_Type (pdata.ValueString "500")
          <> pdata.AttributeValueTypeInt) as Hty by discriminate.
  destruct (Hstring Hty) as (Hcode & _ & Herr).
  split; [exact Hcode|exact Herr].
Defined.

(** A JSON-RPC error code after an HTTP status replaces it. *)
Lemma populateOtherDimensions_ResponseStatusCode_witness :
  Span.ResponseStatusCode
    (populateOtherDimensions string sampleParse sampleHostname
       [ ("http.status_code", pdata.ValueInt 200);
         ("rpc.jsonrpc.error_code", pdata.ValueString "-32600");
         ("http.route", pdata.ValueString "/rpc") ]
       (recordFor "A" 2))
  = "-32600".
Proof.
  refine (proj1 (populateOtherDimensions_ResponseStatusCode string
                   sampleParse sampleHostname _ (recordFor "A" 2))
            [ ("http.status_code", pdata.ValueInt 200) ]
            ("rpc.jsonrpc.error_code", pdata.ValueString "-32600")
            [ ("http.route", pdata.ValueString "/rpc") ]
            "-32600" eq_refl eq_refl _).
  intros kv Hkv. by_cases_on_members Hkv.
Defined.

(** The rpc.system attribute comes after rpc.method and still decides
    that the GRPC-method field is filled. *)
Lemma populateOtherDimensions_rpc_method_witness :
  let span' :=
    populateOtherDimensions string sampleParse sampleHostname
      [ ("rpc.method", pdata.ValueString "GetCart");
        ("rpc.system", pdata.ValueString "grpc") ]
      (recordFor "A" 3) in
  Span.RPCMethod span' = "GetCart" /\ Span.GRPCMethod span' = "GetCart".
Proof.
  refine (populateOtherDimensions_rpc_method string sampleParse
            sampleHostname []
            [ ("rpc.system", pdata.ValueString "grpc") ]
            (pdata.ValueString "GetCart") (recordFor "A" 3) _).
  intros kv Hkv. by_cases_on_members Hkv. discriminate.
Defined.

(** A span with status ok and two exception events is not marked as an
    error. *)
Lemma newStructuredSpan_HasError_witness :
  Span.HasError
    (newStructuredSpan string sampleParse sampleHostname sampleMarshalEvent
       sampleRandom (sampleSpan []) "checkout" (pdata.mkResource [])
       world0).1
  = false.
Proof.
  exact (eq_trans
           (newStructuredSpan_HasError string sampleParse sampleHostname
              sampleMarshalEvent sampleRandom (sampleSpan []) "checkout"
              (pdata.mkResource []) world0)
           eq_refl).
Defined.

(** A span that ends 500 ns before it starts gets the duration
    2^64 - 500. *)
Lemma newStructuredSpan_DurationNano_witness :
  Span.DurationNano
    (newStructuredSpan string sampleParse sampleHostname sampleMarshalEvent
       sampleRandom invertedSpan "checkout" (pdata.mkResource []) world0).1
  = 18446744073709551116.
Proof.
  refine (proj1 (newStructuredSpan_DurationNano string sampleParse
                   sampleHostname sampleMarshalEvent sampleRandom
                   invertedSpan "checkout" (pdata.mkResource []) world0
                   _ _)); simpl; lia.
Defined.

(** The error id of the sample: the second random read, as a version-4
    UUID without hyphens. *)
Lemma populateEvents_ErrorID_witness :
  Span.ErrorID
    (populateEvents sampleMarshalEvent sampleRandom sampleEvents
       (recordFor "checkout" 3) world0).1
  = "02020202020242028202020202020202".
Proof.
  exact (eq_trans
           (proj1 (populateEvents_ErrorID sampleMarshalEvent sampleRandom
                     [ exceptionEvent "Timeout" "upstream timed out" 10;
                       pdata.mkSpanEvent "retry" 11
                         [ ("attempt", pdata.ValueInt 2) ] ]
                     [ pdata.mkSpanEvent "done" 13 [] ]
                     (exceptionEvent "ValidationError" "bad card" 12)
                     (recordFor "checkout" 3) world0 eq_refl eq_refl))
           eq_refl).
Defined.

(** An exception whose type is absent and whose message is a boolean has
    empty texts for both. *)
Lemma eventRecord_AttributeMap_witness :
  let ev :=
    pdata.mkSpanEvent "exception" 5
      [ ("exception.message", pdata.ValueBool true) ] in
  Event.AttributeMap (eventRecord ev) !! "exception.type" = None
  /\ Event.AttributeMap (eventRecord ev) !! "exception.message" = Some "".
Proof.
  cbv zeta. split.
  - apply (proj1 (eventRecord_AttributeMap _ "exception.type")).
    intros v Hv. simpl in Hv. by_cases_on_members Hv.
  - refine (proj2 (proj2 (eventRecord_AttributeMap
                            (pdata.mkSpanEvent "exception" 5
                               [ ("exception.message",
                                  pdata.ValueBool true) ])
                            "exception.message")
                     [] (pdata.ValueBool true) [] eq_refl _) _ _);
      [|discriminate|discriminate].
    intros v Hv. by apply elem_of_nil in Hv.
Defined.

Lemma newStructuredSpan_TagMap_entries_witness :
  "7" <> ""
  /\ exists v,
      (("user.id", v) ∈ unknownAttributes
       \/ ("user.id", v) ∈ pdata.resource_Attributes (pdata.mkResource []))
      /\ applied v = true /\ "7" = tagValue v.
Proof.
  apply (newStructuredSpan_TagMap_entries string sampleParse sampleHostname
           sampleMarshalEvent sampleRandom (sampleSpan unknownAttributes)
           "checkout" (pdata.mkResource []) world0 "user.id" "7").
  vm_compute. reflexivity.
Defined.


(** The sample batch of three spans with the index topic refused: three
    messages reach the spans topic and six random reads are made, one
    per exception event. *)
Lemma pushTraceData_messages_witness :
  let w' :=
    (pushTraceData string sampleParse sampleHostname sampleMarshalEvent
       sampleMarshalTraceModel sampleMarshalData unit
       (sampleBroker [indexTopic]) sampleClock sampleRandom
       (init (mkStorage "http://pinot:9000" "kafka:9092" None None None)) tt
       sampleBatch world0).2 in
  writesTo spansTopic (history w') = 3%nat /\ randReads w' = 6%nat.
Proof.
  destruct (pushTraceData_messages string sampleParse sampleHostname
              sampleMarshalEvent sampleMarshalTraceModel sampleMarshalData
              unit (sampleBroker [indexTopic]) sampleClock sampleRandom
              (mkStorage "http://pinot:9000" "kafka:9092" None None None)
              tt sampleBatch world0
              (conj (fun _ => eq_refl) (fun _ => eq_refl)))
    as (Hspans & _ & Hreads).
  cbv zeta. split; [exact Hspans|exact Hreads].
Defined.

(** Service "check" with type "outValidationError" collides with service
    "checkout" and type "ValidationError": the group id is the same. *)
Lemma populateEvents_ErrorGroupID_witness :
  Span.ErrorGroupID
    (populateEvents sampleMarshalEvent sampleRandom
       [ exceptionEvent "outValidationError" "bad card" 1 ]
       (recordFor "check" 3) world0).1
  = Span.ErrorGroupID
      (populateEvents sampleMarshalEvent sampleRandom sampleEvents
         (recordFor "checkout" 3) world0).1.
Proof.
  refine (proj2 (proj2
            (populateEvents_ErrorGroupID sampleMarshalEvent sampleRandom
               [ exceptionEvent "Timeout" "upstream timed out" 10;
                 pdata.mkSpanEvent "retry" 11
                   [ ("attempt", pdata.ValueInt 2) ] ]
               [ pdata.mkSpanEvent "done" 13 [] ]
               (exceptionEvent "ValidationError" "bad card" 12)
               (recordFor "checkout" 3) world0 eq_refl eq_refl))
            [] [] (exceptionEvent "outValidationError" "bad card" 1)
            (recordFor "check" 3) world0 eq_refl eq_refl _).
  vm_compute. reflexivity.
Defined.
